(** * paperwork.py: the local mirror and its reconciliation with the remote host

    A shallow embedding of [paperworks/models.py] and of the part of
    [paperworks/wrapper.py] it calls.

    - Python objects live in a store and are named by references, because the
      code shares them: a [Note] points to its [Notebook], whose [notes] dict
      points back to the note.
    - A Python [dict] is an association list in insertion order, a [set] of
      objects a duplicate-free list of references.
    - A method is a computation over the store that ends in a value or in a
      raised exception.  The store it leaves behind is kept in both cases.
    - [wrapper.api.request] is the transport boundary.  Every request it is
      asked for is recorded, and the answer is whatever the remote host
      gives, [RNone] standing for Python's [None].
    - JSON payloads are taken at the shapes the code subscripts: ids, types
      and visibilities are integers, titles, contents and time stamps are
      strings. *)

From Stdlib Require Import ZArith Ascii String List Lia.
From stdpp Require Import base list strings pretty.
Import ListNotations.
Open Scope Z_scope.

(** ** Python values *)

Definition ref := nat.

Inductive exn := TypeError | KeyError | IndexError | InvalidRef.

Inductive outcome (A : Type) :=
| Ok (a : A)
| Raise (e : exn).
Arguments Ok {A} a.
Arguments Raise {A} e.

(** [str(int)], as ['{}'.format] applies it. *)
Definition str (z : Z) : string := pretty z.

(** [sep.join(parts)] *)
Fixpoint join (sep : string) (parts : list string) : string :=
  match parts with
  | [] => ""
  | [p] => p
  | p :: rest => p +:+ sep +:+ join sep rest
  end.

(** [template.format] on positional arguments: every [{}] takes the next
    argument.  Python raises [IndexError] when the arguments run out; spare
    ones are ignored. *)
Fixpoint format (template : string) (args : list string) : option string :=
  match template with
  | EmptyString => Some EmptyString
  | String c rest =>
      match rest with
      | String d rest' =>
          if (Ascii.eqb c "{"%char && Ascii.eqb d "}"%char)%bool then
            match args with
            | a :: args' => (fun s => a +:+ s) <$> format rest' args'
            | [] => None
            end
          else String c <$> format rest args
      | EmptyString => Some (String c EmptyString)
      end
  end.

(** *** dict: insertion ordered, keyed by integer ids *)

Module dict.

Definition t (V : Type) := list (Z * V).

Definition empty {V} : t V := [].

(** [d[k]] read; [None] is [KeyError]. *)
Fixpoint get {V} (d : t V) (k : Z) : option V :=
  match d with
  | [] => None
  | (k', v) :: rest => if Z.eqb k' k then Some v else get rest k
  end.

(** [d[k] = v]: an existing key keeps its place, a new one goes last. *)
Fixpoint set {V} (d : t V) (k : Z) (v : V) : t V :=
  match d with
  | [] => [(k, v)]
  | (k', v') :: rest =>
      if Z.eqb k' k then (k, v) :: rest else (k', v') :: set rest k v
  end.

Definition mem {V} (d : t V) (k : Z) : bool :=
  match get d k with Some _ => true | None => false end.

(** The entries left by [del d[k]]; a dict has a key once. *)
Fixpoint remove {V} (d : t V) (k : Z) : t V :=
  match d with
  | [] => []
  | (k', v') :: rest =>
      if Z.eqb k' k then remove rest k else (k', v') :: remove rest k
  end.

(** [del d[k]]; [None] is [KeyError]. *)
Definition del {V} (d : t V) (k : Z) : option (t V) :=
  if mem d k then Some (remove d k) else None.

Definition values {V} (d : t V) : list V := map snd d.

Definition keys {V} (d : t V) : list Z := map fst d.

End dict.

(** *** set of objects: compared by identity, so a set of references

    Python leaves the iteration order of a set open; here it is the order
    of insertion. *)

Module pyset.

Definition t := list ref.

Definition empty : t := [].

Definition mem (s : t) (r : ref) : bool := existsb (Nat.eqb r) s.

Definition add (s : t) (r : ref) : t := if mem s r then s else s ++ [r].

End pyset.

(** *** [sorted(items, key=...)] on string keys: stable, by Python's [<] *)

Section Sorted.
Context {A : Type} (key : A -> string).

Fixpoint insert_sorted (x : A) (l : list A) : list A :=
  match l with
  | [] => [x]
  | y :: rest =>
      if String.ltb (key y) (key x) then y :: insert_sorted x rest
      else x :: y :: rest
  end.

Definition sorted (l : list A) : list A := foldr insert_sorted [] l.
End Sorted.

(** ** The wire *)

(** [Tag.to_json], and a tag as the host sends it. *)
Record tag_json := {
  tj_id : Z;
  tj_title : string;
  tj_visibility : Z }.

(** [Notebook.to_json] *)
Record notebook_json := {
  nbj_type : Z;
  nbj_id : Z;
  nbj_title : string }.

(** [Note.to_json] *)
Record note_json := {
  nj_id : Z;
  nj_title : string;
  nj_content : string;
  nj_tags : list tag_json;
  nj_notebook_id : Z }.

(** A notebook as the host sends it. *)
Record notebook_remote := {
  nbr_id : Z;
  nbr_title : string;
  nbr_type : Z;
  nbr_updated_at : string }.

(** A note as the host sends it. *)
Record note_remote := {
  nr_id : Z;
  nr_title : string;
  nr_content : string;
  nr_updated_at : string;
  nr_tags : list tag_json;
  nr_notebook_id : Z }.

(** What [request] returns: [None], one JSON object, or a JSON array. *)
#[warnings="-register-all"] Inductive response :=
| RNone
| RNotebook (nb : notebook_remote)
| RNote (n : note_remote)
| RTag (t : tag_json)
| RList (items : list response).

Inductive method := GET | POST | PUT | DELETE.

Inductive body :=
| BNotebook (nb : notebook_json)
| BNote (n : note_json).

(** One call of [api.request], with its data, method, keyword and
    positional arguments. *)
Record request := {
  rq_data : option body;
  rq_method : method;
  rq_keyword : string;
  rq_args : list string }.

Definition api_path (keyword : string) : option string :=
  if String.eqb keyword "notebooks" then Some "notebooks"
  else if String.eqb keyword "notebook" then Some "notebooks/{}"
  else if String.eqb keyword "notes" then Some "notebooks/{}/notes"
  else if String.eqb keyword "note" then Some "notebooks/{}/notes/{}"
  else if String.eqb keyword "move" then Some "notebooks/{}/notes/{}/move/{}"
  else if String.eqb keyword "versions" then Some "notebooks/{}/notes/{}/versions"
  else if String.eqb keyword "version" then Some "notebooks/{}/notes/{}/versions/{}"
  else if String.eqb keyword "attachments"
       then Some "notebooks/{}/notes/{}/versions/{}/attachments"
  else if String.eqb keyword "attachment"
       then Some "notebooks/{}/notes/{}/versions/{}/attachments/{}"
  else if String.eqb keyword "tags" then Some "tags"
  else if String.eqb keyword "tag" then Some "tags/{}"
  else if String.eqb keyword "tagged" then Some "tagged/{}"
  else if String.eqb keyword "search" then Some "search/{}"
  else if String.eqb keyword "i18n" then Some "i18n"
  else if String.eqb keyword "i18nkey" then Some "i18n/{}"
  else None.

Definition api_version : string := "/api/v1/".

(** [api_version] followed by the formatted [api_path[keyword]]; [None]
    when the expression raises. *)
Definition uri_path (keyword : string) (args : list string) : option string :=
  template ← api_path keyword;
  path ← format template args;
  Some (api_version +:+ path).

(** ** The store *)

Record Notebook := {
  nb_id : Z;
  nb_title : string;
  nb_type : Z;
  nb_updated_at : string;
  nb_notes : dict.t ref }.

Record Note := {
  n_id : Z;
  n_title : string;
  n_notebook : ref;
  n_content : string;
  n_updated_at : string;
  n_tags : pyset.t }.

Record Tag := {
  t_id : Z;
  t_title : string;
  t_visibility : Z;
  t_notes : pyset.t }.

Record Paperwork := {
  notebooks : dict.t ref;
  tags : dict.t ref;
  authenticated : bool }.

(** The base class [Model]: what every entity has. *)
Class Model (A : Type) := {
  id : A -> Z;
  title : A -> string }.

#[export] Instance Notebook_Model : Model Notebook :=
  {| id := nb_id; title := nb_title |}.
#[export] Instance Note_Model : Model Note :=
  {| id := n_id; title := n_title |}.
#[export] Instance Tag_Model : Model Tag :=
  {| id := t_id; title := t_title |}.
(** An object together with the reference that names it. *)
#[export] Instance named_Model {A} `{Model A} : Model (ref * A) :=
  {| id := fun p => id (snd p); title := fun p => title (snd p) |}.

(** [Model.__str__] *)
Definition Model_str {A} `{Model A} (self : A) : string :=
  str (id self) +:+ ":'" +:+ title self +:+ "'".

(** Assignments to one field. *)
Definition nb_with_title (v : string) (nb : Notebook) : Notebook :=
  {| nb_id := nb_id nb; nb_title := v; nb_type := nb_type nb;
     nb_updated_at := nb_updated_at nb; nb_notes := nb_notes nb |}.

Definition nb_with_updated_at (v : string) (nb : Notebook) : Notebook :=
  {| nb_id := nb_id nb; nb_title := nb_title nb; nb_type := nb_type nb;
     nb_updated_at := v; nb_notes := nb_notes nb |}.

Definition nb_with_notes (v : dict.t ref) (nb : Notebook) : Notebook :=
  {| nb_id := nb_id nb; nb_title := nb_title nb; nb_type := nb_type nb;
     nb_updated_at := nb_updated_at nb; nb_notes := v |}.

Definition n_with_title (v : string) (n : Note) : Note :=
  {| n_id := n_id n; n_title := v; n_notebook := n_notebook n;
     n_content := n_content n; n_updated_at := n_updated_at n;
     n_tags := n_tags n |}.

Definition n_with_content (v : string) (n : Note) : Note :=
  {| n_id := n_id n; n_title := n_title n; n_notebook := n_notebook n;
     n_content := v; n_updated_at := n_updated_at n; n_tags := n_tags n |}.

Definition n_with_updated_at (v : string) (n : Note) : Note :=
  {| n_id := n_id n; n_title := n_title n; n_notebook := n_notebook n;
     n_content := n_content n; n_updated_at := v; n_tags := n_tags n |}.

Definition n_with_tags (v : pyset.t) (n : Note) : Note :=
  {| n_id := n_id n; n_title := n_title n; n_notebook := n_notebook n;
     n_content := n_content n; n_updated_at := n_updated_at n; n_tags := v |}.

Definition pw_with_notebooks (v : dict.t ref) (pw : Paperwork) : Paperwork :=
  {| notebooks := v; tags := tags pw; authenticated := authenticated pw |}.

Definition pw_with_tags (v : dict.t ref) (pw : Paperwork) : Paperwork :=
  {| notebooks := notebooks pw; tags := v; authenticated := authenticated pw |}.

Inductive level := INFO | ERROR.

(** The object graph of one session, the requests sent so far and the
    records of the [models] logger. *)
Record World := {
  notebook_store : list Notebook;
  note_store : list Note;
  tag_store : list Tag;
  paperwork : Paperwork;
  sent : list request;
  logged : list (level * string) }.

Definition with_notebook_store (f : list Notebook -> list Notebook) (w : World) : World :=
  {| notebook_store := f (notebook_store w); note_store := note_store w;
     tag_store := tag_store w; paperwork := paperwork w;
     sent := sent w; logged := logged w |}.

Definition with_note_store (f : list Note -> list Note) (w : World) : World :=
  {| notebook_store := notebook_store w; note_store := f (note_store w);
     tag_store := tag_store w; paperwork := paperwork w;
     sent := sent w; logged := logged w |}.

Definition with_tag_store (f : list Tag -> list Tag) (w : World) : World :=
  {| notebook_store := notebook_store w; note_store := note_store w;
     tag_store := f (tag_store w); paperwork := paperwork w;
     sent := sent w; logged := logged w |}.

Definition with_paperwork (f : Paperwork -> Paperwork) (w : World) : World :=
  {| notebook_store := notebook_store w; note_store := note_store w;
     tag_store := tag_store w; paperwork := f (paperwork w);
     sent := sent w; logged := logged w |}.

Definition with_sent (f : list request -> list request) (w : World) : World :=
  {| notebook_store := notebook_store w; note_store := note_store w;
     tag_store := tag_store w; paperwork := paperwork w;
     sent := f (sent w); logged := logged w |}.

Definition with_logged (f : list (level * string) -> list (level * string))
    (w : World) : World :=
  {| notebook_store := notebook_store w; note_store := note_store w;
     tag_store := tag_store w; paperwork := paperwork w;
     sent := sent w; logged := f (logged w) |}.

(** ** Computations *)

Definition M (A : Type) : Type := World -> outcome A * World.

Definition ret {A} (a : A) : M A := fun w => (Ok a, w).

Definition raise {A} (e : exn) : M A := fun w => (Raise e, w).

Definition bind {A B} (m : M A) (k : A -> M B) : M B :=
  fun w =>
    match m w with
    | (Ok a, w') => k a w'
    | (Raise e, w') => (Raise e, w')
    end.

Notation "x <- m ;; k" := (bind m (fun x => k))
  (at level 100, m at next level, right associativity).
Notation "m ;; k" := (bind m (fun _ => k))
  (at level 100, right associativity).

(** [for x in items: body] *)
Fixpoint for_each {A} (items : list A) (body : A -> M unit) : M unit :=
  match items with
  | [] => ret tt
  | x :: rest => body x ;; for_each rest body
  end.

(** [[f(x) for x in items]] *)
Fixpoint comprehension {A B} (items : list A) (f : A -> M B) : M (list B) :=
  match items with
  | [] => ret []
  | x :: rest => y <- f x ;; ys <- comprehension rest f ;; ret (y :: ys)
  end.

Definition lift {A} (e : exn) (o : option A) : M A :=
  match o with Some a => ret a | None => raise e end.

Definition logger (lvl : level) (msg : string) : M unit :=
  fun w => (Ok tt, with_logged (fun l => l ++ [(lvl, msg)]) w).

(** Reading and writing objects through their references. *)
Definition notebook_at (r : ref) : M Notebook :=
  fun w => lift InvalidRef (notebook_store w !! r) w.
Definition note_at (r : ref) : M Note :=
  fun w => lift InvalidRef (note_store w !! r) w.
Definition tag_at (r : ref) : M Tag :=
  fun w => lift InvalidRef (tag_store w !! r) w.

Definition notebook_put (r : ref) (nb : Notebook) : M unit :=
  fun w => (Ok tt, with_notebook_store (fun h => <[r := nb]> h) w).
Definition note_put (r : ref) (n : Note) : M unit :=
  fun w => (Ok tt, with_note_store (fun h => <[r := n]> h) w).

Definition note_new (n : Note) : M ref :=
  fun w => (Ok (length (note_store w)), with_note_store (fun h => h ++ [n]) w).
Definition notebook_new (nb : Notebook) : M ref :=
  fun w => (Ok (length (notebook_store w)),
            with_notebook_store (fun h => h ++ [nb]) w).
Definition tag_new (t : Tag) : M ref :=
  fun w => (Ok (length (tag_store w)), with_tag_store (fun h => h ++ [t]) w).

Definition the_paperwork : M Paperwork := fun w => (Ok (paperwork w), w).

(** ** wrapper.py and models.py *)

Section Host.

(** The remote host: its answer to a request, given the requests that
    came before it. *)
Variable remote : list request -> request -> response.

(** The similarity primitive [fuzz.ratio]. *)
Variable ratio : string -> string -> Z.

(** *** wrapper.api *)

(** [api.request].  Whatever goes wrong while the request is built or
    sent is caught there and [None] is returned. *)
Definition api_request (data : option body) (m : method) (keyword : string)
    (args : list string) : M response :=
  fun w =>
    match uri_path keyword args with
    | None => (Ok RNone, w)
    | Some _ =>
        let rq := {| rq_data := data; rq_method := m;
                     rq_keyword := keyword; rq_args := args |} in
        (Ok (remote (sent w) rq), with_sent (fun l => l ++ [rq]) w)
    end.

Definition api_get (keyword : string) (args : list string) : M response :=
  api_request None GET keyword args.

Definition api_put (data : body) (keyword : string) (args : list string)
    : M response :=
  api_request (Some data) PUT keyword args.

Definition api_delete (keyword : string) (args : list string) : M response :=
  api_request None DELETE keyword args.

Definition api_list_notebooks : M response := api_get "notebooks" [].

Definition api_get_notebook (notebook_id : Z) : M response :=
  api_get "notebook" [str notebook_id].

Definition api_update_notebook (notebook : notebook_json) : M response :=
  api_put (BNotebook notebook) "notebook" [str (nbj_id notebook)].

Definition api_delete_notebook (notebook_id : Z) : M response :=
  api_delete "notebook" [str notebook_id].

Definition api_list_notebook_notes (notebook_id : Z) : M response :=
  api_get "notes" [str notebook_id].

Definition api_get_notes (notebook_id : Z) (note_ids : list Z) : M response :=
  api_get "note" [str notebook_id; join "," (map str note_ids)].

Definition api_get_note (notebook_id note_id : Z) : M response :=
  api_get_notes notebook_id [note_id].

Definition api_update_note (note : note_json) : M response :=
  api_put (BNote note) "note" [str (nj_notebook_id note); str (nj_id note)].

(** [r[0]] *)
Definition item0 (r : response) : M response :=
  match r with
  | RNone => raise TypeError
  | RList [] => raise IndexError
  | RList (x :: _) => ret x
  | RNotebook _ | RNote _ | RTag _ => raise KeyError
  end.

Definition api_delete_notes (notes : list note_json) : M response :=
  first <- lift IndexError (head notes) ;;
  api_delete "note"
    [str (nj_notebook_id first); join "," (map (fun n => str (nj_id n)) notes)].

Definition api_delete_note (note : note_json) : M response :=
  r <- api_delete_notes [note] ;; item0 r.

Definition api_move_notes (notes : list note_json) (new_notebook_id : Z)
    : M response :=
  first <- lift IndexError (head notes) ;;
  api_get "move"
    [str (nj_notebook_id first); join "," (map (fun n => str (nj_id n)) notes);
     str new_notebook_id].

Definition api_move_note (note : note_json) (new_notebook_id : Z)
    : M response :=
  r <- api_move_notes [note] new_notebook_id ;; item0 r.

Definition api_list_tags : M response := api_get "tags" [].

(** *** Subscripting and iterating a response *)

(** [r[key]] for a string key: [TypeError] on [None] and on a list,
    [KeyError] on an object without that key. *)
Definition item {A} (of_notebook : option (notebook_remote -> A))
    (of_note : option (note_remote -> A)) (of_tag : option (tag_json -> A))
    (r : response) : M A :=
  match r with
  | RNone | RList _ => raise TypeError
  | RNotebook nb => lift KeyError ((fun f => f nb) <$> of_notebook)
  | RNote n => lift KeyError ((fun f => f n) <$> of_note)
  | RTag t => lift KeyError ((fun f => f t) <$> of_tag)
  end.

Definition item_id : response -> M Z :=
  item (Some nbr_id) (Some nr_id) (Some tj_id).
Definition item_title : response -> M string :=
  item (Some nbr_title) (Some nr_title) (Some tj_title).
Definition item_type : response -> M Z :=
  item (Some nbr_type) None None.
Definition item_visibility : response -> M Z :=
  item None None (Some tj_visibility).
Definition item_content : response -> M string :=
  item None (Some nr_content) None.
Definition item_updated_at : response -> M string :=
  item (Some nbr_updated_at) (Some nr_updated_at) None.
Definition item_tags : response -> M (list tag_json) :=
  item None (Some nr_tags) None.

(** The items of [for x in r].  [None] is not iterable.  A JSON object
    would yield its keys, which are strings, and each loop of models.py
    starts by subscripting its item with a string key, a [TypeError] on a
    string: the exception is raised here, at the head of the loop. *)
Definition iterate (r : response) : M (list response) :=
  match r with
  | RList items => ret items
  | RNone | RNotebook _ | RNote _ | RTag _ => raise TypeError
  end.

Definition is_None (r : response) : bool :=
  match r with RNone => true | _ => false end.

(** *** Tag *)

Definition Tag_to_json (t : Tag) : tag_json :=
  {| tj_id := t_id t; tj_title := t_title t; tj_visibility := t_visibility t |}.

Definition Tag_from_json (json : response) : M ref :=
  title_ <- item_title json ;;
  id_ <- item_id json ;;
  visibility <- item_visibility json ;;
  tag_new {| t_id := id_; t_title := title_; t_visibility := visibility;
             t_notes := pyset.empty |}.

(** [Tag.get_notes] *)
Definition Tag_get_notes (self : ref) : M (list ref) :=
  t <- tag_at self ;;
  notes <- comprehension (t_notes t) (fun r => n <- note_at r ;; ret (r, n)) ;;
  ret (map fst (sorted title notes)).

(** *** Notebook *)

Definition Notebook_to_json (nb : Notebook) : notebook_json :=
  {| nbj_type := nb_type nb; nbj_id := nb_id nb; nbj_title := nb_title nb |}.

Definition Notebook_from_json (json : response) : M ref :=
  title_ <- item_title json ;;
  id_ <- item_id json ;;
  type_ <- item_type json ;;
  notebook_new {| nb_id := id_; nb_title := title_; nb_type := type_;
                  nb_updated_at := ""; nb_notes := dict.empty |}.

Definition Notebook_set_title (self : ref) (v : string) : M unit :=
  nb <- notebook_at self ;;
  notebook_put self (nb_with_title v nb).

Definition Notebook_set_updated_at (self : ref) (v : string) : M unit :=
  nb <- notebook_at self ;;
  notebook_put self (nb_with_updated_at v nb).

Definition Notebook_set_notes (self : ref) (v : dict.t ref) : M unit :=
  nb <- notebook_at self ;;
  notebook_put self (nb_with_notes v nb).

(** [Notebook.delete] *)
Definition Notebook_delete (self : ref) : M unit :=
  nb <- notebook_at self ;;
  logger INFO ("Deleting notebook " +:+ Model_str nb) ;;
  _ <- api_delete_notebook (nb_id nb) ;;
  ret tt.

(** The default of [force] in [Notebook.update]. *)
Definition Notebook_update_force : bool := true.

(** [Notebook.update] *)
Definition Notebook_update (self : ref) (force : bool) : M unit :=
  nb <- notebook_at self ;;
  logger INFO ("Updating " +:+ Model_str nb) ;;
  remote_nb <- api_get_notebook (nb_id nb) ;;
  if is_None remote_nb then
    logger ERROR "Remote notebook could not be found.Wrong id or deleted."
  else
    push <- (if force then ret true
             else stamp <- item_updated_at remote_nb ;;
                  ret (String.ltb stamp (nb_updated_at nb))) ;;
    if (push : bool) then
      _ <- api_update_notebook (Notebook_to_json nb) ;;
      ret tt
    else
      logger INFO "Remote version is higher.Updating local notebook." ;;
      title_ <- item_title remote_nb ;;
      Notebook_set_title self title_ ;;
      stamp <- item_updated_at remote_nb ;;
      Notebook_set_updated_at self stamp.

(** [Notebook.get_notes] *)
Definition Notebook_get_notes (self : ref) : M (list ref) :=
  nb <- notebook_at self ;;
  notes <- comprehension (dict.values (nb_notes nb))
             (fun r => n <- note_at r ;; ret (r, n)) ;;
  ret (map fst (sorted title notes)).

(** [Notebook.add_note] *)
Definition Notebook_add_note (self note : ref) : M unit :=
  n <- note_at note ;;
  nb <- notebook_at self ;;
  Notebook_set_notes self (dict.set (nb_notes nb) (n_id n) note) ;;
  logger INFO ("Added note " +:+ Model_str n +:+ " to " +:+ Model_str nb).

(** *** Note *)

Definition Note_to_json (self : ref) : M note_json :=
  n <- note_at self ;;
  tags_ <- comprehension (n_tags n)
             (fun r => t <- tag_at r ;; ret (Tag_to_json t)) ;;
  nb <- notebook_at (n_notebook n) ;;
  ret {| nj_id := n_id n; nj_title := n_title n; nj_content := n_content n;
         nj_tags := tags_; nj_notebook_id := nb_id nb |}.

Definition Note_from_json (json : response) (notebook : ref) : M ref :=
  title_ <- item_title json ;;
  id_ <- item_id json ;;
  content <- item_content json ;;
  stamp <- item_updated_at json ;;
  _ <- notebook_at notebook ;;   (* [notebook.api] *)
  note_new {| n_id := id_; n_title := title_; n_notebook := notebook;
              n_content := content; n_updated_at := stamp;
              n_tags := pyset.empty |}.

Definition Note_set_title (self : ref) (v : string) : M unit :=
  n <- note_at self ;;
  note_put self (n_with_title v n).

Definition Note_set_content (self : ref) (v : string) : M unit :=
  n <- note_at self ;;
  note_put self (n_with_content v n).

Definition Note_set_updated_at (self : ref) (v : string) : M unit :=
  n <- note_at self ;;
  note_put self (n_with_updated_at v n).

Definition Note_set_tags (self : ref) (v : pyset.t) : M unit :=
  n <- note_at self ;;
  note_put self (n_with_tags v n).

(** The default of [force] in [Note.update]. *)
Definition Note_update_force : bool := false.

(** [Note.update] *)
Definition Note_update (self : ref) (force : bool) : M unit :=
  n <- note_at self ;;
  logger INFO ("Updating note " +:+ Model_str n) ;;
  nb <- notebook_at (n_notebook n) ;;
  remote_note <- api_get_note (nb_id nb) (n_id n) ;;
  if is_None remote_note then
    logger ERROR
      "Remote note could not be found. Wrong id,deleted or moved to another notebook"
  else
    push <- (if force then ret true
             else stamp <- item_updated_at remote_note ;;
                  ret (String.leb stamp (n_updated_at n))) ;;
    if (push : bool) then
      logger INFO "Remote version is lower or force update.Updating remote note." ;;
      json <- Note_to_json self ;;
      written <- api_update_note json ;;
      stamp <- item_updated_at written ;;
      Note_set_updated_at self stamp
    else
      logger INFO "Remote version is higher. Updating local note." ;;
      title_ <- item_title remote_note ;;
      Note_set_title self title_ ;;
      content <- item_content remote_note ;;
      Note_set_content self content ;;
      stamp <- item_updated_at remote_note ;;
      Note_set_updated_at self stamp.

(** [del(self.notebook.notes[self.id])] *)
Definition Note_leave_notebook (self : ref) : M unit :=
  n <- note_at self ;;
  nb <- notebook_at (n_notebook n) ;;
  notes <- lift KeyError (dict.del (nb_notes nb) (n_id n)) ;;
  Notebook_set_notes (n_notebook n) notes.

(** [Note.delete] *)
Definition Note_delete (self : ref) : M unit :=
  n <- note_at self ;;
  nb <- notebook_at (n_notebook n) ;;
  logger INFO ("Deleting note " +:+ Model_str n +:+ " in notebook "
               +:+ Model_str nb) ;;
  json <- Note_to_json self ;;
  _ <- api_delete_note json ;;
  Note_leave_notebook self.

(** [Note.add_tags] *)
Definition Note_add_tags (self : ref) (tags_ : list ref) : M unit :=
  for_each tags_ (fun tag =>
    t <- tag_at tag ;;
    n <- note_at self ;;
    logger INFO ("Adding tag " +:+ Model_str t +:+ " to note " +:+ Model_str n) ;;
    Note_set_tags self (pyset.add (n_tags n) tag)).

(** [Note.move_to] *)
Definition Note_move_to (self new_notebook : ref) : M unit :=
  json <- Note_to_json self ;;
  target <- notebook_at new_notebook ;;
  _ <- api_move_note json (nb_id target) ;;
  Note_leave_notebook self ;;
  Notebook_add_note new_notebook self.

(** [Notebook.download]; [tags_] is the workspace's tag dict, which the
    loop only reads. *)
Definition Notebook_download (self : ref) (tags_ : dict.t ref) : M unit :=
  nb <- notebook_at self ;;
  notes_json <- api_list_notebook_notes (nb_id nb) ;;
  logger INFO ("Downloading notes of notebook " +:+ Model_str nb) ;;
  items <- iterate notes_json ;;
  for_each items (fun note_json =>
    note <- Note_from_json note_json self ;;
    Notebook_add_note self note ;;
    tag_jsons <- item_tags note_json ;;
    attached <- comprehension tag_jsons
                  (fun tag => lift KeyError (dict.get tags_ (tj_id tag))) ;;
    Note_add_tags note attached).

(** *** Paperwork *)

Definition Paperwork_set_notebooks (v : dict.t ref) : M unit :=
  fun w => (Ok tt, with_paperwork (pw_with_notebooks v) w).

Definition Paperwork_set_tags (v : dict.t ref) : M unit :=
  fun w => (Ok tt, with_paperwork (pw_with_tags v) w).

(** [Paperwork.add_notebook] *)
Definition Paperwork_add_notebook (notebook : ref) : M unit :=
  nb <- notebook_at notebook ;;
  if negb (Z.eqb (nb_id nb) 0) then
    self <- the_paperwork ;;
    Paperwork_set_notebooks (dict.set (notebooks self) (nb_id nb) notebook) ;;
    logger INFO ("Added notebook " +:+ Model_str nb)
  else ret tt.

(** [Paperwork.add_tag] *)
Definition Paperwork_add_tag (tag : ref) : M unit :=
  t <- tag_at tag ;;
  self <- the_paperwork ;;
  Paperwork_set_tags (dict.set (tags self) (t_id t) tag) ;;
  logger INFO ("Added tag " +:+ Model_str t).

(** [Paperwork.download] *)
Definition Paperwork_download : M unit :=
  logger INFO "Downloading all" ;;
  logger INFO "Downloading tags" ;;
  listed <- api_list_tags ;;
  items <- iterate listed ;;
  for_each items (fun json =>
    tag <- Tag_from_json json ;;
    t <- tag_at tag ;;
    self <- the_paperwork ;;
    Paperwork_set_tags (dict.set (tags self) (t_id t) tag)) ;;
  logger INFO "Downloading notebooks" ;;
  listed <- api_list_notebooks ;;
  items <- iterate listed ;;
  for_each items (fun json =>
    notebook <- Notebook_from_json json ;;
    nb <- notebook_at notebook ;;
    self <- the_paperwork ;;
    Paperwork_set_notebooks (dict.set (notebooks self) (nb_id nb) notebook) ;;
    self <- the_paperwork ;;
    Notebook_download notebook (tags self)).

(** What [Paperwork.update] does with one notebook. *)
Definition Paperwork_update_notebook (nb : ref) : M unit :=
  Notebook_update nb Notebook_update_force ;;
  notes <- Notebook_get_notes nb ;;
  for_each notes (fun note => Note_update note Note_update_force).

(** [Paperwork.update] *)
Definition Paperwork_update : M unit :=
  logger INFO "Updating notebooks and notes" ;;
  self <- the_paperwork ;;
  for_each (dict.values (notebooks self)) Paperwork_update_notebook.

(** [Paperwork.get_notes] *)
Definition Paperwork_get_notes : M (list ref) :=
  self <- the_paperwork ;;
  per_notebook <- comprehension (dict.values (notebooks self)) (fun r =>
    nb <- notebook_at r ;;
    comprehension (dict.values (nb_notes nb))
      (fun r' => n <- note_at r' ;; ret (r', n))) ;;
  ret (map fst (sorted title (concat per_notebook))).

(** [Paperwork.fuzzy_find]: the running [top_choice] of the loop ... *)
Definition fuzzy_step {A} `{Model A} (query : string)
    (top_choice : Z * option A) (choice : A) : Z * option A :=
  let val := ratio (title choice) query in
  if Z.gtb val (fst top_choice) then (val, Some choice) else top_choice.

(** ... and the function. *)
Definition fuzzy_find {A} `{Model A} (query : string) (choices : list A)
    : option A :=
  snd (fold_left (fuzzy_step query) choices (0, None)).

Definition named {A} (at_ : ref -> M A) (refs : list ref) : M (list (ref * A)) :=
  comprehension refs (fun r => x <- at_ r ;; ret (r, x)).

(** [Paperwork.fuzzy_find_tag] *)
Definition Paperwork_fuzzy_find_tag (query : string) : M (option ref) :=
  self <- the_paperwork ;;
  choices <- named tag_at (dict.values (tags self)) ;;
  ret (fst <$> fuzzy_find query choices).

(** [Paperwork.fuzzy_find_notebook] *)
Definition Paperwork_fuzzy_find_notebook (query : string) : M (option ref) :=
  self <- the_paperwork ;;
  choices <- named notebook_at (dict.values (notebooks self)) ;;
  ret (fst <$> fuzzy_find query choices).

(** [Paperwork.fuzzy_find_note] *)
Definition Paperwork_fuzzy_find_note (query : string) : M (option ref) :=
  notes <- Paperwork_get_notes ;;
  choices <- named note_at notes ;;
  ret (fst <$> fuzzy_find query choices).

End Host.

(** ** Requests by name *)

Definition rq (data : option body) (m : method) (keyword : string)
    (args : list string) : request :=
  {| rq_data := data; rq_method := m; rq_keyword := keyword; rq_args := args |}.

Definition get_notebook_rq (notebook_id : Z) : request :=
  rq None GET "notebook" [str notebook_id].

Definition put_notebook_rq (nb : notebook_json) : request :=
  rq (Some (BNotebook nb)) PUT "notebook" [str (nbj_id nb)].

Definition delete_notebook_rq (notebook_id : Z) : request :=
  rq None DELETE "notebook" [str notebook_id].

Definition get_note_rq (notebook_id note_id : Z) : request :=
  rq None GET "note" [str notebook_id; str note_id].

Definition put_note_rq (n : note_json) : request :=
  rq (Some (BNote n)) PUT "note" [str (nj_notebook_id n); str (nj_id n)].

Definition delete_note_rq (n : note_json) : request :=
  rq None DELETE "note" [str (nj_notebook_id n); str (nj_id n)].

Definition move_note_rq (n : note_json) (new_notebook_id : Z) : request :=
  rq None GET "move"
    [str (nj_notebook_id n); str (nj_id n); str new_notebook_id].

(** A host that answers by method, keyword and arguments alone, from a table;
    [None] for what the table does not list. *)
Definition same_call (a b : request) : bool :=
  (match rq_method a, rq_method b with
   | GET, GET | POST, POST | PUT, PUT | DELETE, DELETE => true
   | _, _ => false
   end)
  && String.eqb (rq_keyword a) (rq_keyword b)
  && bool_decide (rq_args a = rq_args b).

Fixpoint answer (table : list (request * response)) (call : request) : response :=
  match table with
  | [] => RNone
  | (r, a) :: rest => if same_call r call then a else answer rest call
  end.

Definition host (table : list (request * response))
    : list request -> request -> response :=
  fun _ call => answer table call.

(** A scoring that only tells equal titles from different ones. *)
Definition exact_ratio (a b : string) : Z := if String.eqb a b then 100 else 0.

(** The world after the start of an [update]: one record logged, one
    request sent. *)
Definition asked (msg : string) (call : request) (w : World) : World :=
  with_sent (fun l => l ++ [call]) (with_logged (fun l => l ++ [(INFO, msg)]) w).

(** What [[tag.to_json() for tag in self.tags]] evaluates to, when every
    reference of the set names a stored tag. *)
Definition tags_to_json (store : list Tag) (refs : pyset.t)
    : option (list tag_json) :=
  mapM (fun r => Tag_to_json <$> store !! r) refs.

(** What [Note.to_json] returns for a note in notebook [nb] whose tags
    serialise to [tjs]. *)
Definition note_json_of (n : Note) (nb : Notebook) (tjs : list tag_json)
    : note_json :=
  {| nj_id := n_id n; nj_title := n_title n; nj_content := n_content n;
     nj_tags := tjs; nj_notebook_id := nb_id nb |}.

(** The messages of [update]. *)
Definition notebook_missing : string :=
  "Remote notebook could not be found.Wrong id or deleted.".
Definition notebook_pulled : string :=
  "Remote version is higher.Updating local notebook.".
Definition note_missing : string :=
  "Remote note could not be found. Wrong id,deleted or moved to another notebook".
Definition note_pushed : string :=
  "Remote version is lower or force update.Updating remote note.".
Definition note_pulled : string :=
  "Remote version is higher. Updating local note.".

(** ** A small workspace

    Notebook "Work" (id 1) holds the notes "plan" (id 7, tagged "urgent") and
    "agenda" (id 8); notebook "Home" (id 2) is empty; "Draft" has not been
    created on the host yet (id 0) and is not in the workspace. *)

Definition work : Notebook :=
  {| nb_id := 1; nb_title := "Work"; nb_type := 0; nb_updated_at := "100";
     nb_notes := [(7, 0%nat); (8, 1%nat)] |}.

Definition home : Notebook :=
  {| nb_id := 2; nb_title := "Home"; nb_type := 0; nb_updated_at := "100";
     nb_notes := [] |}.

Definition draft : Notebook :=
  {| nb_id := 0; nb_title := "Draft"; nb_type := 0; nb_updated_at := "";
     nb_notes := [] |}.

Definition plan : Note :=
  {| n_id := 7; n_title := "plan"; n_notebook := 0%nat; n_content := "ship it";
     n_updated_at := "100"; n_tags := [0%nat] |}.

Definition agenda : Note :=
  {| n_id := 8; n_title := "agenda"; n_notebook := 0%nat; n_content := "";
     n_updated_at := "100"; n_tags := [] |}.

Definition urgent : Tag :=
  {| t_id := 3; t_title := "urgent"; t_visibility := 0; t_notes := [] |}.

Definition desk : World :=
  {| notebook_store := [work; home; draft];
     note_store := [plan; agenda];
     tag_store := [urgent];
     paperwork := {| notebooks := [(1, 0%nat); (2, 1%nat)];
                     tags := [(3, 0%nat)];
                     authenticated := true |};
     sent := [];
     logged := [] |}.

(** The host has the same notebook and the same note "plan", both with the
    time stamp the workspace has, and answers a write with the stamp "101". *)
Definition work_remote (stamp : string) : notebook_remote :=
  {| nbr_id := 1; nbr_title := "Work (shared)"; nbr_type := 0;
     nbr_updated_at := stamp |}.

Definition plan_remote (stamp : string) : note_remote :=
  {| nr_id := 7; nr_title := "plan B"; nr_content := "hold it";
     nr_updated_at := stamp; nr_tags := []; nr_notebook_id := 1 |}.

Definition in_step : list request -> request -> response :=
  host [ (rq None GET "notebook" ["1"], RNotebook (work_remote "100"));
         (rq None PUT "notebook" ["1"], RNotebook (work_remote "101"));
         (rq None GET "note" ["1"; "7"], RNote (plan_remote "100"));
         (rq None PUT "note" ["1"; "7"], RNote (plan_remote "101")) ].

(** The host has a newer version of the notebook "Work" and knows none of
    the notes. *)
Definition ahead : list request -> request -> response :=
  host [ (rq None GET "notebook" ["1"], RNotebook (work_remote "200"));
         (rq None PUT "notebook" ["1"], RNotebook (work_remote "201")) ].

(** The host has the note "agenda" at the local time stamp and loses the
    write that follows. *)
Definition lossy : list request -> request -> response :=
  host [ (rq None GET "notebook" ["1"], RNotebook (work_remote "100"));
         (rq None GET "notebook" ["2"],
          RNotebook {| nbr_id := 2; nbr_title := "Home"; nbr_type := 0;
                       nbr_updated_at := "100" |});
         (rq None GET "note" ["1"; "8"],
          RNote {| nr_id := 8; nr_title := "agenda"; nr_content := "";
                   nr_updated_at := "100"; nr_tags := []; nr_notebook_id := 1 |});
         (rq None GET "note" ["1"; "7"], RNote (plan_remote "100"));
         (rq None PUT "note" ["1"; "7"], RNote (plan_remote "101")) ].

(** The host moves and deletes what it is asked to and answers with the
    list of the notes concerned. *)
Definition obliging : list request -> request -> response :=
  host [ (rq None GET "move" ["1"; "7"; "2"], RList [RNote (plan_remote "101")]);
         (rq None DELETE "note" ["1"; "7"], RList [RNote (plan_remote "100")]);
         (rq None DELETE "notebook" ["1"], RNotebook (work_remote "100")) ].

(** The host of a first download: one tag, one notebook, and in it one note
    that carries the tag. *)
Definition shelf : list request -> request -> response :=
  host [ (rq None GET "tags" [],
          RList [RTag {| tj_id := 3; tj_title := "urgent"; tj_visibility := 0 |}]);
         (rq None GET "notebooks" [], RList [RNotebook (work_remote "100")]);
         (rq None GET "notes" ["1"],
          RList [RNote {| nr_id := 7; nr_title := "plan"; nr_content := "ship it";
                          nr_updated_at := "100";
                          nr_tags := [{| tj_id := 3; tj_title := "urgent";
                                         tj_visibility := 0 |}];
                          nr_notebook_id := 1 |}]) ].

(** The world of a session that has just been opened. *)
Definition blank : World :=
  {| notebook_store := []; note_store := []; tag_store := [];
     paperwork := {| notebooks := []; tags := []; authenticated := true |};
     sent := []; logged := [] |}.

(** A host that cannot be reached. *)
Definition offline : list request -> request -> response := host [].

(** ** What a traversal may do to the world

    [advances w w']: from [w] to [w'] requests were sent, and neither a
    stored notebook nor the workspace has changed. *)
Definition advances (w w' : World) : Prop :=
  notebook_store w' = notebook_store w
  /\ paperwork w' = paperwork w
  /\ exists later, sent w' = sent w ++ later.

(** A computation that, however it ends, only advances the world. *)
Definition keeps {A} (m : M A) : Prop := forall w, advances w (snd (m w)).

(** The first record of [Paperwork.update]. *)
Definition update_started (w : World) : World :=
  with_logged (fun l => l ++ [(INFO, "Updating notebooks and notes")]) w.

(** ** The query layer of models.py *)

From Stdlib Require Import Sorted.

(** The [key] of the [find_*] methods: an id, or a title when
    [isinstance(key, str)]. *)
Inductive key :=
| ById (k : Z)
| ByTitle (s : string).

(** [for x in refs: if s == x.title: return x], and [None] when the loop
    falls through. *)
Fixpoint first_titled {A} `{Model A} (at_ : ref -> M A) (s : string)
    (refs : list ref) : M (option ref) :=
  match refs with
  | [] => ret None
  | r :: rest =>
      x <- at_ r ;;
      if String.eqb s (title x) then ret (Some r) else first_titled at_ s rest
  end.

(** [key in (note.id, note.title)] *)
Definition key_in_id_title {A} `{Model A} (k : key) (x : A) : bool :=
  match k with
  | ById i => Z.eqb i (id x)
  | ByTitle s => String.eqb s (title x)
  end.

(** [for note in notes: if key in (note.id, note.title): return note] *)
Fixpoint first_with_key (k : key) (refs : list ref) : M (option ref) :=
  match refs with
  | [] => ret None
  | r :: rest =>
      n <- note_at r ;;
      if key_in_id_title k n then ret (Some r) else first_with_key k rest
  end.

(** [Paperwork.find_tag] *)
Definition Paperwork_find_tag (k : key) : M (option ref) :=
  self <- the_paperwork ;;
  match k with
  | ByTitle s => first_titled tag_at s (dict.values (tags self))
  | ById i => r <- lift KeyError (dict.get (tags self) i) ;; ret (Some r)
  end.

(** [Paperwork.find_notebook] *)
Definition Paperwork_find_notebook (k : key) : M (option ref) :=
  self <- the_paperwork ;;
  match k with
  | ByTitle s => first_titled notebook_at s (dict.values (notebooks self))
  | ById i => r <- lift KeyError (dict.get (notebooks self) i) ;; ret (Some r)
  end.

(** [Paperwork.find_note] *)
Definition Paperwork_find_note (k : key) : M (option ref) :=
  notes <- Paperwork_get_notes ;;
  first_with_key k notes.

(** [Paperwork.get_notebooks] *)
Definition Paperwork_get_notebooks : M (list ref) :=
  self <- the_paperwork ;;
  listed <- named notebook_at (dict.values (notebooks self)) ;;
  ret (map fst (sorted title listed)).

(** [Paperwork.get_tags] *)
Definition Paperwork_get_tags : M (list ref) :=
  self <- the_paperwork ;;
  listed <- named tag_at (dict.values (tags self)) ;;
  ret (map fst (sorted title listed)).

Section Search.

Variable remote : list request -> request -> response.

(** [base64.b64encode] on the UTF-8 bytes of a string, as [wrapper.b64]
    calls it. *)
Variable b64 : string -> string.

(** [api.search] *)
Definition api_search (keyword : string) : M response :=
  api_get remote "search" [b64 keyword].

(** [Paperwork.search] *)
Definition Paperwork_search (k : string) : M (list ref) :=
  json_notes <- api_search k ;;
  items <- iterate json_notes ;;
  for_each items (fun json_note =>
    id_ <- item_id json_note ;;
    _ <- Paperwork_find_note (ById id_) ;;
    ret tt) ;;
  ret [].

End Search.

(** The objects that a list of references names in a store, each with its
    reference; [None] when a reference names nothing. *)
Definition named_in {A} (store : list A) (refs : list ref)
    : option (list (ref * A)) :=
  mapM (fun r => (fun x => (r, x)) <$> store !! r) refs.

(** The references that the workspace reaches: its notebooks, and the notes
    of those, notebook by notebook. *)
Definition listed_notebooks (w : World) : list ref :=
  dict.values (notebooks (paperwork w)).

Definition listed_notes (w : World) : list ref :=
  concat (map (fun r => match notebook_store w !! r with
                        | Some nb => dict.values (nb_notes nb)
                        | None => []
                        end) (listed_notebooks w)).

(** Every notebook and every note the workspace reaches is stored. *)
Definition reachable_stored (w : World) : Prop :=
  Forall (fun r => is_Some (notebook_store w !! r)) (listed_notebooks w)
  /\ Forall (fun r => is_Some (note_store w !! r)) (listed_notes w).

(** A computation that keeps [I]: holds before, holds after, however the
    computation ends. *)
Definition preserves {A} (I : World -> Prop) (m : M A) : Prop :=
  forall w, I w -> I (snd (m w)).

(** The order of the sorted listings, on references to notes: by title, as
    Python's [<=] on strings. *)
Definition note_title_le (w : World) (a b : ref) : Prop :=
  match note_store w !! a, note_store w !! b with
  | Some x, Some y => String.leb (n_title x) (n_title y) = true
  | _, _ => False
  end.

(** The references of a list whose note has the title [t]. *)
Definition notes_titled (w : World) (t : string) (refs : list ref) : list ref :=
  filter (fun r => n_title <$> note_store w !! r = Some t) refs.

(** No note of a list of references has the key. *)
Definition none_with_key (w : World) (k : key) (refs : list ref) : Prop :=
  Forall (fun r => forall n, note_store w !! r = Some n ->
                             key_in_id_title k n = false) refs.

(** No object of a list of references has the title. *)
Definition none_titled {A} `{Model A} (store : list A) (s : string)
    (refs : list ref) : Prop :=
  Forall (fun r => forall x, store !! r = Some x -> title x <> s) refs.

(** What [Paperwork.search] does once the host has answered. *)
Definition search_rest (answer : response) : M (list ref) :=
  items <- iterate answer ;;
  for_each items (fun json_note =>
    id_ <- item_id json_note ;;
    _ <- Paperwork_find_note (ById id_) ;;
    ret tt) ;;
  ret [].

(** ** Downloading *)



Definition Note_of (rn : note_remote) (notebook : ref) : Note :=
  {| n_id := nr_id rn; n_title := nr_title rn; n_notebook := notebook;
     n_content := nr_content rn; n_updated_at := nr_updated_at rn;
     n_tags := pyset.empty |}.

Definition notes_rq (notebook_id : Z) : request :=
  rq None GET "notes" [str notebook_id].



(** Every entry of the [notes] dict of a notebook names a stored note that
    has the key for id and the notebook for owner. *)
Definition notes_owned (self : ref) (w : World) : Prop :=
  exists nb,
    notebook_store w !! self = Some nb
    /\ forall k r,
         dict.get (nb_notes nb) k = Some r ->
         exists n, note_store w !! r = Some n
                   /\ n_id n = k /\ n_notebook n = self.

(** ** What an update leaves alone *)

(** The same notebook but for title and time stamp; the same note but for
    title, content and time stamp. *)
Definition same_notebook (a b : Notebook) : Prop :=
  nb_id b = nb_id a /\ nb_type b = nb_type a /\ nb_notes b = nb_notes a.

Definition same_note (a b : Note) : Prop :=
  n_id b = n_id a /\ n_notebook b = n_notebook a /\ n_tags b = n_tags a.

Definition reads_or_writes (q : request) : Prop :=
  rq_method q = GET \/ rq_method q = PUT.

(** From [w0] to [w] entities were only reconciled: the workspace and the
    tags are the same, every stored notebook and note is the same but for
    the fields a pull overwrites, and the requests sent since are GETs and
    PUTs. *)
Definition reconciled (w0 w : World) : Prop :=
  tag_store w = tag_store w0
  /\ paperwork w = paperwork w0
  /\ Forall2 same_notebook (notebook_store w0) (notebook_store w)
  /\ Forall2 same_note (note_store w0) (note_store w)
  /\ exists later, sent w = sent w0 ++ later /\ Forall reads_or_writes later.

(** The world after [Note.move_to] has moved the note [n], stored at [self]
    and owned by notebook [A], to the notebook [B] stored at [target]. *)
Definition moved_world (w : World) (self target : ref) (n : Note)
    (A B : Notebook) (tjs : list tag_json) : World :=
  with_logged
    (fun l => l ++ [(INFO, "Added note " +:+ Model_str n +:+ " to "
                           +:+ Model_str B)])
    (with_notebook_store
       (fun h => <[target := nb_with_notes (dict.set (nb_notes B) (n_id n) self) B]>
                   (<[n_notebook n :=
                        nb_with_notes (dict.remove (nb_notes A) (n_id n)) A]> h))
       (with_sent
          (fun l => l ++ [move_note_rq (note_json_of n A tjs) (nb_id B)]) w)).

(** ** Fuzzy lookups on the workspace *)

(** The outcome of a fuzzy lookup among the objects that [refs] names in
    [store]: a reference whose title scores above 0, that no other outscores
    and that those before it in [refs] score strictly below; or nothing,
    when no title scores above 0. *)
Definition best_of {A} `{Model A} (ratio : string -> string -> Z)
    (query : string) (store : list A) (refs : list ref) (found : option ref)
    : Prop :=
  match found with
  | Some r =>
      exists pre post x,
        refs = pre ++ r :: post
        /\ store !! r = Some x
        /\ 0 < ratio (title x) query
        /\ (forall r' x', r' ∈ refs -> store !! r' = Some x' ->
                          ratio (title x') query <= ratio (title x) query)
        /\ (forall r' x', r' ∈ pre -> store !! r' = Some x' ->
                          ratio (title x') query < ratio (title x) query)
  | None =>
      forall r' x', r' ∈ refs -> store !! r' = Some x' ->
                    ratio (title x') query <= 0
  end.

(** ** Listings of notebooks and tags *)

(** The order of a sorted listing and the references with a given title, for
    any kind of stored object. *)
Definition title_le_in {A} `{Model A} (store : list A) (a b : ref) : Prop :=
  match store !! a, store !! b with
  | Some x, Some y => String.leb (title x) (title y) = true
  | _, _ => False
  end.

Definition titled_in {A} `{Model A} (store : list A) (t : string)
    (refs : list ref) : list ref :=
  filter (fun r => title <$> store !! r = Some t) refs.

(** What a sorted listing of [refs] is: a rearrangement, ordered by title,
    that keeps objects with the same title in the order of [refs]. *)
Definition listing_of {A} `{Model A} (store : list A) (refs listing : list ref)
    : Prop :=
  listing ≡ₚ refs
  /\ Sorted (title_le_in store) listing
  /\ forall t, titled_in store t listing = titled_in store t refs.

(** Every tag that a stored note carries is a tag of the dict [tags_]. *)
Definition tags_known (tags_ : dict.t ref) (w : World) : Prop :=
  Forall (fun n => forall r, r ∈ n_tags n -> r ∈ dict.values tags_)
    (note_store w).

(** The tag of the wire is one that the dict [tags_] has under its id, and
    what the dict has there is a stored tag. *)
Definition known_tag (tags_ : dict.t ref) (w : World) (tag : tag_json) : Prop :=
  exists r, dict.get tags_ (tj_id tag) = Some r /\ is_Some (tag_store w !! r).

(** The note that [Notebook.download] has stored for the wire note [rn] once
    its round of the loop is through: the note of the wire, with the tags
    that [tags_] has for the ids of its tags, added one by one. *)
Definition downloaded (tags_ : dict.t ref) (notebook : ref) (rn : note_remote)
    (n : Note) : Prop :=
  exists attached,
    mapM (fun tag => dict.get tags_ (tj_id tag)) (nr_tags rn) = Some attached
    /\ n = n_with_tags (foldl pyset.add pyset.empty attached) (Note_of rn notebook).

(** The [notes] dict [d] after [Notebook.add_note] of the wire notes [l],
    stored one after the other from the position [pos] on. *)
Fixpoint listed_from (d : dict.t ref) (pos : nat) (l : list note_remote)
    : dict.t ref :=
  match l with
  | [] => d
  | rn :: l => listed_from (dict.set d (nr_id rn) pos) (S pos) l
  end.

(** * Properties *)

(** ** Strings *)

Lemma compare_refl (s : string) : String.compare s s = Eq.
Proof.
  pose proof (String.compare_antisym s s) as H.
  destruct (String.compare s s); simpl in H; congruence.
Qed.

Lemma ltb_irrefl (s : string) : String.ltb s s = false.
Proof. unfold String.ltb. now rewrite compare_refl. Qed.

Lemma leb_refl (s : string) : String.leb s s = true.
Proof. unfold String.leb. now rewrite compare_refl. Qed.

(** ** dict *)

Lemma dict_get_set_eq {V} (d : dict.t V) k v :
  dict.get (dict.set d k v) k = Some v.
Proof.
  induction d as [|[k' v'] d IH]; simpl.
  - now rewrite Z.eqb_refl.
  - destruct (Z.eqb k' k) eqn:E; simpl.
    + now rewrite Z.eqb_refl.
    + now rewrite E.
Qed.

Lemma dict_get_set_ne {V} (d : dict.t V) k k' v :
  k <> k' -> dict.get (dict.set d k v) k' = dict.get d k'.
Proof.
  intros Hne. induction d as [|[k0 v0] d IH]; simpl.
  - destruct (Z.eqb k k') eqn:E; [apply Z.eqb_eq in E; congruence | reflexivity].
  - destruct (Z.eqb k0 k) eqn:E; simpl.
    + apply Z.eqb_eq in E. subst k0.
      destruct (Z.eqb k k') eqn:E'; [apply Z.eqb_eq in E'; congruence | reflexivity].
    + now rewrite IH.
Qed.

Lemma dict_get_remove_eq {V} (d : dict.t V) k :
  dict.get (dict.remove d k) k = None.
Proof.
  induction d as [|[k' v'] d IH]; [reflexivity|].
  simpl. destruct (Z.eqb k' k) eqn:E; [exact IH|].
  simpl. now rewrite E.
Qed.

Lemma dict_get_remove_ne {V} (d : dict.t V) k k' :
  k <> k' -> dict.get (dict.remove d k) k' = dict.get d k'.
Proof.
  intros Hne. induction d as [|[k0 v0] d IH]; [reflexivity|].
  simpl. destruct (Z.eqb k0 k) eqn:E.
  - apply Z.eqb_eq in E. subst k0.
    destruct (Z.eqb k k') eqn:E'; [apply Z.eqb_eq in E'; congruence | exact IH].
  - simpl. now rewrite IH.
Qed.

(** ** Running computations *)

Lemma bind_Ok {A B} (m : M A) (k : A -> M B) w a w' :
  m w = (Ok a, w') -> bind m k w = k a w'.
Proof. unfold bind. now intros ->. Qed.

Lemma bind_Raise {A B} (m : M A) (k : A -> M B) w e w' :
  m w = (Raise e, w') -> bind m k w = (Raise e, w').
Proof. unfold bind. now intros ->. Qed.

Lemma uri_path_notebook a : is_Some (uri_path "notebook" [a]).
Proof. unfold uri_path. cbn. eauto. Qed.

Lemma uri_path_note a b : is_Some (uri_path "note" [a; b]).
Proof. unfold uri_path. cbn. eauto. Qed.

Lemma uri_path_move a b c : is_Some (uri_path "move" [a; b; c]).
Proof. unfold uri_path. cbn. eauto. Qed.

Section Running.
Variable remote : list request -> request -> response.

Lemma api_request_run data m keyword args w :
  is_Some (uri_path keyword args) ->
  api_request remote data m keyword args w =
  (Ok (remote (sent w) (rq data m keyword args)),
   with_sent (fun l => l ++ [rq data m keyword args]) w).
Proof. intros [p Hp]. unfold api_request. now rewrite Hp. Qed.

Lemma api_get_notebook_run notebook_id w :
  api_get_notebook remote notebook_id w =
  (Ok (remote (sent w) (get_notebook_rq notebook_id)),
   with_sent (fun l => l ++ [get_notebook_rq notebook_id]) w).
Proof. apply api_request_run, uri_path_notebook. Qed.

Lemma api_update_notebook_run nb w :
  api_update_notebook remote nb w =
  (Ok (remote (sent w) (put_notebook_rq nb)),
   with_sent (fun l => l ++ [put_notebook_rq nb]) w).
Proof. apply api_request_run, uri_path_notebook. Qed.

Lemma api_delete_notebook_run notebook_id w :
  api_delete_notebook remote notebook_id w =
  (Ok (remote (sent w) (delete_notebook_rq notebook_id)),
   with_sent (fun l => l ++ [delete_notebook_rq notebook_id]) w).
Proof. apply api_request_run, uri_path_notebook. Qed.

Lemma api_get_note_run notebook_id note_id w :
  api_get_note remote notebook_id note_id w =
  (Ok (remote (sent w) (get_note_rq notebook_id note_id)),
   with_sent (fun l => l ++ [get_note_rq notebook_id note_id]) w).
Proof. apply api_request_run, uri_path_note. Qed.

Lemma api_update_note_run n w :
  api_update_note remote n w =
  (Ok (remote (sent w) (put_note_rq n)),
   with_sent (fun l => l ++ [put_note_rq n]) w).
Proof. apply api_request_run, uri_path_note. Qed.

End Running.

(** ** Fuzzy lookup *)

Section Fuzzy.
Variable ratio : string -> string -> Z.
Context {A : Type} `{Model A}.
Variable query : string.

Let score (c : A) : Z := ratio (title c) query.

Lemma fuzzy_step_beats (top : Z * option A) (c : A) :
  fst top < score c -> fuzzy_step ratio query top c = (score c, Some c).
Proof.
  intros Hlt. unfold fuzzy_step. fold (score c).
  destruct (Z.gtb_spec (score c) (fst top)); [reflexivity | lia].
Qed.

Lemma fuzzy_step_keeps (top : Z * option A) (c : A) :
  score c <= fst top -> fuzzy_step ratio query top c = top.
Proof.
  intros Hle. unfold fuzzy_step. fold (score c).
  destruct (Z.gtb_spec (score c) (fst top)); [lia | reflexivity].
Qed.

(** What the loop of [fuzzy_find] has in [top_choice] after [choices],
    started from [acc]: either [acc] itself, nothing having beaten it, or
    the first of the candidates with the highest score. *)
Lemma fuzzy_loop (acc : Z * option A) (choices : list A) :
  (fold_left (fuzzy_step ratio query) choices acc = acc
   /\ forall c, c ∈ choices -> score c <= fst acc)
  \/ (exists best pre post,
        choices = pre ++ best :: post
        /\ fold_left (fuzzy_step ratio query) choices acc = (score best, Some best)
        /\ fst acc < score best
        /\ (forall c, c ∈ pre -> score c < score best)
        /\ (forall c, c ∈ post -> score c <= score best)).
Proof.
  induction choices as [|x l IH] using rev_ind.
  - left. split; [reflexivity|]. intros c Hc. inversion Hc.
  - rewrite fold_left_app. simpl.
    destruct IH as [[Heq Hall] | (best & pre & post & Hl & Heq & Hlt & Hpre & Hpost)];
      rewrite Heq.
    + destruct (Z_lt_le_dec (fst acc) (score x)) as [Hgt | Hle].
      * right. exists x, l, []. rewrite fuzzy_step_beats by assumption.
        repeat split; try lia.
        -- intros c Hc. specialize (Hall c Hc). lia.
        -- intros c Hc. inversion Hc.
      * left. rewrite fuzzy_step_keeps by assumption. split; [reflexivity|].
        intros c Hc. apply elem_of_app in Hc as [Hc | Hc]; [now apply Hall|].
        apply list_elem_of_singleton in Hc. now subst c.
    + destruct (Z_lt_le_dec (score best) (score x)) as [Hgt | Hle].
      * right. exists x, l, []. rewrite fuzzy_step_beats by assumption.
        repeat split; try lia.
        -- intros c Hc. rewrite Hl in Hc.
           apply elem_of_app in Hc as [Hc | Hc]; [specialize (Hpre c Hc); lia|].
           apply elem_of_cons in Hc as [-> | Hc]; [lia|].
           specialize (Hpost c Hc). lia.
        -- intros c Hc. inversion Hc.
      * right. exists best, pre, (post ++ [x]).
        rewrite fuzzy_step_keeps by assumption.
        repeat split; try assumption.
        -- rewrite Hl. now rewrite <- app_assoc.
        -- intros c Hc. apply elem_of_app in Hc as [Hc | Hc]; [now apply Hpost|].
           apply list_elem_of_singleton in Hc. now subst c.
Qed.

(** C6.  [fuzzy_find] is a total function, so it never raises.  When every
    candidate scores 0 against the query, and so also when there is no
    candidate, it returns nothing.  When some candidate scores above 0 it
    returns a candidate [best] that no candidate outscores and that every
    candidate before it in the iteration scores strictly below: the first
    of the highest-scoring ones. *)
Theorem fuzzy_find_first_highest (choices : list A) :
  ((forall c, c ∈ choices -> score c = 0) ->
   fuzzy_find ratio query choices = None)
  /\ ((exists c, c ∈ choices /\ 0 < score c) ->
      exists best pre post,
        fuzzy_find ratio query choices = Some best
        /\ choices = pre ++ best :: post
        /\ (forall c, c ∈ choices -> score c <= score best)
        /\ (forall c, c ∈ pre -> score c < score best)).
Proof.
  unfold fuzzy_find.
  destruct (fuzzy_loop (0, None) choices)
    as [[Heq Hall] | (best & pre & post & Hl & Heq & Hlt & Hpre & Hpost)];
    rewrite Heq; simpl in *; split.
  - reflexivity.
  - intros (c & Hc & Hpos). specialize (Hall c Hc). lia.
  - intros Hzero. assert (best ∈ choices) as Hin.
    { rewrite Hl. apply elem_of_app. right. apply elem_of_cons. now left. }
    specialize (Hzero best Hin). lia.
  - intros _. exists best, pre, post. repeat split; try assumption.
    intros c Hc. rewrite Hl in Hc.
    apply elem_of_app in Hc as [Hc | Hc]; [specialize (Hpre c Hc); lia|].
    apply elem_of_cons in Hc as [-> | Hc]; [lia | now apply Hpost].
Qed.

End Fuzzy.

(** ** Adding a notebook to the workspace *)

(** C10.  [Paperwork.add_notebook] on a notebook with id 0 returns and
    leaves the whole world as it was: the [notebooks] dict has no new key
    and no request is sent.  On a notebook with another id it stores the
    notebook under that id, which leaves every other key of [notebooks] as
    it was, writes one record to the log and changes nothing else: the tags,
    the stored objects and the requests sent are the same. *)
Theorem add_notebook_guards_id_0 (w : World) (notebook : ref) (nb : Notebook) :
  notebook_store w !! notebook = Some nb ->
  (nb_id nb = 0 -> Paperwork_add_notebook notebook w = (Ok tt, w))
  /\ (nb_id nb <> 0 ->
      exists w',
        Paperwork_add_notebook notebook w = (Ok tt, w')
        /\ notebooks (paperwork w')
           = dict.set (notebooks (paperwork w)) (nb_id nb) notebook
        /\ dict.get (notebooks (paperwork w')) (nb_id nb) = Some notebook
        /\ (forall k, k <> nb_id nb ->
              dict.get (notebooks (paperwork w')) k
              = dict.get (notebooks (paperwork w)) k)
        /\ tags (paperwork w') = tags (paperwork w)
        /\ authenticated (paperwork w') = authenticated (paperwork w)
        /\ notebook_store w' = notebook_store w
        /\ note_store w' = note_store w
        /\ tag_store w' = tag_store w
        /\ sent w' = sent w
        /\ logged w' = logged w ++ [(INFO, "Added notebook " +:+ Model_str nb)]).
Proof.
  intros Hnb. unfold Paperwork_add_notebook.
  assert (notebook_at notebook w = (Ok nb, w)) as Hat.
  { unfold notebook_at. now rewrite Hnb. }
  rewrite (bind_Ok _ _ _ _ _ Hat). split.
  - intros ->. simpl. reflexivity.
  - intros Hne. apply Z.eqb_neq in Hne. rewrite Hne. simpl.
    eexists. split; [reflexivity|]. simpl.
    repeat split.
    + apply dict_get_set_eq.
    + intros k Hk. apply dict_get_set_ne. apply Z.eqb_neq in Hne. congruence.
Qed.

(** ** One reconciliation *)

Lemma notebook_at_run w r nb :
  notebook_store w !! r = Some nb -> notebook_at r w = (Ok nb, w).
Proof. unfold notebook_at. now intros ->. Qed.

Lemma note_at_run w r n :
  note_store w !! r = Some n -> note_at r w = (Ok n, w).
Proof. unfold note_at. now intros ->. Qed.

Lemma tag_at_run w r t :
  tag_store w !! r = Some t -> tag_at r w = (Ok t, w).
Proof. unfold tag_at. now intros ->. Qed.

Lemma logger_run lvl msg w :
  logger lvl msg w = (Ok tt, with_logged (fun l => l ++ [(lvl, msg)]) w).
Proof. reflexivity. Qed.

Lemma Notebook_set_title_run w self nb v :
  notebook_store w !! self = Some nb ->
  Notebook_set_title self v w =
  (Ok tt, with_notebook_store (fun h => <[self := nb_with_title v nb]> h) w).
Proof.
  intros Hnb. unfold Notebook_set_title.
  now rewrite (bind_Ok _ _ _ _ _ (notebook_at_run _ _ _ Hnb)).
Qed.

Lemma Notebook_set_updated_at_run w self nb v :
  notebook_store w !! self = Some nb ->
  Notebook_set_updated_at self v w =
  (Ok tt, with_notebook_store (fun h => <[self := nb_with_updated_at v nb]> h) w).
Proof.
  intros Hnb. unfold Notebook_set_updated_at.
  now rewrite (bind_Ok _ _ _ _ _ (notebook_at_run _ _ _ Hnb)).
Qed.

Lemma Notebook_set_notes_run w self nb v :
  notebook_store w !! self = Some nb ->
  Notebook_set_notes self v w =
  (Ok tt, with_notebook_store (fun h => <[self := nb_with_notes v nb]> h) w).
Proof.
  intros Hnb. unfold Notebook_set_notes.
  now rewrite (bind_Ok _ _ _ _ _ (notebook_at_run _ _ _ Hnb)).
Qed.

Lemma Note_set_title_run w self n v :
  note_store w !! self = Some n ->
  Note_set_title self v w =
  (Ok tt, with_note_store (fun h => <[self := n_with_title v n]> h) w).
Proof.
  intros Hn. unfold Note_set_title.
  now rewrite (bind_Ok _ _ _ _ _ (note_at_run _ _ _ Hn)).
Qed.

Lemma Note_set_content_run w self n v :
  note_store w !! self = Some n ->
  Note_set_content self v w =
  (Ok tt, with_note_store (fun h => <[self := n_with_content v n]> h) w).
Proof.
  intros Hn. unfold Note_set_content.
  now rewrite (bind_Ok _ _ _ _ _ (note_at_run _ _ _ Hn)).
Qed.

Lemma Note_set_updated_at_run w self n v :
  note_store w !! self = Some n ->
  Note_set_updated_at self v w =
  (Ok tt, with_note_store (fun h => <[self := n_with_updated_at v n]> h) w).
Proof.
  intros Hn. unfold Note_set_updated_at.
  now rewrite (bind_Ok _ _ _ _ _ (note_at_run _ _ _ Hn)).
Qed.

(** Serialising the tag set reads the store and leaves the world alone. *)
Lemma tags_comprehension_run w refs :
  comprehension refs (fun r => t <- tag_at r ;; ret (Tag_to_json t)) w =
  (match tags_to_json (tag_store w) refs with
   | Some l => Ok l
   | None => Raise InvalidRef
   end, w).
Proof.
  unfold tags_to_json. induction refs as [|r refs IH]; [reflexivity|].
  cbn [comprehension mapM]. unfold bind at 1. unfold bind at 1.
  unfold tag_at at 1.
  destruct (tag_store w !! r) as [t|]; [|reflexivity].
  cbn. unfold bind at 1. rewrite IH.
  destruct (mapM _ refs); reflexivity.
Qed.

Lemma Note_to_json_run w self n nb tjs :
  note_store w !! self = Some n ->
  notebook_store w !! n_notebook n = Some nb ->
  tags_to_json (tag_store w) (n_tags n) = Some tjs ->
  Note_to_json self w =
  (Ok (note_json_of n nb tjs), w).
Proof.
  intros Hn Hnb Htags. unfold Note_to_json.
  rewrite (bind_Ok _ _ _ _ _ (note_at_run _ _ _ Hn)).
  erewrite bind_Ok; [|rewrite tags_comprehension_run, Htags; reflexivity].
  now rewrite (bind_Ok _ _ _ _ _ (notebook_at_run _ _ _ Hnb)).
Qed.

Section Reconcile.
Variable remote : list request -> request -> response.

(** *** Notebook.update, case by case *)

Section OneNotebook.
Variables (w : World) (self : ref) (nb : Notebook).
Hypothesis Hself : notebook_store w !! self = Some nb.

Local Abbreviation fetch := (get_notebook_rq (nb_id nb)).
Local Abbreviation fetched := (remote (sent w) fetch).
Local Abbreviation w1 := (asked ("Updating " +:+ Model_str nb) fetch w).

Lemma Notebook_update_absent force :
  fetched = RNone ->
  Notebook_update remote self force w =
  (Ok tt, with_logged (fun l => l ++ [(ERROR, notebook_missing)]) w1).
Proof.
  intros Hr. unfold Notebook_update.
  rewrite (bind_Ok _ _ _ _ _ (notebook_at_run _ _ _ Hself)).
  rewrite (bind_Ok _ _ _ _ _ (logger_run _ _ _)).
  rewrite (bind_Ok _ _ _ _ _ (api_get_notebook_run _ _ _)).
  cbn [sent with_logged]. rewrite Hr. reflexivity.
Qed.

Lemma Notebook_update_forced :
  is_None fetched = false ->
  Notebook_update remote self true w =
  (Ok tt,
   with_sent (fun l => l ++ [put_notebook_rq (Notebook_to_json nb)]) w1).
Proof.
  intros Hr. unfold Notebook_update.
  rewrite (bind_Ok _ _ _ _ _ (notebook_at_run _ _ _ Hself)).
  rewrite (bind_Ok _ _ _ _ _ (logger_run _ _ _)).
  rewrite (bind_Ok _ _ _ _ _ (api_get_notebook_run _ _ _)).
  cbn [sent with_logged]. rewrite Hr.
  unfold bind at 1. cbn [ret].
  rewrite (bind_Ok _ _ _ _ _ (api_update_notebook_run _ _ _)).
  reflexivity.
Qed.

Lemma Notebook_update_push (rn : notebook_remote) :
  fetched = RNotebook rn ->
  String.ltb (nbr_updated_at rn) (nb_updated_at nb) = true ->
  Notebook_update remote self false w =
  (Ok tt,
   with_sent (fun l => l ++ [put_notebook_rq (Notebook_to_json nb)]) w1).
Proof.
  intros Hr Hlt. unfold Notebook_update.
  rewrite (bind_Ok _ _ _ _ _ (notebook_at_run _ _ _ Hself)).
  rewrite (bind_Ok _ _ _ _ _ (logger_run _ _ _)).
  rewrite (bind_Ok _ _ _ _ _ (api_get_notebook_run _ _ _)).
  cbn [sent with_logged]. rewrite Hr.
  cbn [is_None]. unfold bind at 1. cbn. rewrite Hlt.
  rewrite (bind_Ok _ _ _ _ _ (api_update_notebook_run _ _ _)).
  reflexivity.
Qed.

Lemma Notebook_update_pull (rn : notebook_remote) :
  fetched = RNotebook rn ->
  String.ltb (nbr_updated_at rn) (nb_updated_at nb) = false ->
  Notebook_update remote self false w =
  (Ok tt,
   with_notebook_store
     (fun h => <[self := nb_with_updated_at (nbr_updated_at rn)
                           (nb_with_title (nbr_title rn) nb)]> h)
     (with_logged (fun l => l ++ [(INFO, notebook_pulled)]) w1)).
Proof.
  intros Hr Hlt. unfold Notebook_update.
  rewrite (bind_Ok _ _ _ _ _ (notebook_at_run _ _ _ Hself)).
  rewrite (bind_Ok _ _ _ _ _ (logger_run _ _ _)).
  rewrite (bind_Ok _ _ _ _ _ (api_get_notebook_run _ _ _)).
  cbn [sent with_logged]. rewrite Hr.
  cbn [is_None]. unfold bind at 1. cbn. rewrite Hlt.
  rewrite (bind_Ok _ _ _ _ _ (logger_run _ _ _)).
  unfold bind at 1. cbn [ret].
  erewrite bind_Ok; [|apply Notebook_set_title_run; exact Hself].
  unfold bind at 1. cbn [ret].
  erewrite Notebook_set_updated_at_run.
  2:{ cbn. apply list_lookup_insert_eq. eapply lookup_lt_Some, Hself. }
  unfold with_notebook_store. cbn.
  now rewrite list_insert_insert_eq.
Qed.

End OneNotebook.

(** *** Note.update, case by case *)

Section OneNote.
Variables (w : World) (self : ref) (n : Note) (nb : Notebook).
Hypothesis Hself : note_store w !! self = Some n.
Hypothesis Howner : notebook_store w !! n_notebook n = Some nb.

Local Abbreviation fetch := (get_note_rq (nb_id nb) (n_id n)).
Local Abbreviation fetched := (remote (sent w) fetch).
Local Abbreviation w1 := (asked ("Updating note " +:+ Model_str n) fetch w).

Lemma Note_update_absent force :
  fetched = RNone ->
  Note_update remote self force w =
  (Ok tt, with_logged (fun l => l ++ [(ERROR, note_missing)]) w1).
Proof.
  intros Hr. unfold Note_update.
  rewrite (bind_Ok _ _ _ _ _ (note_at_run _ _ _ Hself)).
  rewrite (bind_Ok _ _ _ _ _ (logger_run _ _ _)).
  erewrite bind_Ok; [|apply notebook_at_run; exact Howner].
  rewrite (bind_Ok _ _ _ _ _ (api_get_note_run _ _ _ _)).
  cbn [sent with_logged]. rewrite Hr. reflexivity.
Qed.

(** The push, from the decision on. *)
Section Push.
Variables (force : bool) (tjs : list tag_json).
Hypothesis Hfetched : is_None fetched = false.
Hypothesis Hpush :
  force = true \/
  exists rn, fetched = RNote rn
             /\ String.leb (nr_updated_at rn) (n_updated_at n) = true.
Hypothesis Htags : tags_to_json (tag_store w) (n_tags n) = Some tjs.

Local Abbreviation json := (note_json_of n nb tjs).
Local Abbreviation w2 :=
  (with_sent (fun l => l ++ [put_note_rq json])
     (with_logged (fun l => l ++ [(INFO, note_pushed)]) w1)).
Local Abbreviation written := (remote (sent w ++ [fetch]) (put_note_rq json)).

Lemma Note_update_push_asks :
  Note_update remote self force w =
  (stamp <- item_updated_at written ;; Note_set_updated_at self stamp) w2.
Proof.
  unfold Note_update.
  rewrite (bind_Ok _ _ _ _ _ (note_at_run _ _ _ Hself)).
  rewrite (bind_Ok _ _ _ _ _ (logger_run _ _ _)).
  erewrite bind_Ok; [|apply notebook_at_run; exact Howner].
  rewrite (bind_Ok _ _ _ _ _ (api_get_note_run _ _ _ _)).
  cbn [sent with_logged]. rewrite Hfetched.
  match goal with
  | |- bind ?m _ ?W = _ => assert (m W = (Ok true, W)) as Hdecided
  end.
  { destruct Hpush as [-> | (rn & Hrn & Hle)]; [reflexivity|].
    destruct force; [reflexivity|].
    rewrite Hrn. cbn. unfold bind. cbn. now rewrite Hle. }
  rewrite (bind_Ok _ _ _ _ _ Hdecided).
  rewrite (bind_Ok _ _ _ _ _ (logger_run _ _ _)).
  erewrite bind_Ok; [|apply Note_to_json_run; eassumption].
  rewrite (bind_Ok _ _ _ _ _ (api_update_note_run _ _ _)).
  reflexivity.
Qed.

Lemma Note_update_push_written (stamp : string) :
  item_updated_at written w2 = (Ok stamp, w2) ->
  Note_update remote self force w =
  (Ok tt,
   with_note_store (fun h => <[self := n_with_updated_at stamp n]> h) w2).
Proof.
  intros Hw. rewrite Note_update_push_asks.
  rewrite (bind_Ok _ _ _ _ _ Hw).
  now apply Note_set_updated_at_run.
Qed.

Lemma Note_update_push_lost :
  written = RNone ->
  Note_update remote self force w = (Raise TypeError, w2).
Proof.
  intros Hw. rewrite Note_update_push_asks. rewrite Hw. reflexivity.
Qed.

End Push.

Lemma Note_update_pull (rn : note_remote) :
  fetched = RNote rn ->
  String.leb (nr_updated_at rn) (n_updated_at n) = false ->
  Note_update remote self false w =
  (Ok tt,
   with_note_store
     (fun h => <[self := n_with_updated_at (nr_updated_at rn)
                           (n_with_content (nr_content rn)
                              (n_with_title (nr_title rn) n))]> h)
     (with_logged (fun l => l ++ [(INFO, note_pulled)]) w1)).
Proof.
  intros Hr Hle. unfold Note_update.
  rewrite (bind_Ok _ _ _ _ _ (note_at_run _ _ _ Hself)).
  rewrite (bind_Ok _ _ _ _ _ (logger_run _ _ _)).
  erewrite bind_Ok; [|apply notebook_at_run; exact Howner].
  rewrite (bind_Ok _ _ _ _ _ (api_get_note_run _ _ _ _)).
  cbn [sent with_logged]. rewrite Hr.
  cbn [is_None]. unfold bind at 1. cbn. rewrite Hle.
  rewrite (bind_Ok _ _ _ _ _ (logger_run _ _ _)).
  unfold bind at 1. cbn [ret].
  erewrite bind_Ok; [|apply Note_set_title_run; exact Hself].
  unfold bind at 1. cbn [ret].
  erewrite bind_Ok.
  2:{ apply Note_set_content_run. cbn.
      apply list_lookup_insert_eq. eapply lookup_lt_Some, Hself. }
  unfold bind at 1. cbn [ret].
  erewrite Note_set_updated_at_run.
  2:{ cbn. apply list_lookup_insert_eq. rewrite length_insert.
      eapply lookup_lt_Some, Hself. }
  unfold with_note_store. cbn.
  now rewrite !list_insert_insert_eq.
Qed.

End OneNote.

End Reconcile.

(** A push sends the PUT of the local note after the GET, whatever the
    host then answers, and leaves the local title and content alone. *)
Lemma Note_update_push_sends
    (remote : list request -> request -> response) w self n nb force tjs :
  note_store w !! self = Some n ->
  notebook_store w !! n_notebook n = Some nb ->
  tags_to_json (tag_store w) (n_tags n) = Some tjs ->
  is_None (remote (sent w) (get_note_rq (nb_id nb) (n_id n))) = false ->
  (force = true \/
   exists rn, remote (sent w) (get_note_rq (nb_id nb) (n_id n)) = RNote rn
              /\ String.leb (nr_updated_at rn) (n_updated_at n) = true) ->
  exists o w' n',
    Note_update remote self force w = (o, w')
    /\ sent w' = sent w ++ [get_note_rq (nb_id nb) (n_id n);
                            put_note_rq (note_json_of n nb tjs)]
    /\ note_store w' !! self = Some n'
    /\ n_title n' = n_title n
    /\ n_content n' = n_content n.
Proof.
  intros Hself Howner Htags Hsome Hpush.
  rewrite (Note_update_push_asks remote w self n nb Hself Howner force tjs
             Hsome Hpush Htags).
  destruct (remote (sent w ++ [get_note_rq (nb_id nb) (n_id n)])
              (put_note_rq (note_json_of n nb tjs))) as [|wnb|wn|wt|items].
  - do 2 eexists. exists n. split; [reflexivity|]. cbn.
    rewrite <- app_assoc. repeat split. assumption.
  - do 2 eexists. exists (n_with_updated_at (nbr_updated_at wnb) n).
    split; [cbn; unfold bind; cbn; unfold Note_set_updated_at, bind, note_at;
            cbn; rewrite Hself; reflexivity|].
    cbn. rewrite <- app_assoc. repeat split.
    apply list_lookup_insert_eq. eapply lookup_lt_Some, Hself.
  - do 2 eexists. exists (n_with_updated_at (nr_updated_at wn) n).
    split; [cbn; unfold bind; cbn; unfold Note_set_updated_at, bind, note_at;
            cbn; rewrite Hself; reflexivity|].
    cbn. rewrite <- app_assoc. repeat split.
    apply list_lookup_insert_eq. eapply lookup_lt_Some, Hself.
  - do 2 eexists. exists n. split; [reflexivity|]. cbn.
    rewrite <- app_assoc. repeat split. assumption.
  - do 2 eexists. exists n. split; [reflexivity|]. cbn.
    rewrite <- app_assoc. repeat split. assumption.
Qed.

(** ** What one reconciliation guarantees *)

(** C4.  When the GET of [update] comes back as [None], [Notebook.update]
    and [Note.update] return without raising, whatever [force] is.  They
    log an error record after the usual info record and have sent the GET
    and nothing else.  The stored notebooks, notes and tags and the
    workspace with its two dicts are exactly what they were. *)
Theorem update_remote_absent
    (remote : list request -> request -> response) (w : World) (force : bool) :
  (forall self nb,
      notebook_store w !! self = Some nb ->
      remote (sent w) (get_notebook_rq (nb_id nb)) = RNone ->
      exists w',
        Notebook_update remote self force w = (Ok tt, w')
        /\ notebook_store w' = notebook_store w
        /\ note_store w' = note_store w
        /\ tag_store w' = tag_store w
        /\ paperwork w' = paperwork w
        /\ sent w' = sent w ++ [get_notebook_rq (nb_id nb)]
        /\ logged w' = logged w ++ [(INFO, "Updating " +:+ Model_str nb);
                                    (ERROR, notebook_missing)])
  /\ (forall self n nb,
        note_store w !! self = Some n ->
        notebook_store w !! n_notebook n = Some nb ->
        remote (sent w) (get_note_rq (nb_id nb) (n_id n)) = RNone ->
        exists w',
          Note_update remote self force w = (Ok tt, w')
          /\ notebook_store w' = notebook_store w
          /\ note_store w' = note_store w
          /\ tag_store w' = tag_store w
          /\ paperwork w' = paperwork w
          /\ sent w' = sent w ++ [get_note_rq (nb_id nb) (n_id n)]
          /\ logged w' = logged w ++ [(INFO, "Updating note " +:+ Model_str n);
                                      (ERROR, note_missing)]).
Proof.
  split.
  - intros self nb Hself Hr. eexists. split.
    + apply (Notebook_update_absent remote w self nb Hself force Hr).
    + cbn. rewrite <- app_assoc. repeat split.
  - intros self n nb Hself Howner Hr. eexists. split.
    + apply (Note_update_absent remote w self n nb Hself Howner force Hr).
    + cbn. rewrite <- app_assoc. repeat split.
Qed.

Lemma update_remote_absent_witness :
  (exists w', Notebook_update offline 0%nat false desk = (Ok tt, w')
              /\ notebook_store w' = notebook_store desk)
  /\ (exists w', Note_update offline 0%nat true desk = (Ok tt, w')
                 /\ note_store w' = note_store desk).
Proof.
  split.
  - destruct (proj1 (update_remote_absent offline desk false) 0%nat work)
      as (w' & Hrun & Hnbs & _); [reflexivity | reflexivity |].
    exists w'. split; assumption.
  - destruct (proj2 (update_remote_absent offline desk true) 0%nat plan work)
      as (w' & Hrun & _ & Hnotes & _); [reflexivity | reflexivity | reflexivity |].
    exists w'. split; assumption.
Defined.

Lemma add_notebook_guards_id_0_witness :
  Paperwork_add_notebook 2%nat desk = (Ok tt, desk)
  /\ exists w', Paperwork_add_notebook 1%nat desk = (Ok tt, w')
                /\ dict.get (notebooks (paperwork w')) 2 = Some 1%nat.
Proof.
  split.
  - apply (proj1 (add_notebook_guards_id_0 desk 2%nat draft eq_refl)). reflexivity.
  - destruct (proj2 (add_notebook_guards_id_0 desk 1%nat home eq_refl))
      as (w' & Hrun & _ & Hget & _); [discriminate|].
    exists w'. split; assumption.
Defined.

Lemma fuzzy_find_first_highest_witness :
  fuzzy_find exact_ratio "Inbox" [work; home; draft] = None
  /\ exists best pre post,
       fuzzy_find exact_ratio "Home" [work; home; draft] = Some best
       /\ [work; home; draft] = pre ++ best :: post.
Proof.
  split.
  - apply (proj1 (fuzzy_find_first_highest exact_ratio "Inbox" [work; home; draft])).
    intros c Hc. repeat (apply elem_of_cons in Hc as [-> | Hc]; [reflexivity|]).
    inversion Hc.
  - destruct (proj2 (fuzzy_find_first_highest exact_ratio "Home" [work; home; draft]))
      as (best & pre & post & Hfound & Hsplit & _).
    + exists home. split; [|reflexivity].
      apply elem_of_cons. right. apply elem_of_cons. now left.
    + exists best, pre, post. split; assumption.
Defined.

(** C1.  On equal time stamps the two policies part ways.  [Note.update]
    without [force] sends the PUT that carries the local note after its GET,
    and the local title and content stay: ties push.  [Notebook.update]
    without [force] sends its GET and no write, returns, and has overwritten
    the local title and time stamp with the remote ones: ties pull. *)
Theorem update_tie_break
    (remote : list request -> request -> response) (w : World) :
  (forall self n nb tjs rn,
      note_store w !! self = Some n ->
      notebook_store w !! n_notebook n = Some nb ->
      tags_to_json (tag_store w) (n_tags n) = Some tjs ->
      remote (sent w) (get_note_rq (nb_id nb) (n_id n)) = RNote rn ->
      nr_updated_at rn = n_updated_at n ->
      exists o w' n',
        Note_update remote self false w = (o, w')
        /\ sent w' = sent w ++ [get_note_rq (nb_id nb) (n_id n);
                                put_note_rq (note_json_of n nb tjs)]
        /\ note_store w' !! self = Some n'
        /\ n_title n' = n_title n
        /\ n_content n' = n_content n)
  /\ (forall self nb rn,
        notebook_store w !! self = Some nb ->
        remote (sent w) (get_notebook_rq (nb_id nb)) = RNotebook rn ->
        nbr_updated_at rn = nb_updated_at nb ->
        exists w',
          Notebook_update remote self false w = (Ok tt, w')
          /\ sent w' = sent w ++ [get_notebook_rq (nb_id nb)]
          /\ notebook_store w' =
             <[self := nb_with_updated_at (nbr_updated_at rn)
                         (nb_with_title (nbr_title rn) nb)]> (notebook_store w)
          /\ note_store w' = note_store w).
Proof.
  split.
  - intros self n nb tjs rn Hself Howner Htags Hr Heq.
    apply (Note_update_push_sends remote w self n nb false tjs);
      try assumption.
    + now rewrite Hr.
    + right. exists rn. split; [assumption|]. rewrite Heq. apply leb_refl.
  - intros self nb rn Hself Hr Heq. eexists. split.
    + apply (Notebook_update_pull remote w self nb Hself rn Hr).
      rewrite Heq. apply ltb_irrefl.
    + cbn. repeat split.
Qed.

Lemma update_tie_break_witness :
  (exists o w', Note_update in_step 0%nat false desk = (o, w')
                /\ sent w' = [rq None GET "note" ["1"; "7"];
                              put_note_rq (note_json_of plan work [Tag_to_json urgent])])
  /\ (exists w', Notebook_update in_step 0%nat false desk = (Ok tt, w')
                 /\ sent w' = [rq None GET "notebook" ["1"]]).
Proof.
  split.
  - destruct (proj1 (update_tie_break in_step desk) 0%nat plan work
                [Tag_to_json urgent] (plan_remote "100"))
      as (o & w' & n' & Hrun & Hsent & _); try reflexivity.
    exists o, w'. split; assumption.
  - destruct (proj2 (update_tie_break in_step desk) 0%nat work (work_remote "100"))
      as (w' & Hrun & Hsent & _); try reflexivity.
    exists w'. split; assumption.
Defined.

(** C2, as the code has it.  A note that is pushed, because [force] is set
    or because the remote stamp is not above the local one, and whose write
    comes back with a note, takes the time stamp of that answer and changes
    in nothing else.  A notebook that is pushed, because [force] is set or
    because the remote stamp is below the local one, sends the write and
    drops its answer: every stored notebook, its time stamp included, is what
    it was. *)
Theorem push_takes_server_stamp_for_notes
    (remote : list request -> request -> response) (w : World) (force : bool) :
  (forall self n nb tjs wn,
      note_store w !! self = Some n ->
      notebook_store w !! n_notebook n = Some nb ->
      tags_to_json (tag_store w) (n_tags n) = Some tjs ->
      is_None (remote (sent w) (get_note_rq (nb_id nb) (n_id n))) = false ->
      (force = true \/
       exists rn, remote (sent w) (get_note_rq (nb_id nb) (n_id n)) = RNote rn
                  /\ String.leb (nr_updated_at rn) (n_updated_at n) = true) ->
      remote (sent w ++ [get_note_rq (nb_id nb) (n_id n)])
        (put_note_rq (note_json_of n nb tjs)) = RNote wn ->
      exists w',
        Note_update remote self force w = (Ok tt, w')
        /\ note_store w' =
           <[self := n_with_updated_at (nr_updated_at wn) n]> (note_store w)
        /\ sent w' = sent w ++ [get_note_rq (nb_id nb) (n_id n);
                                put_note_rq (note_json_of n nb tjs)])
  /\ (forall self nb,
        notebook_store w !! self = Some nb ->
        is_None (remote (sent w) (get_notebook_rq (nb_id nb))) = false ->
        (force = true \/
         exists rn, remote (sent w) (get_notebook_rq (nb_id nb)) = RNotebook rn
                    /\ String.ltb (nbr_updated_at rn) (nb_updated_at nb) = true) ->
        exists w',
          Notebook_update remote self force w = (Ok tt, w')
          /\ notebook_store w' = notebook_store w
          /\ sent w' = sent w ++ [get_notebook_rq (nb_id nb);
                                  put_notebook_rq (Notebook_to_json nb)]).
Proof.
  split.
  - intros self n nb tjs wn Hself Howner Htags Hsome Hpush Hwritten.
    eexists. split.
    + apply (Note_update_push_written remote w self n nb Hself Howner force tjs
               Hsome Hpush Htags).
      rewrite Hwritten. reflexivity.
    + cbn. rewrite <- app_assoc. repeat split.
  - intros self nb Hself Hsome Hpush.
    assert (Notebook_update remote self force w =
            (Ok tt,
             with_sent (fun l => l ++ [put_notebook_rq (Notebook_to_json nb)])
               (asked ("Updating " +:+ Model_str nb)
                  (get_notebook_rq (nb_id nb)) w))) as Hrun.
    { destruct force.
      - apply (Notebook_update_forced remote w self nb Hself Hsome).
      - destruct Hpush as [? | (rn & Hrn & Hlt)]; [discriminate|].
        apply (Notebook_update_push remote w self nb Hself rn Hrn Hlt). }
    eexists. split; [exact Hrun|].
    cbn. rewrite <- app_assoc. repeat split.
Qed.

Lemma push_takes_server_stamp_for_notes_witness :
  (exists w', Note_update in_step 0%nat false desk = (Ok tt, w')
              /\ note_store w' = [n_with_updated_at "101" plan; agenda])
  /\ (exists w', Notebook_update in_step 0%nat true desk = (Ok tt, w')
                 /\ notebook_store w' = notebook_store desk).
Proof.
  split.
  - destruct (proj1 (push_takes_server_stamp_for_notes in_step desk false)
                0%nat plan work [Tag_to_json urgent] (plan_remote "101"))
      as (w' & Hrun & Hstore & _); try reflexivity.
    + right. exists (plan_remote "100"). split; reflexivity.
    + exists w'. split; assumption.
  - destruct (proj2 (push_takes_server_stamp_for_notes in_step desk true)
                0%nat work)
      as (w' & Hrun & Hstore & _); try reflexivity.
    + now left.
    + exists w'. split; assumption.
Defined.

(** C2 fails for notebooks.  The notebook "Work" is pushed with [force];
    the host answers the write with the time stamp "101"; the local time
    stamp is still "100". *)
Lemma notebook_push_drops_server_stamp :
  fst (Notebook_update in_step 0%nat true desk) = Ok tt
  /\ sent (snd (Notebook_update in_step 0%nat true desk))
     = [get_notebook_rq 1; put_notebook_rq (Notebook_to_json work)]
  /\ in_step [get_notebook_rq 1] (put_notebook_rq (Notebook_to_json work))
     = RNotebook (work_remote "101")
  /\ nb_updated_at <$> notebook_store (snd (Notebook_update in_step 0%nat true desk)) !! 0%nat
     = Some "100"
  /\ nb_updated_at <$> notebook_store (snd (Notebook_update in_step 0%nat true desk)) !! 0%nat
     <> Some (nbr_updated_at (work_remote "101")).
Proof. repeat split; try reflexivity. discriminate. Qed.

(** ** Deleting *)

Section Deleting.
Variable remote : list request -> request -> response.

Lemma api_delete_note_run json w :
  api_delete_note remote json w =
  item0 (remote (sent w) (delete_note_rq json))
    (with_sent (fun l => l ++ [delete_note_rq json]) w).
Proof.
  unfold api_delete_note, api_delete_notes. cbn [head lift].
  unfold bind at 2. cbn [ret].
  unfold api_delete. cbn [map join].
  now rewrite (bind_Ok _ _ _ _ _ (api_request_run remote _ _ _ _ _ (uri_path_note _ _))).
Qed.

Lemma api_move_note_run json new_id w :
  api_move_note remote json new_id w =
  item0 (remote (sent w) (move_note_rq json new_id))
    (with_sent (fun l => l ++ [move_note_rq json new_id]) w).
Proof.
  unfold api_move_note, api_move_notes. cbn [head lift].
  unfold bind at 2. cbn [ret].
  unfold api_get. cbn [map join].
  now rewrite (bind_Ok _ _ _ _ _ (api_request_run remote _ _ _ _ _ (uri_path_move _ _ _))).
Qed.

Lemma Note_leave_notebook_run w self n nb :
  note_store w !! self = Some n ->
  notebook_store w !! n_notebook n = Some nb ->
  dict.mem (nb_notes nb) (n_id n) = true ->
  Note_leave_notebook self w =
  (Ok tt,
   with_notebook_store
     (fun h => <[n_notebook n :=
                   nb_with_notes (dict.remove (nb_notes nb) (n_id n)) nb]> h) w).
Proof.
  intros Hself Howner Hmem. unfold Note_leave_notebook.
  rewrite (bind_Ok _ _ _ _ _ (note_at_run _ _ _ Hself)).
  rewrite (bind_Ok _ _ _ _ _ (notebook_at_run _ _ _ Howner)).
  unfold dict.del. rewrite Hmem. cbn [lift]. unfold bind at 1. cbn [ret].
  now apply Notebook_set_notes_run.
Qed.

Lemma Notebook_delete_run w self nb :
  notebook_store w !! self = Some nb ->
  Notebook_delete remote self w =
  (Ok tt,
   with_sent (fun l => l ++ [delete_notebook_rq (nb_id nb)])
     (with_logged
        (fun l => l ++ [(INFO, "Deleting notebook " +:+ Model_str nb)]) w)).
Proof.
  intros Hself. unfold Notebook_delete.
  rewrite (bind_Ok _ _ _ _ _ (notebook_at_run _ _ _ Hself)).
  rewrite (bind_Ok _ _ _ _ _ (logger_run _ _ _)).
  now rewrite (bind_Ok _ _ _ _ _ (api_delete_notebook_run _ _ _)).
Qed.

Lemma Note_delete_run w self n nb tjs first others :
  note_store w !! self = Some n ->
  notebook_store w !! n_notebook n = Some nb ->
  tags_to_json (tag_store w) (n_tags n) = Some tjs ->
  remote (sent w) (delete_note_rq (note_json_of n nb tjs))
  = RList (first :: others) ->
  dict.mem (nb_notes nb) (n_id n) = true ->
  Note_delete remote self w =
  (Ok tt,
   with_notebook_store
     (fun h => <[n_notebook n :=
                   nb_with_notes (dict.remove (nb_notes nb) (n_id n)) nb]> h)
     (with_sent (fun l => l ++ [delete_note_rq (note_json_of n nb tjs)])
        (with_logged
           (fun l => l ++ [(INFO, "Deleting note " +:+ Model_str n
                                  +:+ " in notebook " +:+ Model_str nb)]) w))).
Proof.
  intros Hself Howner Htags Hanswer Hmem. unfold Note_delete.
  rewrite (bind_Ok _ _ _ _ _ (note_at_run _ _ _ Hself)).
  rewrite (bind_Ok _ _ _ _ _ (notebook_at_run _ _ _ Howner)).
  rewrite (bind_Ok _ _ _ _ _ (logger_run _ _ _)).
  erewrite bind_Ok; [|apply Note_to_json_run; eassumption].
  erewrite bind_Ok.
  2:{ rewrite api_delete_note_run. cbn [sent with_logged].
      rewrite Hanswer. reflexivity. }
  now apply Note_leave_notebook_run.
Qed.

(** Whatever the host answers, and whether or not the notebook lists the
    note, [Note.delete] has sent its one DELETE by the time it returns or
    raises, and has left the notes, the tags and the workspace alone. *)
Lemma Note_delete_asks_once w self n nb tjs :
  note_store w !! self = Some n ->
  notebook_store w !! n_notebook n = Some nb ->
  tags_to_json (tag_store w) (n_tags n) = Some tjs ->
  sent (snd (Note_delete remote self w))
  = sent w ++ [delete_note_rq (note_json_of n nb tjs)]
  /\ note_store (snd (Note_delete remote self w)) = note_store w
  /\ tag_store (snd (Note_delete remote self w)) = tag_store w
  /\ paperwork (snd (Note_delete remote self w)) = paperwork w.
Proof.
  intros Hself Howner Htags. unfold Note_delete.
  rewrite (bind_Ok _ _ _ _ _ (note_at_run _ _ _ Hself)).
  rewrite (bind_Ok _ _ _ _ _ (notebook_at_run _ _ _ Howner)).
  rewrite (bind_Ok _ _ _ _ _ (logger_run _ _ _)).
  erewrite bind_Ok; [|apply Note_to_json_run; eassumption].
  unfold bind. rewrite api_delete_note_run. cbn [sent with_logged].
  destruct (remote (sent w) (delete_note_rq (note_json_of n nb tjs)))
    as [| | | |[|first others]]; cbn [item0 raise ret snd];
    try (repeat split; reflexivity).
  destruct (dict.mem (nb_notes nb) (n_id n)) eqn:Hmem.
  - erewrite Note_leave_notebook_run; [|eassumption..].
    repeat split; reflexivity.
  - unfold Note_leave_notebook.
    erewrite bind_Ok; [|apply note_at_run; exact Hself].
    erewrite bind_Ok; [|apply notebook_at_run; exact Howner].
    unfold dict.del. rewrite Hmem. cbn [lift]. unfold bind.
    cbn [raise snd]. repeat split; reflexivity.
Qed.

End Deleting.

(** C8, as the code has it.  [Note.delete] sends exactly one DELETE for
    the note, whatever the host answers and whether or not the notebook
    lists the note, and touches no note, tag or workspace; when the host
    answers with a list that has a first item and the notebook lists the
    note, it returns and the notebook is what it was but for its [notes],
    which have lost the note's id: the id is no longer a key there and every
    other key is as before.  [Notebook.delete] sends exactly one DELETE for
    the notebook and does nothing else: the workspace and its [notebooks]
    dict, the notebooks, the notes and the tags are what they were. *)
Theorem delete_drops_note_keeps_notebook
    (remote : list request -> request -> response) (w : World) :
  (forall self n nb tjs,
      note_store w !! self = Some n ->
      notebook_store w !! n_notebook n = Some nb ->
      tags_to_json (tag_store w) (n_tags n) = Some tjs ->
      (exists o w',
          Note_delete remote self w = (o, w')
          /\ sent w' = sent w ++ [delete_note_rq (note_json_of n nb tjs)]
          /\ note_store w' = note_store w
          /\ tag_store w' = tag_store w
          /\ paperwork w' = paperwork w)
      /\ (forall first others,
            remote (sent w) (delete_note_rq (note_json_of n nb tjs))
            = RList (first :: others) ->
            dict.mem (nb_notes nb) (n_id n) = true ->
            exists w' nb',
              Note_delete remote self w = (Ok tt, w')
              /\ sent w' = sent w ++ [delete_note_rq (note_json_of n nb tjs)]
              /\ notebook_store w'
                 = <[n_notebook n :=
                       nb_with_notes (dict.remove (nb_notes nb) (n_id n)) nb]>
                     (notebook_store w)
              /\ notebook_store w' !! n_notebook n = Some nb'
              /\ dict.get (nb_notes nb') (n_id n) = None
              /\ (forall k, k <> n_id n ->
                    dict.get (nb_notes nb') k = dict.get (nb_notes nb) k)))
  /\ (forall self nb,
        notebook_store w !! self = Some nb ->
        exists w',
          Notebook_delete remote self w = (Ok tt, w')
          /\ sent w' = sent w ++ [delete_notebook_rq (nb_id nb)]
          /\ paperwork w' = paperwork w
          /\ notebook_store w' = notebook_store w
          /\ note_store w' = note_store w
          /\ tag_store w' = tag_store w).
Proof.
  split.
  - intros self n nb tjs Hself Howner Htags. split.
    + exists (fst (Note_delete remote self w)), (snd (Note_delete remote self w)).
      split; [apply surjective_pairing|].
      apply (Note_delete_asks_once remote w self n nb tjs); assumption.
    + intros first others Hanswer Hmem.
      do 2 eexists. split.
      * apply (Note_delete_run remote w self n nb tjs first others); assumption.
      * cbn. split; [reflexivity|]. split; [reflexivity|]. split.
        -- apply list_lookup_insert_eq. eapply lookup_lt_Some, Howner.
        -- cbn. split; [apply dict_get_remove_eq|].
           intros k Hk. apply dict_get_remove_ne. congruence.
  - intros self nb Hself. eexists. split.
    + apply (Notebook_delete_run remote w self nb Hself).
    + cbn. repeat split.
Qed.

Lemma delete_drops_note_keeps_notebook_witness :
  (exists w', Note_delete obliging 0%nat desk = (Ok tt, w')
              /\ sent w' = [rq None DELETE "note" ["1"; "7"]])
  /\ (exists o w', Note_delete offline 0%nat desk = (o, w')
                   /\ sent w' = [rq None DELETE "note" ["1"; "7"]])
  /\ (exists w', Notebook_delete obliging 0%nat desk = (Ok tt, w')
                 /\ paperwork w' = paperwork desk).
Proof.
  split; [|split].
  - destruct (proj1 (delete_drops_note_keeps_notebook obliging desk) 0%nat plan
                work [Tag_to_json urgent]) as [_ Hdrop]; try reflexivity.
    destruct (Hdrop (RNote (plan_remote "100")) [])
      as (w' & nb' & Hrun & Hsent & _); try reflexivity.
    exists w'. split; assumption.
  - destruct (proj1 (delete_drops_note_keeps_notebook offline desk) 0%nat plan
                work [Tag_to_json urgent]) as [Honce _]; try reflexivity.
    destruct Honce as (o & w' & Hrun & Hsent & _).
    exists o, w'. split; assumption.
  - destruct (proj2 (delete_drops_note_keeps_notebook obliging desk) 0%nat work)
      as (w' & Hrun & _ & Hpw & _); try reflexivity.
    exists w'. split; assumption.
Defined.

(** C8 fails for notebooks.  After [Notebook.delete] on "Work", which sent
    its one DELETE and returned, the workspace still has the notebook under
    its id 1. *)
Lemma notebook_delete_leaves_entry :
  fst (Notebook_delete obliging 0%nat desk) = Ok tt
  /\ sent (snd (Notebook_delete obliging 0%nat desk)) = [delete_notebook_rq 1]
  /\ dict.get (notebooks (paperwork (snd (Notebook_delete obliging 0%nat desk)))) 1
     = Some 0%nat
  /\ dict.get (notebooks (paperwork (snd (Notebook_delete obliging 0%nat desk)))) 1
     <> None.
Proof. repeat split; try reflexivity. discriminate. Qed.

(** ** Where the code falls short of the specification *)

(** C7.  Moving the note "plan" (id 7) from "Work" to "Home": one move
    request is sent, "Work" no longer has the key 7 and keeps its other
    entry, "Home" has the key 7 for the same note object.  The note's
    [notebook] is still "Work" (reference 0), not "Home" (reference 1). *)
Theorem move_to_keeps_old_owner :
  fst (Note_move_to obliging 0%nat 1%nat desk) = Ok tt
  /\ sent (snd (Note_move_to obliging 0%nat 1%nat desk))
     = [rq None GET "move" ["1"; "7"; "2"]]
  /\ nb_notes <$> notebook_store (snd (Note_move_to obliging 0%nat 1%nat desk)) !! 0%nat
     = Some [(8, 1%nat)]
  /\ nb_notes <$> notebook_store (snd (Note_move_to obliging 0%nat 1%nat desk)) !! 1%nat
     = Some [(7, 0%nat)]
  /\ n_notebook <$> note_store (snd (Note_move_to obliging 0%nat 1%nat desk)) !! 0%nat
     = Some 0%nat
  /\ n_notebook <$> note_store (snd (Note_move_to obliging 0%nat 1%nat desk)) !! 0%nat
     <> Some 1%nat.
Proof. repeat split; try reflexivity. discriminate. Qed.

(** C9.  After a download that attaches the tag "urgent" to the note
    "plan", the note's tag set holds the tag, the tag's own [notes] set is
    empty and [Tag.get_notes] returns the empty list. *)
Theorem downloaded_tag_lists_no_note :
  fst (Paperwork_download shelf blank) = Ok tt
  /\ n_tags <$> note_store (snd (Paperwork_download shelf blank)) !! 0%nat
     = Some [0%nat]
  /\ t_notes <$> tag_store (snd (Paperwork_download shelf blank)) !! 0%nat
     = Some []
  /\ fst (Tag_get_notes 0%nat (snd (Paperwork_download shelf blank))) = Ok [].
Proof. repeat split; reflexivity. Qed.

(** C5.  The host loses the write of the note "agenda", the first note of
    "Work" by title.  [Paperwork.update] ends in a [TypeError] there: the
    note "plan" of the same notebook and the notebook "Home" are never
    asked about. *)
Theorem lost_write_aborts_update :
  fst (Paperwork_update lossy desk) = Raise TypeError
  /\ sent (snd (Paperwork_update lossy desk))
     = [get_notebook_rq 1; put_notebook_rq (Notebook_to_json work);
        get_note_rq 1 8; put_note_rq (note_json_of agenda work [])]
  /\ lossy [get_notebook_rq 1; put_notebook_rq (Notebook_to_json work);
            get_note_rq 1 8]
       (put_note_rq (note_json_of agenda work [])) = RNone
  /\ ~ In (get_note_rq 1 7) (sent (snd (Paperwork_update lossy desk)))
  /\ ~ In (get_notebook_rq 2) (sent (snd (Paperwork_update lossy desk))).
Proof.
  repeat split; try reflexivity.
  - vm_compute. intros H. repeat (destruct H as [H | H]; [discriminate|]). exact H.
  - vm_compute. intros H. repeat (destruct H as [H | H]; [discriminate|]). exact H.
Qed.

(** ** The traversal of the workspace *)

Lemma advances_refl w : advances w w.
Proof. repeat split. exists []. now rewrite app_nil_r. Qed.

Lemma advances_trans w1 w2 w3 :
  advances w1 w2 -> advances w2 w3 -> advances w1 w3.
Proof.
  intros (Hnb1 & Hpw1 & l1 & Hs1) (Hnb2 & Hpw2 & l2 & Hs2).
  repeat split; [congruence | congruence |].
  exists (l1 ++ l2). rewrite Hs2, Hs1. now rewrite app_assoc.
Qed.

Lemma keeps_ret {A} (a : A) : keeps (ret a).
Proof. intros w. apply advances_refl. Qed.

Lemma keeps_raise {A} (e : exn) : keeps (raise e : M A).
Proof. intros w. apply advances_refl. Qed.

Lemma keeps_lift {A} (e : exn) (o : option A) : keeps (lift e o).
Proof. destruct o; [apply keeps_ret | apply keeps_raise]. Qed.

Lemma keeps_bind {A B} (m : M A) (k : A -> M B) :
  keeps m -> (forall a, keeps (k a)) -> keeps (bind m k).
Proof.
  intros Hm Hk w. unfold bind. specialize (Hm w).
  destruct (m w) as [[a | e] w1]; cbn in *; [|assumption].
  eapply advances_trans; [exact Hm | apply Hk].
Qed.

Lemma keeps_for_each {A} (items : list A) (body : A -> M unit) :
  (forall x, keeps (body x)) -> keeps (for_each items body).
Proof.
  intros Hbody. induction items as [|x items IH]; cbn [for_each].
  - apply keeps_ret.
  - apply keeps_bind; [apply Hbody | intros _; exact IH].
Qed.

Lemma keeps_comprehension {A B} (items : list A) (f : A -> M B) :
  (forall x, keeps (f x)) -> keeps (comprehension items f).
Proof.
  intros Hf. induction items as [|x items IH]; cbn [comprehension].
  - apply keeps_ret.
  - apply keeps_bind; [apply Hf | intros y].
    apply keeps_bind; [exact IH | intros ys; apply keeps_ret].
Qed.

Lemma keeps_logger lvl msg : keeps (logger lvl msg).
Proof. intros w. repeat split. exists []. cbn. now rewrite app_nil_r. Qed.

Lemma keeps_notebook_at r : keeps (notebook_at r).
Proof. intros w. unfold notebook_at. apply keeps_lift. Qed.

Lemma keeps_note_at r : keeps (note_at r).
Proof. intros w. unfold note_at. apply keeps_lift. Qed.

Lemma keeps_tag_at r : keeps (tag_at r).
Proof. intros w. unfold tag_at. apply keeps_lift. Qed.

Lemma keeps_note_put r n : keeps (note_put r n).
Proof. intros w. repeat split. exists []. cbn. now rewrite app_nil_r. Qed.

Lemma keeps_item {A} f g h (r : response) : keeps (item f g h r : M A).
Proof. destruct r; cbn [item]; first [apply keeps_raise | apply keeps_lift]. Qed.

Create HintDb keeps.

#[local] Hint Resolve keeps_ret keeps_raise keeps_lift keeps_logger
  keeps_notebook_at keeps_note_at keeps_tag_at keeps_note_put keeps_item : keeps.

(** Splits a computation along its binds, loops and branches. *)
Ltac keeps_steps :=
  repeat first
    [ apply keeps_bind; [|intros ?]
    | apply keeps_for_each; intros ?
    | apply keeps_comprehension; intros ?
    | match goal with
      | |- keeps (if ?b then _ else _) => destruct b
      end
    | solve [auto with keeps] ].

Section Traversal.
Variable remote : list request -> request -> response.

Lemma keeps_api_request data m keyword args :
  keeps (api_request remote data m keyword args).
Proof.
  intros w. unfold api_request.
  destruct (uri_path keyword args); cbn; [|apply advances_refl].
  repeat split. eexists. reflexivity.
Qed.

Lemma keeps_Note_to_json self : keeps (Note_to_json self).
Proof. unfold Note_to_json. keeps_steps. Qed.

Lemma keeps_Note_update self force : keeps (Note_update remote self force).
Proof.
  unfold Note_update, api_get_note, api_get_notes, api_get, api_update_note,
    api_put, item_updated_at, item_title, item_content, Note_set_title,
    Note_set_content, Note_set_updated_at.
  keeps_steps; try apply keeps_api_request; try apply keeps_Note_to_json.
Qed.

Lemma keeps_Notebook_update_forced self :
  keeps (Notebook_update remote self true).
Proof.
  unfold Notebook_update, api_get_notebook, api_get, api_update_notebook, api_put.
  apply keeps_bind; [auto with keeps | intros nb].
  apply keeps_bind; [auto with keeps | intros _].
  apply keeps_bind; [apply keeps_api_request | intros remote_nb].
  destruct (is_None remote_nb); [auto with keeps|].
  intros w. unfold bind at 1. cbn [ret]. revert w.
  apply keeps_bind; [apply keeps_api_request | intros _; apply keeps_ret].
Qed.

Lemma keeps_Notebook_get_notes self : keeps (Notebook_get_notes self).
Proof. unfold Notebook_get_notes. keeps_steps. Qed.

Lemma keeps_Paperwork_update_notebook nb :
  keeps (Paperwork_update_notebook remote nb).
Proof.
  unfold Paperwork_update_notebook.
  apply keeps_bind; [apply keeps_Notebook_update_forced | intros _].
  apply keeps_bind; [apply keeps_Notebook_get_notes | intros notes].
  apply keeps_for_each. intros note. apply keeps_Note_update.
Qed.

Lemma keeps_Paperwork_update : keeps (Paperwork_update remote).
Proof.
  unfold Paperwork_update.
  apply keeps_bind; [apply keeps_logger | intros _].
  apply keeps_bind; [intros w; apply advances_refl | intros self].
  apply keeps_for_each. intros nb. apply keeps_Paperwork_update_notebook.
Qed.

Lemma for_each_app {A} (l1 l2 : list A) (body : A -> M unit) w :
  for_each (l1 ++ l2) body w = (for_each l1 body ;; for_each l2 body) w.
Proof.
  revert w. induction l1 as [|x l1 IH]; intros w; [reflexivity|].
  cbn [app for_each]. unfold bind.
  destruct (body x w) as [[[] | e] w1]; [|reflexivity].
  rewrite IH. reflexivity.
Qed.

End Traversal.

Lemma bind_assoc {A B C} (m : M A) (k1 : A -> M B) (k2 : B -> M C) w :
  bind (bind m k1) k2 w = bind m (fun a => bind (k1 a) k2) w.
Proof. unfold bind. destruct (m w) as [[a | e] w1]; reflexivity. Qed.

(** C3, as the code has it.  [Paperwork.update] reconciles every notebook
    with [force] set and every note without.
    - No notebook is pulled: however the traversal ends, every stored
      notebook is what it was.
    - A notebook that the traversal reaches, the notebooks before it having
      been dealt with in the world [wi], and whose GET is answered, is
      pushed: the requests sent in the end continue those of [wi] with the
      GET and the PUT of that notebook.  No time stamp is looked at.
    - A note is reconciled by the note policy: with a remote stamp not above
      the local one the PUT follows the GET, with a remote stamp above it no
      PUT is sent and the local title, content and stamp are overwritten. *)
Theorem workspace_update_forces_notebooks
    (remote : list request -> request -> response) (w : World) :
  Paperwork_update remote w =
  for_each (dict.values (notebooks (paperwork w)))
    (fun nb =>
       Notebook_update remote nb true ;;
       notes <- Notebook_get_notes nb ;;
       for_each notes (fun note => Note_update remote note false))
    (update_started w)
  /\ (forall o w',
        Paperwork_update remote w = (o, w') ->
        notebook_store w' = notebook_store w)
  /\ (forall pre nb post wi obj o w',
        dict.values (notebooks (paperwork w)) = pre ++ nb :: post ->
        for_each pre (Paperwork_update_notebook remote) (update_started w)
        = (Ok tt, wi) ->
        notebook_store w !! nb = Some obj ->
        is_None (remote (sent wi) (get_notebook_rq (nb_id obj))) = false ->
        Paperwork_update remote w = (o, w') ->
        exists later,
          sent w' = sent wi ++ [get_notebook_rq (nb_id obj);
                                put_notebook_rq (Notebook_to_json obj)] ++ later)
  /\ (forall wj self n nb tjs rn,
        note_store wj !! self = Some n ->
        notebook_store wj !! n_notebook n = Some nb ->
        tags_to_json (tag_store wj) (n_tags n) = Some tjs ->
        remote (sent wj) (get_note_rq (nb_id nb) (n_id n)) = RNote rn ->
        (String.leb (nr_updated_at rn) (n_updated_at n) = true ->
         exists o w',
           Note_update remote self Note_update_force wj = (o, w')
           /\ sent w' = sent wj ++ [get_note_rq (nb_id nb) (n_id n);
                                    put_note_rq (note_json_of n nb tjs)])
        /\ (String.leb (nr_updated_at rn) (n_updated_at n) = false ->
            exists w',
              Note_update remote self Note_update_force wj = (Ok tt, w')
              /\ sent w' = sent wj ++ [get_note_rq (nb_id nb) (n_id n)]
              /\ note_store w' =
                 <[self := n_with_updated_at (nr_updated_at rn)
                             (n_with_content (nr_content rn)
                                (n_with_title (nr_title rn) n))]>
                   (note_store wj))).
Proof.
  split; [reflexivity|]. split; [|split].
  - intros o w' Hrun. pose proof (keeps_Paperwork_update remote w) as Hk.
    rewrite Hrun in Hk. apply Hk.
  - intros pre nb post wi obj o w' Hsplit Hpre Hobj Hsome Hrun.
    assert (Paperwork_update remote w =
            for_each (pre ++ nb :: post) (Paperwork_update_notebook remote)
              (update_started w)) as Hunfold.
    { rewrite <- Hsplit. reflexivity. }
    rewrite Hunfold, for_each_app, (bind_Ok _ _ _ _ _ Hpre) in Hrun.
    cbn [for_each] in Hrun. unfold Paperwork_update_notebook at 1 in Hrun.
    rewrite bind_assoc in Hrun.
    assert (notebook_store wi !! nb = Some obj) as Hobj'.
    { pose proof (keeps_for_each pre (Paperwork_update_notebook remote)
                    (keeps_Paperwork_update_notebook remote) (update_started w))
        as Hk.
      rewrite Hpre in Hk. destruct Hk as (Hstore & _). cbn in Hstore.
      now rewrite Hstore. }
    unfold Notebook_update_force in Hrun.
    rewrite (bind_Ok _ _ _ _ _ (Notebook_update_forced remote wi nb obj Hobj' Hsome))
      in Hrun.
    match type of Hrun with
    | ?m ?w2 = _ => assert (keeps m) as Hk
    end.
    { apply keeps_bind.
      - apply keeps_bind; [apply keeps_Notebook_get_notes | intros notes].
        apply keeps_for_each. intros note. apply keeps_Note_update.
      - intros _. apply keeps_for_each. intros x.
        apply keeps_Paperwork_update_notebook. }
    match type of Hrun with
    | ?m ?w2 = _ => specialize (Hk w2)
    end.
    rewrite Hrun in Hk. destruct Hk as (_ & _ & later & Hsent).
    cbn in Hsent. exists later. rewrite Hsent. now rewrite <- !app_assoc.
  - intros wj self n nb tjs rn Hself Howner Htags Hr. split.
    + intros Hle.
      destruct (Note_update_push_sends remote wj self n nb Note_update_force tjs)
        as (o & w' & _ & Hrun & Hsent & _); try assumption.
      * now rewrite Hr.
      * right. eauto.
      * eauto.
    + intros Hle. eexists. split.
      * apply (Note_update_pull remote wj self n nb Hself Howner rn Hr Hle).
      * cbn. repeat split.
Qed.

Lemma workspace_update_forces_notebooks_witness :
  (exists later,
     sent (snd (Paperwork_update ahead desk))
     = [get_notebook_rq 1; put_notebook_rq (Notebook_to_json work)] ++ later)
  /\ notebook_store (snd (Paperwork_update ahead desk)) = notebook_store desk.
Proof.
  split.
  - apply (proj1 (proj2 (proj2 (workspace_update_forces_notebooks ahead desk)))
             [] 0%nat [1%nat] (update_started desk) work
             (fst (Paperwork_update ahead desk))
             (snd (Paperwork_update ahead desk)));
      [reflexivity | reflexivity | reflexivity | reflexivity
      | apply surjective_pairing].
  - apply (proj1 (proj2 (workspace_update_forces_notebooks ahead desk))
             (fst (Paperwork_update ahead desk))
             (snd (Paperwork_update ahead desk))).
    apply surjective_pairing.
Defined.

(** C3 fails for notebooks.  The host has the notebook "Work" with the time
    stamp "200", above the local "100".  [Paperwork.update] returns, and
    the PUT of the local notebook is among the requests it sent. *)
Lemma newer_remote_notebook_is_pushed :
  ahead [] (get_notebook_rq (nb_id work)) = RNotebook (work_remote "200")
  /\ String.ltb (nb_updated_at work) (nbr_updated_at (work_remote "200")) = true
  /\ fst (Paperwork_update ahead desk) = Ok tt
  /\ In (put_notebook_rq (Notebook_to_json work))
       (sent (snd (Paperwork_update ahead desk))).
Proof.
  repeat split; try reflexivity.
  vm_compute. right. left. reflexivity.
Qed.

(** * More of the code *)

(** ** Sorted listings *)

Lemma ltb_leb (a b : string) : String.ltb a b = true -> String.leb a b = true.
Proof. unfold String.ltb, String.leb. destruct (String.compare a b); congruence. Qed.

Lemma not_ltb_leb (a b : string) :
  String.ltb a b = false -> String.leb b a = true.
Proof.
  unfold String.ltb, String.leb. rewrite (String.compare_antisym a b).
  destruct (String.compare b a); cbn; congruence.
Qed.

Lemma ltb_ne (a b : string) : String.ltb a b = true -> a <> b.
Proof. intros H ->. rewrite ltb_irrefl in H. discriminate. Qed.

Lemma ltb_empty (s : string) : String.ltb s "" = false.
Proof. destruct s; reflexivity. Qed.

Section SortedFacts.
Context {A : Type} (key : A -> string).

Local Abbreviation key_le := (fun a b => String.leb (key a) (key b) = true).

Lemma insert_sorted_perm (x : A) (l : list A) : insert_sorted key x l ≡ₚ x :: l.
Proof.
  induction l as [|y l IH]; cbn [insert_sorted]; [reflexivity|].
  destruct (String.ltb (key y) (key x)); [|reflexivity].
  rewrite IH. apply Permutation_swap.
Qed.

Lemma sorted_perm (l : list A) : sorted key l ≡ₚ l.
Proof.
  unfold sorted. induction l as [|x l IH]; cbn [foldr]; [reflexivity|].
  now rewrite insert_sorted_perm, IH.
Qed.

Lemma insert_sorted_ordered (x : A) (l : list A) :
  Sorted key_le l -> Sorted key_le (insert_sorted key x l).
Proof.
  induction l as [|y l IH]; cbn [insert_sorted]; intros Hl.
  - repeat constructor.
  - apply Sorted_inv in Hl as [Hl Hhd].
    destruct (String.ltb (key y) (key x)) eqn:E.
    + constructor; [now apply IH|].
      destruct l as [|z l]; cbn [insert_sorted].
      * constructor. now apply ltb_leb.
      * destruct (String.ltb (key z) (key x)).
        -- constructor. now apply HdRel_inv in Hhd.
        -- constructor. now apply ltb_leb.
    + constructor; [now constructor|].
      constructor. now apply not_ltb_leb.
Qed.

Lemma sorted_ordered (l : list A) : Sorted key_le (sorted key l).
Proof.
  unfold sorted. induction l as [|x l IH]; cbn [foldr]; [constructor|].
  now apply insert_sorted_ordered.
Qed.

Lemma insert_sorted_titled (t : string) (x : A) (l : list A) :
  filter (fun y => key y = t) (insert_sorted key x l)
  = filter (fun y => key y = t) (x :: l).
Proof.
  induction l as [|y l IH]; cbn [insert_sorted]; [reflexivity|].
  destruct (String.ltb (key y) (key x)) eqn:E; [|reflexivity].
  rewrite filter_cons, IH, !filter_cons.
  destruct (decide (key y = t)) as [Hy|Hy], (decide (key x = t)) as [Hx|Hx];
    try reflexivity.
  apply ltb_ne in E. congruence.
Qed.

Lemma sorted_stable (t : string) (l : list A) :
  filter (fun y => key y = t) (sorted key l) = filter (fun y => key y = t) l.
Proof.
  unfold sorted. induction l as [|x l IH]; cbn [foldr]; [reflexivity|].
  rewrite insert_sorted_titled, !filter_cons, IH. reflexivity.
Qed.

End SortedFacts.

(** ** Objects by reference *)

Lemma named_in_spec {A} (store : list A) refs listed :
  named_in store refs = Some listed ->
  map fst listed = refs /\ Forall (fun p => store !! fst p = Some (snd p)) listed.
Proof.
  unfold named_in. revert listed.
  induction refs as [|r refs IH]; intros listed H.
  - cbn in H. injection H as <-. split; [reflexivity | constructor].
  - cbn in H. destruct (store !! r) as [x|] eqn:Hr; [|discriminate].
    cbn in H. destruct (mapM _ refs) as [rest|] eqn:Hrest; [|discriminate].
    cbn in H. injection H as <-.
    destruct (IH rest eq_refl) as [Hfst Hall].
    split; [cbn; now rewrite Hfst | constructor; assumption].
Qed.

Lemma named_in_stored {A} (store : list A) refs :
  Forall (fun r => is_Some (store !! r)) refs ->
  exists listed, named_in store refs = Some listed.
Proof.
  unfold named_in. induction 1 as [|r refs [x Hx] _ [rest IH]].
  - now exists [].
  - exists ((r, x) :: rest). cbn. rewrite Hx. cbn. now rewrite IH.
Qed.

Lemma named_run {A} (at_ : ref -> M A) (store : World -> list A) :
  (forall r w, at_ r w = lift InvalidRef (store w !! r) w) ->
  forall refs w,
    named at_ refs w =
    (match named_in (store w) refs with
     | Some l => Ok l
     | None => Raise InvalidRef
     end, w).
Proof.
  intros Hat refs w. unfold named, named_in.
  induction refs as [|r refs IH]; [reflexivity|].
  cbn [comprehension mapM]. unfold bind at 1. unfold bind at 1.
  rewrite Hat. destruct (store w !! r) as [x|]; [|reflexivity].
  cbn. unfold bind at 1. rewrite IH.
  destruct (mapM _ refs); reflexivity.
Qed.

Lemma named_notes_run refs w :
  named note_at refs w =
  (match named_in (note_store w) refs with
   | Some l => Ok l
   | None => Raise InvalidRef
   end, w).
Proof. now apply (named_run note_at note_store). Qed.

Lemma named_notebooks_run refs w :
  named notebook_at refs w =
  (match named_in (notebook_store w) refs with
   | Some l => Ok l
   | None => Raise InvalidRef
   end, w).
Proof. now apply (named_run notebook_at notebook_store). Qed.

Lemma named_tags_run refs w :
  named tag_at refs w =
  (match named_in (tag_store w) refs with
   | Some l => Ok l
   | None => Raise InvalidRef
   end, w).
Proof. now apply (named_run tag_at tag_store). Qed.

(** A listing sorted by title, read back on the references. *)
Lemma sorted_notes_by_ref w (listed : list (ref * Note)) :
  Forall (fun p => note_store w !! fst p = Some (snd p)) listed ->
  map fst (sorted title listed) ≡ₚ map fst listed
  /\ Sorted (note_title_le w) (map fst (sorted title listed))
  /\ forall t, notes_titled w t (map fst (sorted title listed))
               = notes_titled w t (map fst listed).
Proof.
  intros Hall.
  assert (forall l : list (ref * Note),
             Forall (fun p => note_store w !! fst p = Some (snd p)) l ->
             forall t, notes_titled w t (map fst l)
                       = map fst (filter (fun p => title p = t) l)) as Hfilter.
  { intros l Hl t. unfold notes_titled.
    induction Hl as [|[r n] l Hp _ IH]; [reflexivity|].
    cbn [map fst]. rewrite !filter_cons, IH. cbn in Hp. rewrite Hp. cbn.
    destruct (decide (Some (n_title n) = Some t)) as [Ht|Ht],
             (decide (n_title n = t)) as [Ht'|Ht']; try reflexivity; congruence. }
  assert (Forall (fun p => note_store w !! fst p = Some (snd p))
            (sorted title listed)) as Hall'.
  { now rewrite sorted_perm. }
  split; [|split].
  - apply fmap_Permutation, sorted_perm.
  - pose proof (sorted_ordered title listed) as Hs.
    induction Hs as [|[r n] l Hs IH Hhd]; [constructor|].
    apply Forall_cons in Hall' as [Hp Hl]. cbn [map fst].
    constructor; [now apply IH|].
    destruct Hhd as [|[r' n'] l' Hle]; constructor.
    apply Forall_cons in Hl as [Hp' _]. cbn in *.
    unfold note_title_le. now rewrite Hp, Hp'.
  - intros t. rewrite !Hfilter by assumption. now rewrite sorted_stable.
Qed.

(** X1.  [Notebook.get_notes], on a notebook whose notes are all stored,
    returns without touching the world.  What it returns is a rearrangement
    of the values of the [notes] dict, ordered by title; notes with the same
    title come in the order of the dict. *)
Theorem Notebook_get_notes_sorted (w : World) (self : ref) (nb : Notebook) :
  notebook_store w !! self = Some nb ->
  Forall (fun r => is_Some (note_store w !! r)) (dict.values (nb_notes nb)) ->
  exists refs,
    Notebook_get_notes self w = (Ok refs, w)
    /\ refs ≡ₚ dict.values (nb_notes nb)
    /\ Sorted (note_title_le w) refs
    /\ forall t, notes_titled w t refs
                 = notes_titled w t (dict.values (nb_notes nb)).
Proof.
  intros Hself Hstored.
  destruct (named_in_stored _ _ Hstored) as [listed Hlisted].
  destruct (named_in_spec _ _ _ Hlisted) as [Hfst Hall].
  destruct (sorted_notes_by_ref w listed Hall) as (Hperm & Hsorted & Hstable).
  rewrite Hfst in Hperm, Hstable.
  exists (map fst (sorted title listed)). split; [|auto].
  unfold Notebook_get_notes.
  rewrite (bind_Ok _ _ _ _ _ (notebook_at_run _ _ _ Hself)).
  erewrite bind_Ok; [reflexivity|].
  change (named note_at (dict.values (nb_notes nb)) w = (Ok listed, w)).
  now rewrite named_notes_run, Hlisted.
Qed.

Lemma Notebook_get_notes_sorted_witness :
  exists refs, Notebook_get_notes 0%nat desk = (Ok refs, desk)
               /\ refs ≡ₚ [0%nat; 1%nat].
Proof.
  destruct (Notebook_get_notes_sorted desk 0%nat work eq_refl)
    as (refs & Hrun & Hperm & _).
  - repeat constructor; eexists; reflexivity.
  - exists refs. split; assumption.
Defined.

(** ** Adding a note to a notebook, tags to a note *)

Lemma Notebook_add_note_run w self note n nb :
  note_store w !! note = Some n ->
  notebook_store w !! self = Some nb ->
  Notebook_add_note self note w =
  (Ok tt,
   with_logged
     (fun l => l ++ [(INFO, "Added note " +:+ Model_str n +:+ " to "
                            +:+ Model_str nb)])
     (with_notebook_store
        (fun h => <[self := nb_with_notes (dict.set (nb_notes nb) (n_id n) note) nb]> h)
        w)).
Proof.
  intros Hnote Hself. unfold Notebook_add_note.
  rewrite (bind_Ok _ _ _ _ _ (note_at_run _ _ _ Hnote)).
  rewrite (bind_Ok _ _ _ _ _ (notebook_at_run _ _ _ Hself)).
  now rewrite (bind_Ok _ _ _ _ _ (Notebook_set_notes_run _ _ _ _ Hself)).
Qed.

(** X2.  [Notebook.add_note] is local and only writes the [notes] dict of
    the notebook it is called on.  Afterwards that notebook has the id, the
    title, the type and the time stamp it had, and its [notes] are the old
    ones with the note set under the note's id: the id is a key for the note
    and every other key is as before.  The notebook store is the old one
    with this one notebook replaced, so no other notebook changes; the
    notes, the tags and the workspace are what they were, and no request is
    sent: the note's own [notebook] is not set, and a notebook that listed
    the note before still lists it.  One line is logged. *)
Theorem add_note_only_lists
    (w : World) (self note : ref) (n : Note) (nb : Notebook) :
  note_store w !! note = Some n ->
  notebook_store w !! self = Some nb ->
  exists w' nb',
    Notebook_add_note self note w = (Ok tt, w')
    /\ notebook_store w' !! self = Some nb'
    /\ nb_id nb' = nb_id nb
    /\ nb_title nb' = nb_title nb
    /\ nb_type nb' = nb_type nb
    /\ nb_updated_at nb' = nb_updated_at nb
    /\ nb_notes nb' = dict.set (nb_notes nb) (n_id n) note
    /\ dict.get (nb_notes nb') (n_id n) = Some note
    /\ (forall k, k <> n_id n ->
          dict.get (nb_notes nb') k = dict.get (nb_notes nb) k)
    /\ notebook_store w' = <[self := nb']> (notebook_store w)
    /\ (forall r, r <> self -> notebook_store w' !! r = notebook_store w !! r)
    /\ note_store w' = note_store w
    /\ tag_store w' = tag_store w
    /\ paperwork w' = paperwork w
    /\ sent w' = sent w
    /\ logged w' = logged w ++ [(INFO, "Added note " +:+ Model_str n +:+ " to "
                                       +:+ Model_str nb)].
Proof.
  intros Hnote Hself.
  exists (with_logged
            (fun l => l ++ [(INFO, "Added note " +:+ Model_str n +:+ " to "
                                   +:+ Model_str nb)])
            (with_notebook_store
               (fun h => <[self := nb_with_notes
                                     (dict.set (nb_notes nb) (n_id n) note) nb]> h)
               w)),
         (nb_with_notes (dict.set (nb_notes nb) (n_id n) note) nb).
  split.
  - apply (Notebook_add_note_run w self note n nb Hnote Hself).
  - cbn. split; [|do 5 (split; [reflexivity|]); split; [|split; [|split; [|split]]]].
    + apply list_lookup_insert_eq. eapply lookup_lt_Some, Hself.
    + apply dict_get_set_eq.
    + intros k Hk. apply dict_get_set_ne. congruence.
    + reflexivity.
    + intros r Hr. apply list_lookup_insert_ne. congruence.
    + repeat split.
Qed.

Lemma add_note_only_lists_witness :
  exists w', Notebook_add_note 1%nat 0%nat desk = (Ok tt, w')
             /\ (nb_notes <$> notebook_store w' !! 0%nat) = Some [(7, 0%nat); (8, 1%nat)]
             /\ (n_notebook <$> note_store w' !! 0%nat) = Some 0%nat
             /\ (nb_title <$> notebook_store w' !! 1%nat) = Some "Home".
Proof.
  destruct (add_note_only_lists desk 1%nat 0%nat plan home eq_refl eq_refl)
    as (w' & nb' & Hrun & Hlisted & _ & Htitle & _ & _ & _ & _ & _ & _ & Hothers
        & Hnotes & _).
  exists w'. split; [exact Hrun|]. split; [|split].
  - rewrite Hothers by discriminate. reflexivity.
  - rewrite Hnotes. reflexivity.
  - unfold ref in Hlisted. rewrite Hlisted. cbn [fmap option_fmap option_map].
    rewrite Htitle. reflexivity.
Defined.

Lemma pyset_add_elem (s : pyset.t) (r x : ref) :
  x ∈ pyset.add s r <-> x ∈ s \/ x = r.
Proof.
  unfold pyset.add, pyset.mem.
  destruct (existsb (Nat.eqb r) s) eqn:E.
  - split; [tauto|]. intros [H | ->]; [assumption|].
    apply existsb_exists in E as (y & Hy & Heq).
    apply Nat.eqb_eq in Heq. subst y. now apply list_elem_of_In.
  - rewrite elem_of_app, list_elem_of_singleton. tauto.
Qed.

Lemma pyset_add_NoDup (s : pyset.t) (r : ref) : NoDup s -> NoDup (pyset.add s r).
Proof.
  intros Hs. unfold pyset.add, pyset.mem.
  destruct (existsb (Nat.eqb r) s) eqn:E; [assumption|].
  apply NoDup_app. split; [assumption|]. split; [|apply NoDup_singleton].
  intros x Hx Hr. apply list_elem_of_singleton in Hr. subst x.
  assert (existsb (Nat.eqb r) s = true) as E'; [|congruence].
  apply existsb_exists. exists r. split; [now apply list_elem_of_In|].
  apply Nat.eqb_refl.
Qed.

(** X3.  [Note.add_tags] with stored tags only adds: afterwards the note's
    tag set holds what it held and every tag given, each once, and nothing
    else about the note has changed.  Other notes, the tags themselves (so
    also their [notes] sets), the notebooks and the workspace are untouched
    and no request is sent. *)
Theorem add_tags_only_adds (w : World) (self : ref) (n : Note) (given : list ref) :
  note_store w !! self = Some n ->
  Forall (fun r => is_Some (tag_store w !! r)) given ->
  exists w' tags',
    Note_add_tags self given w = (Ok tt, w')
    /\ note_store w' !! self = Some (n_with_tags tags' n)
    /\ (forall r, r ∈ tags' <-> r ∈ n_tags n \/ r ∈ given)
    /\ (NoDup (n_tags n) -> NoDup tags')
    /\ (forall r, r <> self -> note_store w' !! r = note_store w !! r)
    /\ tag_store w' = tag_store w
    /\ notebook_store w' = notebook_store w
    /\ paperwork w' = paperwork w
    /\ sent w' = sent w.
Proof.
  intros Hself Hgiven. revert w n Hself Hgiven.
  induction given as [|tag given IH]; intros w n Hself Hgiven.
  - exists w, (n_tags n). split; [reflexivity|]. split.
    + rewrite Hself. now destruct n.
    + split; [|repeat split; auto].
      intros r. split; [tauto|]. intros [H | H]; [assumption | inversion H].
  - apply Forall_cons in Hgiven as [[t Ht] Hgiven].
    set (n1 := n_with_tags (pyset.add (n_tags n) tag) n).
    set (w1 := with_note_store (fun h => <[self := n1]> h)
                 (with_logged
                    (fun l => l ++ [(INFO, "Adding tag " +:+ Model_str t
                                           +:+ " to note " +:+ Model_str n)]) w)).
    assert (note_store w1 !! self = Some n1) as Hself1.
    { cbn. apply list_lookup_insert_eq. eapply lookup_lt_Some, Hself. }
    destruct (IH w1 n1 Hself1 Hgiven)
      as (w' & tags' & Hrun & Hnote & Helem & Hnodup & Hothers & Htags & Hnbs
          & Hpw & Hsent).
    exists w', tags'. split; [|split; [|split; [|split; [|split]]]].
    + cbn [Note_add_tags for_each].
      rewrite bind_assoc, (bind_Ok _ _ _ _ _ (tag_at_run _ _ _ Ht)).
      rewrite bind_assoc, (bind_Ok _ _ _ _ _ (note_at_run _ _ _ Hself)).
      rewrite bind_assoc, (bind_Ok _ _ _ _ _ (logger_run _ _ _)).
      unfold Note_set_tags at 1.
      rewrite bind_assoc. erewrite bind_Ok; [|apply note_at_run; exact Hself].
      unfold bind at 1. cbn [note_put]. exact Hrun.
    + rewrite Hnote. now destruct n.
    + intros r. rewrite Helem. cbn [n1 n_with_tags n_tags].
      rewrite pyset_add_elem, elem_of_cons. tauto.
    + intros Hn. apply Hnodup. cbn. now apply pyset_add_NoDup.
    + intros r Hr. rewrite Hothers by assumption. cbn.
      apply list_lookup_insert_ne. congruence.
    + repeat split; assumption.
Qed.

Lemma add_tags_only_adds_witness :
  exists w' tags',
    Note_add_tags 1%nat [0%nat; 0%nat] desk = (Ok tt, w')
    /\ note_store w' !! 1%nat = Some (n_with_tags tags' agenda)
    /\ NoDup tags'.
Proof.
  destruct (add_tags_only_adds desk 1%nat agenda [0%nat; 0%nat] eq_refl)
    as (w' & tags' & Hrun & Hnote & _ & Hnodup & _).
  - repeat constructor; eexists; reflexivity.
  - exists w', tags'. repeat split; try assumption. apply Hnodup. constructor.
Defined.

(** ** Building objects from the wire *)

Lemma Notebook_from_json_run w (j : notebook_remote) :
  Notebook_from_json (RNotebook j) w =
  (Ok (length (notebook_store w)),
   with_notebook_store
     (fun h => h ++ [{| nb_id := nbr_id j; nb_title := nbr_title j;
                        nb_type := nbr_type j; nb_updated_at := "";
                        nb_notes := dict.empty |}]) w).
Proof. reflexivity. Qed.

Lemma Tag_from_json_run w (j : tag_json) :
  Tag_from_json (RTag j) w =
  (Ok (length (tag_store w)),
   with_tag_store
     (fun h => h ++ [{| t_id := tj_id j; t_title := tj_title j;
                        t_visibility := tj_visibility j;
                        t_notes := pyset.empty |}]) w).
Proof. reflexivity. Qed.

Lemma Note_from_json_run w (rn : note_remote) notebook nb :
  notebook_store w !! notebook = Some nb ->
  Note_from_json (RNote rn) notebook w =
  (Ok (length (note_store w)),
   with_note_store
     (fun h => h ++ [{| n_id := nr_id rn; n_title := nr_title rn;
                        n_notebook := notebook; n_content := nr_content rn;
                        n_updated_at := nr_updated_at rn;
                        n_tags := pyset.empty |}]) w).
Proof.
  intros Hnb. unfold Note_from_json. cbn [item_title item_id item_content
    item_updated_at item lift fmap option_fmap option_map].
  unfold bind at 1. cbn [ret]. unfold bind at 1. cbn [ret].
  unfold bind at 1. cbn [ret]. unfold bind at 1. cbn [ret].
  now rewrite (bind_Ok _ _ _ _ _ (notebook_at_run _ _ _ Hnb)).
Qed.

(** X4.  A notebook built by [Notebook.from_json] has the time stamp [''],
    whatever the wire says, and no string is below ['']: an [update] without
    [force] on it never pushes.  Whatever time stamp the host holds, only
    the GET is sent and the local title and time stamp become the host's. *)
Theorem downloaded_notebook_never_pushes
    (remote : list request -> request -> response) (w : World)
    (j rn : notebook_remote) :
  remote (sent w) (get_notebook_rq (nbr_id j)) = RNotebook rn ->
  exists w',
    (self <- Notebook_from_json (RNotebook j) ;;
     Notebook_update remote self false ;;
     ret self) w = (Ok (length (notebook_store w)), w')
    /\ notebook_store w' =
       notebook_store w ++ [{| nb_id := nbr_id j; nb_title := nbr_title rn;
                               nb_type := nbr_type j;
                               nb_updated_at := nbr_updated_at rn;
                               nb_notes := dict.empty |}]
    /\ sent w' = sent w ++ [get_notebook_rq (nbr_id j)].
Proof.
  intros Hr.
  set (nb0 := {| nb_id := nbr_id j; nb_title := nbr_title j;
                 nb_type := nbr_type j; nb_updated_at := "";
                 nb_notes := dict.empty |}).
  set (w1 := with_notebook_store (fun h => h ++ [nb0]) w).
  assert (notebook_store w1 !! length (notebook_store w) = Some nb0) as Hself.
  { cbn. apply list_lookup_middle. reflexivity. }
  eexists. split.
  - rewrite (bind_Ok _ _ _ _ _ (Notebook_from_json_run w j)).
    fold nb0 w1.
    rewrite (bind_Ok _ _ _ _ _
               (Notebook_update_pull remote w1 _ nb0 Hself rn Hr (ltb_empty _))).
    reflexivity.
  - cbn. split; [|reflexivity].
    rewrite insert_app_r_alt by reflexivity.
    now rewrite Nat.sub_diag.
Qed.

Lemma downloaded_notebook_never_pushes_witness :
  exists w',
    (self <- Notebook_from_json (RNotebook (work_remote "300")) ;;
     Notebook_update ahead self false ;;
     ret self) blank = (Ok 0%nat, w')
    /\ sent w' = [get_notebook_rq 1].
Proof.
  destruct (downloaded_notebook_never_pushes ahead blank (work_remote "300")
              (work_remote "200") eq_refl) as (w' & Hrun & _ & Hsent).
  exists w'. split; assumption.
Defined.

(** X5.  Tags survive the wire in both directions.  The tag that
    [Tag.from_json] builds from a wire tag serialises back to that wire tag,
    and the tag built from the serialisation of a stored tag has its id,
    title and visibility.  What does not survive is the tag's [notes] set:
    a tag built from the wire starts with none. *)
Theorem Tag_json_round_trip (w : World) :
  (forall j, exists w' t,
      Tag_from_json (RTag j) w = (Ok (length (tag_store w)), w')
      /\ tag_store w' = tag_store w ++ [t]
      /\ Tag_to_json t = j
      /\ t_notes t = [])
  /\ (forall t, exists w' t',
        Tag_from_json (RTag (Tag_to_json t)) w = (Ok (length (tag_store w)), w')
        /\ tag_store w' !! length (tag_store w) = Some t'
        /\ t_id t' = t_id t
        /\ t_title t' = t_title t
        /\ t_visibility t' = t_visibility t
        /\ t_notes t' = []).
Proof.
  split.
  - intros j. do 2 eexists. split; [apply Tag_from_json_run|].
    cbn. split; [reflexivity|]. split; [now destruct j | reflexivity].
  - intros t. do 2 eexists. split; [apply Tag_from_json_run|].
    cbn. split; [apply list_lookup_middle; reflexivity|]. repeat split.
Qed.

(** X6.  Notes do not survive the wire whole.  A note built by
    [Note.from_json] for a notebook and serialised again by [Note.to_json]
    has the id, title and content of the wire note, but no tags, whatever
    tags the wire note lists, and the id of the notebook it was built for,
    whatever [notebook_id] the wire note gives.  The time stamp is kept in
    the object and is not part of the serialisation. *)
Theorem Note_json_round_trip
    (w : World) (rn : note_remote) (notebook : ref) (nb : Notebook) :
  notebook_store w !! notebook = Some nb ->
  exists w' n,
    (self <- Note_from_json (RNote rn) notebook ;; Note_to_json self) w =
    (Ok {| nj_id := nr_id rn; nj_title := nr_title rn;
           nj_content := nr_content rn; nj_tags := [];
           nj_notebook_id := nb_id nb |}, w')
    /\ note_store w' = note_store w ++ [n]
    /\ n_updated_at n = nr_updated_at rn
    /\ n_notebook n = notebook
    /\ n_tags n = [].
Proof.
  intros Hnb.
  set (n0 := {| n_id := nr_id rn; n_title := nr_title rn;
                n_notebook := notebook; n_content := nr_content rn;
                n_updated_at := nr_updated_at rn; n_tags := pyset.empty |}).
  exists (with_note_store (fun h => h ++ [n0]) w), n0. split.
  - rewrite (bind_Ok _ _ _ _ _ (Note_from_json_run w rn notebook nb Hnb)).
    fold n0.
    apply (Note_to_json_run (with_note_store (fun h => h ++ [n0]) w) _ n0 nb []).
    + cbn. apply list_lookup_middle. reflexivity.
    + exact Hnb.
    + reflexivity.
  - cbn. repeat split.
Qed.

Lemma Note_json_round_trip_witness :
  exists w',
    (self <- Note_from_json
               (RNote {| nr_id := 9; nr_title := "list"; nr_content := "";
                         nr_updated_at := "100";
                         nr_tags := [Tag_to_json urgent];
                         nr_notebook_id := 1 |}) 1%nat ;;
     Note_to_json self) desk =
    (Ok {| nj_id := 9; nj_title := "list"; nj_content := ""; nj_tags := [];
           nj_notebook_id := 2 |}, w').
Proof.
  destruct (Note_json_round_trip desk
              {| nr_id := 9; nr_title := "list"; nr_content := "";
                 nr_updated_at := "100"; nr_tags := [Tag_to_json urgent];
                 nr_notebook_id := 1 |} 1%nat home eq_refl)
    as (w' & n & Hrun & _).
  exists w'. exact Hrun.
Defined.

(** ** Computations that keep an invariant *)

Section Preserving.
Variable I : World -> Prop.

Lemma preserves_ret {A} (a : A) : preserves I (ret a).
Proof. intros w Hw. exact Hw. Qed.

Lemma preserves_raise {A} (e : exn) : preserves I (raise e : M A).
Proof. intros w Hw. exact Hw. Qed.

Lemma preserves_lift {A} (e : exn) (o : option A) : preserves I (lift e o).
Proof. destruct o; [apply preserves_ret | apply preserves_raise]. Qed.

Lemma preserves_bind {A B} (m : M A) (k : A -> M B) :
  preserves I m -> (forall a, preserves I (k a)) -> preserves I (bind m k).
Proof.
  intros Hm Hk w Hw. unfold bind. specialize (Hm w Hw).
  destruct (m w) as [[a | e] w1]; cbn in *; [now apply Hk | assumption].
Qed.

Lemma preserves_for_each {A} (items : list A) (body : A -> M unit) :
  (forall x, preserves I (body x)) -> preserves I (for_each items body).
Proof.
  intros Hbody. induction items as [|x items IH]; cbn [for_each].
  - apply preserves_ret.
  - apply preserves_bind; [apply Hbody | intros _; exact IH].
Qed.

Lemma preserves_comprehension {A B} (items : list A) (f : A -> M B) :
  (forall x, preserves I (f x)) -> preserves I (comprehension items f).
Proof.
  intros Hf. induction items as [|x items IH]; cbn [comprehension].
  - apply preserves_ret.
  - apply preserves_bind; [apply Hf | intros y].
    apply preserves_bind; [exact IH | intros ys; apply preserves_ret].
Qed.

Lemma preserves_notebook_at r : preserves I (notebook_at r).
Proof. intros w. unfold notebook_at. apply preserves_lift. Qed.

Lemma preserves_note_at r : preserves I (note_at r).
Proof. intros w. unfold note_at. apply preserves_lift. Qed.

Lemma preserves_tag_at r : preserves I (tag_at r).
Proof. intros w. unfold tag_at. apply preserves_lift. Qed.

Lemma preserves_the_paperwork : preserves I the_paperwork.
Proof. intros w Hw. exact Hw. Qed.

Lemma preserves_item {A} f g h (r : response) : preserves I (item f g h r : M A).
Proof.
  destruct r; cbn [item]; first [apply preserves_raise | apply preserves_lift].
Qed.

Lemma preserves_iterate (r : response) : preserves I (iterate r).
Proof. destruct r; first [apply preserves_raise | apply preserves_ret]. Qed.

Lemma preserves_item0 (r : response) : preserves I (item0 r).
Proof.
  destruct r as [| | | |[|x items]];
    first [apply preserves_raise | apply preserves_ret].
Qed.

End Preserving.

Create HintDb preserves.

#[local] Hint Resolve preserves_ret preserves_raise preserves_lift
  preserves_notebook_at preserves_note_at preserves_tag_at
  preserves_the_paperwork preserves_item preserves_iterate preserves_item0
  : preserves.

(** Splits a computation along its binds, loops and branches. *)
Ltac preserves_steps :=
  repeat first
    [ solve [auto with preserves]
    | apply preserves_bind; [|intros ?]
    | apply preserves_for_each; intros ?
    | apply preserves_comprehension; intros ?
    | match goal with
      | |- preserves _ (if ?b then _ else _) => destruct b
      | |- preserves _ (match ?k with ById _ => _ | ByTitle _ => _ end) =>
          destruct k
      end ].

(** A computation that keeps every invariant leaves the world as it is. *)
Lemma preserves_all_reads {A} (m : M A) :
  (forall I, preserves I m) -> forall w, snd (m w) = w.
Proof. intros H w. symmetry. now apply (H (eq w)). Qed.

(** ** The query layer *)

Lemma named_in_app {A} (store : list A) l1 l2 a b :
  named_in store l1 = Some a ->
  named_in store l2 = Some b ->
  named_in store (l1 ++ l2) = Some (a ++ b).
Proof.
  unfold named_in. rewrite !mapM_Some. apply Forall2_app.
Qed.

Lemma first_with_key_reads I k refs : preserves I (first_with_key k refs).
Proof. induction refs as [|r refs IH]; cbn [first_with_key]; preserves_steps. Qed.

Lemma first_titled_reads {A} `{Model A} I (at_ : ref -> M A) s refs :
  (forall r, preserves I (at_ r)) -> preserves I (first_titled at_ s refs).
Proof.
  intros Hat. induction refs as [|r refs IH]; cbn [first_titled]; preserves_steps.
Qed.

Lemma Paperwork_get_notes_reads I : preserves I Paperwork_get_notes.
Proof. unfold Paperwork_get_notes. preserves_steps. Qed.

Lemma Paperwork_find_note_reads I k : preserves I (Paperwork_find_note k).
Proof.
  unfold Paperwork_find_note.
  apply preserves_bind; [apply Paperwork_get_notes_reads | intros notes].
  apply first_with_key_reads.
Qed.

#[local] Hint Resolve first_with_key_reads Paperwork_get_notes_reads
  Paperwork_find_note_reads : preserves.

Lemma Paperwork_get_notes_run w :
  reachable_stored w ->
  exists listed,
    named_in (note_store w) (listed_notes w) = Some listed
    /\ Paperwork_get_notes w = (Ok (map fst (sorted title listed)), w).
Proof.
  intros [Hnbs Hnotes]. unfold Paperwork_get_notes, listed_notes in *.
  unfold bind at 1. cbn [the_paperwork]. fold (listed_notebooks w).
  revert Hnbs Hnotes. generalize (listed_notebooks w) as refs. intros refs Hnbs Hnotes.
  assert (exists per,
             comprehension refs
               (fun r => nb <- notebook_at r ;;
                         comprehension (dict.values (nb_notes nb))
                           (fun r' => n <- note_at r' ;; ret (r', n))) w
             = (Ok per, w)
             /\ named_in (note_store w)
                  (concat (map (fun r => match notebook_store w !! r with
                                         | Some nb => dict.values (nb_notes nb)
                                         | None => []
                                         end) refs))
                = Some (concat per)) as (per & Hrun & Hnamed).
  { induction Hnbs as [|r refs [nb Hnb] _ IH].
    - exists []. split; reflexivity.
    - cbn [map concat] in Hnotes. rewrite Hnb in Hnotes.
      apply Forall_app in Hnotes as [Hhere Hrest].
      destruct (IH Hrest) as (per & Hrun & Hnamed).
      destruct (named_in_stored _ _ Hhere) as [here Hnamed_here].
      exists (here :: per). split.
      + assert (named note_at (dict.values (nb_notes nb)) w = (Ok here, w))
          as Hhere_run by now rewrite named_notes_run, Hnamed_here.
        cbn [comprehension].
        rewrite bind_assoc, (bind_Ok _ _ _ _ _ (notebook_at_run _ _ _ Hnb)).
        unfold named in Hhere_run. rewrite (bind_Ok _ _ _ _ _ Hhere_run).
        now rewrite (bind_Ok _ _ _ _ _ Hrun).
      + cbn [map concat]. rewrite Hnb. now apply named_in_app. }
  exists (concat per). split; [exact Hnamed|].
  now rewrite (bind_Ok _ _ _ _ _ Hrun).
Qed.

Lemma Paperwork_get_notes_listing (w : World) :
  reachable_stored w ->
  exists refs,
    Paperwork_get_notes w = (Ok refs, w)
    /\ refs ≡ₚ listed_notes w
    /\ Sorted (note_title_le w) refs
    /\ forall t, notes_titled w t refs = notes_titled w t (listed_notes w).
Proof.
  intros Hw. destruct (Paperwork_get_notes_run w Hw) as (listed & Hnamed & Hrun).
  destruct (named_in_spec _ _ _ Hnamed) as [Hfst Hall].
  destruct (sorted_notes_by_ref w listed Hall) as (Hperm & Hsorted & Hstable).
  rewrite Hfst in Hperm, Hstable.
  exists (map fst (sorted title listed)). auto.
Qed.

(** X7.  [Paperwork.get_notes], when every notebook and note the workspace
    reaches is stored, returns without touching the world.  What it returns
    is a rearrangement of the notes of all notebooks, ordered by title;
    notes with the same title come in the order of the notebooks and,
    within a notebook, of its [notes] dict. *)
Theorem Paperwork_get_notes_sorted (w : World) :
  reachable_stored w ->
  exists refs,
    Paperwork_get_notes w = (Ok refs, w)
    /\ refs ≡ₚ listed_notes w
    /\ Sorted (note_title_le w) refs
    /\ forall t, notes_titled w t refs = notes_titled w t (listed_notes w).
Proof.
  intros Hw. destruct (Paperwork_get_notes_run w Hw) as (listed & Hnamed & Hrun).
  destruct (named_in_spec _ _ _ Hnamed) as [Hfst Hall].
  destruct (sorted_notes_by_ref w listed Hall) as (Hperm & Hsorted & Hstable).
  rewrite Hfst in Hperm, Hstable.
  exists (map fst (sorted title listed)). auto.
Qed.

Lemma desk_reachable_stored : reachable_stored desk.
Proof. split; repeat constructor; eexists; reflexivity. Qed.

Lemma Paperwork_get_notes_sorted_witness :
  exists refs, Paperwork_get_notes desk = (Ok refs, desk)
               /\ refs ≡ₚ [0%nat; 1%nat].
Proof.
  destruct (Paperwork_get_notes_sorted desk desk_reachable_stored)
    as (refs & Hrun & Hperm & _).
  exists refs. split; assumption.
Defined.

Lemma first_with_key_run w k refs :
  Forall (fun r => is_Some (note_store w !! r)) refs ->
  exists found,
    first_with_key k refs w = (Ok found, w)
    /\ match found with
       | Some r =>
           exists pre post n,
             refs = pre ++ r :: post
             /\ note_store w !! r = Some n
             /\ key_in_id_title k n = true
             /\ none_with_key w k pre
       | None => none_with_key w k refs
       end.
Proof.
  induction 1 as [|r refs [n Hn] _ (found & Hrun & Hfound)].
  - exists None. split; [reflexivity | constructor].
  - cbn [first_with_key]. rewrite (bind_Ok _ _ _ _ _ (note_at_run _ _ _ Hn)).
    destruct (key_in_id_title k n) eqn:Hk.
    + exists (Some r). split; [reflexivity|].
      exists [], refs, n. repeat split; try assumption. constructor.
    + exists found. split; [exact Hrun|].
      assert (forall n', note_store w !! r = Some n' ->
                         key_in_id_title k n' = false) as Hr.
      { intros n' Hn'. congruence. }
      destruct found as [r'|].
      * destruct Hfound as (pre & post & n' & -> & Hn' & Hk' & Hpre).
        exists (r :: pre), post, n'. repeat split; try assumption.
        now constructor.
      * now constructor.
Qed.

(** X8.  [Paperwork.find_note], when every notebook and note the workspace
    reaches is stored, never raises and leaves the world alone, also for an
    id that no note has.  It returns a note of the workspace whose id (for
    an id) or title (for a title) is the key, the first such note in the
    listing by title; it returns nothing exactly when no note of the
    workspace has the key. *)
Theorem find_note_first_or_None (w : World) (k : key) :
  reachable_stored w ->
  exists found,
    Paperwork_find_note k w = (Ok found, w)
    /\ match found with
       | Some r =>
           r ∈ listed_notes w
           /\ exists sorted_refs pre post n,
                Paperwork_get_notes w = (Ok sorted_refs, w)
                /\ sorted_refs = pre ++ r :: post
                /\ note_store w !! r = Some n
                /\ key_in_id_title k n = true
                /\ none_with_key w k pre
       | None => none_with_key w k (listed_notes w)
       end.
Proof.
  intros Hw. destruct (Paperwork_get_notes_listing w Hw) as (refs & Hrun & Hperm & _).
  assert (Forall (fun r => is_Some (note_store w !! r)) refs) as Hstored.
  { rewrite Hperm. apply Hw. }
  destruct (first_with_key_run w k refs Hstored) as (found & Hfirst & Hfound).
  exists found. split.
  - unfold Paperwork_find_note. now rewrite (bind_Ok _ _ _ _ _ Hrun).
  - destruct found as [r|].
    + destruct Hfound as (pre & post & n & Hsplit & Hn & Hk & Hpre). split.
      * rewrite <- Hperm, Hsplit. apply elem_of_app. right. now left.
      * exists refs, pre, post, n. auto.
    + unfold none_with_key in *. now rewrite <- Hperm.
Qed.

Lemma find_note_first_or_None_witness :
  exists found, Paperwork_find_note (ById 99) desk = (Ok found, desk).
Proof.
  destruct (find_note_first_or_None desk (ById 99) desk_reachable_stored)
    as (found & Hrun & _).
  exists found. exact Hrun.
Defined.

Lemma first_titled_run {A} `{Model A} (at_ : ref -> M A)
    (store : World -> list A) :
  (forall r w, at_ r w = lift InvalidRef (store w !! r) w) ->
  forall s refs w,
    Forall (fun r => is_Some (store w !! r)) refs ->
    exists found,
      first_titled at_ s refs w = (Ok found, w)
      /\ match found with
         | Some r =>
             exists pre post x,
               refs = pre ++ r :: post
               /\ store w !! r = Some x
               /\ title x = s
               /\ none_titled (store w) s pre
         | None => none_titled (store w) s refs
         end.
Proof.
  intros Hat s refs w.
  induction 1 as [|r refs [x Hx] _ (found & Hrun & Hfound)].
  - exists None. split; [reflexivity | constructor].
  - cbn [first_titled].
    assert (at_ r w = (Ok x, w)) as Hr by now rewrite Hat, Hx.
    rewrite (bind_Ok _ _ _ _ _ Hr).
    destruct (String.eqb s (title x)) eqn:Hs.
    + apply String.eqb_eq in Hs. exists (Some r). split; [reflexivity|].
      exists [], refs, x. repeat split; try assumption; [congruence | constructor].
    + apply String.eqb_neq in Hs. exists found. split; [exact Hrun|].
      assert (forall x', store w !! r = Some x' -> title x' <> s) as Hne.
      { intros x' Hx'. congruence. }
      destruct found as [r'|].
      * destruct Hfound as (pre & post & x' & -> & Hx' & Ht & Hpre).
        exists (r :: pre), post, x'. repeat split; try assumption.
        now constructor.
      * now constructor.
Qed.

(** X9.  [Paperwork.find_notebook].  By title, when the notebooks of the
    workspace are stored, it never raises: it returns the first notebook in
    the order of the [notebooks] dict that has the title, and nothing
    exactly when no notebook has it.  By id it returns the notebook under
    that key and raises [KeyError] when the key is missing.  Either way the
    world is left alone. *)
Theorem find_notebook_first_or_KeyError (w : World) :
  (forall s,
      Forall (fun r => is_Some (notebook_store w !! r)) (listed_notebooks w) ->
      exists found,
        Paperwork_find_notebook (ByTitle s) w = (Ok found, w)
        /\ match found with
           | Some r =>
               exists pre post nb,
                 listed_notebooks w = pre ++ r :: post
                 /\ notebook_store w !! r = Some nb
                 /\ nb_title nb = s
                 /\ none_titled (notebook_store w) s pre
           | None => none_titled (notebook_store w) s (listed_notebooks w)
           end)
  /\ (forall i,
        Paperwork_find_notebook (ById i) w =
        (match dict.get (notebooks (paperwork w)) i with
         | Some r => Ok (Some r)
         | None => Raise KeyError
         end, w)).
Proof.
  split.
  - intros s Hstored.
    destruct (first_titled_run notebook_at notebook_store (fun _ _ => eq_refl)
                s _ w Hstored) as (found & Hrun & Hfound).
    exists found. split; [exact Hrun | exact Hfound].
  - intros i. unfold Paperwork_find_notebook, bind. cbn.
    now destruct (dict.get (notebooks (paperwork w)) i).
Qed.

Lemma find_notebook_first_or_KeyError_witness :
  exists found, Paperwork_find_notebook (ByTitle "Home") desk = (Ok found, desk).
Proof.
  destruct (proj1 (find_notebook_first_or_KeyError desk) "Home")
    as (found & Hrun & _).
  - repeat constructor; eexists; reflexivity.
  - exists found. exact Hrun.
Defined.

(** X10.  [Paperwork.find_tag] behaves as [find_notebook] does, on the
    [tags] dict: by title the first tag with the title or nothing, without
    raising; by id the tag under the key or [KeyError]. *)
Theorem find_tag_first_or_KeyError (w : World) :
  (forall s,
      Forall (fun r => is_Some (tag_store w !! r))
        (dict.values (tags (paperwork w))) ->
      exists found,
        Paperwork_find_tag (ByTitle s) w = (Ok found, w)
        /\ match found with
           | Some r =>
               exists pre post t,
                 dict.values (tags (paperwork w)) = pre ++ r :: post
                 /\ tag_store w !! r = Some t
                 /\ t_title t = s
                 /\ none_titled (tag_store w) s pre
           | None =>
               none_titled (tag_store w) s (dict.values (tags (paperwork w)))
           end)
  /\ (forall i,
        Paperwork_find_tag (ById i) w =
        (match dict.get (tags (paperwork w)) i with
         | Some r => Ok (Some r)
         | None => Raise KeyError
         end, w)).
Proof.
  split.
  - intros s Hstored.
    destruct (first_titled_run tag_at tag_store (fun _ _ => eq_refl)
                s _ w Hstored) as (found & Hrun & Hfound).
    exists found. split; [exact Hrun | exact Hfound].
  - intros i. unfold Paperwork_find_tag, bind. cbn.
    now destruct (dict.get (tags (paperwork w)) i).
Qed.

Lemma find_tag_first_or_KeyError_witness :
  exists found, Paperwork_find_tag (ByTitle "urgent") desk = (Ok found, desk).
Proof.
  destruct (proj1 (find_tag_first_or_KeyError desk) "urgent")
    as (found & Hrun & _).
  - repeat constructor; eexists; reflexivity.
  - exists found. exact Hrun.
Defined.

(** ** Search *)

Lemma uri_path_search a : is_Some (uri_path "search" [a]).
Proof. unfold uri_path. cbn. eauto. Qed.

Lemma Paperwork_find_note_total w k :
  reachable_stored w -> exists found, Paperwork_find_note k w = (Ok found, w).
Proof.
  intros Hw. destruct (Paperwork_get_notes_listing w Hw) as (refs & Hrun & Hperm & _).
  assert (Forall (fun r => is_Some (note_store w !! r)) refs) as Hstored.
  { rewrite Hperm. apply Hw. }
  destruct (first_with_key_run w k refs Hstored) as (found & Hfirst & _).
  exists found. unfold Paperwork_find_note. now rewrite (bind_Ok _ _ _ _ _ Hrun).
Qed.

Section Searching.
Variable remote : list request -> request -> response.
Variable b64 : string -> string.

Lemma Paperwork_search_run k w :
  Paperwork_search remote b64 k w =
  search_rest (remote (sent w) (rq None GET "search" [b64 k]))
    (with_sent (fun l => l ++ [rq None GET "search" [b64 k]]) w).
Proof.
  unfold Paperwork_search, api_search, api_get.
  now rewrite (bind_Ok _ _ _ _ _
                 (api_request_run remote _ _ _ _ _ (uri_path_search _))).
Qed.

Lemma search_rest_reads I answer : preserves I (search_rest answer).
Proof.
  unfold search_rest, item_id. preserves_steps.
Qed.

Lemma search_rest_notes w items :
  reachable_stored w -> search_rest (RList (map RNote items)) w = (Ok [], w).
Proof.
  intros Hw. unfold search_rest. cbn [iterate]. unfold bind at 1. cbn [ret].
  erewrite bind_Ok; [reflexivity|].
  induction items as [|rn items IH]; [reflexivity|].
  cbn [map for_each].
  destruct (Paperwork_find_note_total w (ById (nr_id rn)) Hw) as [found Hfound].
  erewrite bind_Ok; [exact IH|].
  cbn [item_id item lift fmap option_fmap option_map]. unfold bind at 1. cbn [ret].
  now rewrite (bind_Ok _ _ _ _ _ Hfound).
Qed.

(** X11.  [Paperwork.search] sends one request, a GET of [search] with the
    encoded keyword, and changes nothing else.  Whenever it returns, it
    returns the empty list: the notes it looks up are never collected.  On a
    workspace whose notebooks and notes are stored and a host that answers
    with a list of notes it does return; when the host gives no answer it
    raises [TypeError]. *)
Theorem search_finds_nothing (k : string) (w : World) :
  snd (Paperwork_search remote b64 k w)
  = with_sent (fun l => l ++ [rq None GET "search" [b64 k]]) w
  /\ (forall found,
        fst (Paperwork_search remote b64 k w) = Ok found -> found = [])
  /\ (forall items,
        reachable_stored w ->
        remote (sent w) (rq None GET "search" [b64 k]) = RList (map RNote items) ->
        fst (Paperwork_search remote b64 k w) = Ok [])
  /\ (remote (sent w) (rq None GET "search" [b64 k]) = RNone ->
      fst (Paperwork_search remote b64 k w) = Raise TypeError).
Proof.
  rewrite Paperwork_search_run. split; [|split; [|split]].
  - apply (preserves_all_reads _ (fun I => search_rest_reads I _)).
  - intros found. unfold search_rest, bind.
    destruct (iterate _ _) as [[items | e] w1]; [|discriminate].
    destruct (for_each _ _ _) as [[[] | e] w2]; [|discriminate].
    cbn. congruence.
  - intros items Hw ->.
    assert (reachable_stored
              (with_sent (fun l => l ++ [rq None GET "search" [b64 k]]) w))
      as Hw' by exact Hw.
    now rewrite (search_rest_notes _ items Hw').
  - intros ->. reflexivity.
Qed.

End Searching.

Lemma search_finds_nothing_witness :
  fst (Paperwork_search
         (host [(rq None GET "search" ["cGxhbg=="], RList [RNote (plan_remote "100")])])
         (fun _ => "cGxhbg==") "plan" desk) = Ok [].
Proof.
  apply (proj1 (proj2 (proj2
           (search_finds_nothing
              (host [(rq None GET "search" ["cGxhbg=="],
                      RList [RNote (plan_remote "100")])])
              (fun _ => "cGxhbg==") "plan" desk)))
           [plan_remote "100"] desk_reachable_stored).
  reflexivity.
Defined.

(** ** Downloading *)

Lemma uri_path_notes a : is_Some (uri_path "notes" [a]).
Proof. unfold uri_path. cbn. eauto. Qed.



Section Downloading.
Variable remote : list request -> request -> response.

Lemma api_list_notebook_notes_run notebook_id w :
  api_list_notebook_notes remote notebook_id w =
  (Ok (remote (sent w) (notes_rq notebook_id)),
   with_sent (fun l => l ++ [notes_rq notebook_id]) w).
Proof. apply api_request_run, uri_path_notes. Qed.


End Downloading.

Section DownloadFailures.
Variable remote : list request -> request -> response.



End DownloadFailures.


(** ** What a download makes of a notebook *)

Lemma notes_owned_same self w w' :
  notebook_store w' = notebook_store w ->
  note_store w' = note_store w ->
  notes_owned self w -> notes_owned self w'.
Proof. unfold notes_owned. now intros -> ->. Qed.

Lemma notes_owned_listed self w nb n0 msg :
  notebook_store w !! self = Some nb ->
  n_notebook n0 = self ->
  notes_owned self w ->
  notes_owned self
    (with_logged msg
       (with_notebook_store
          (fun h => <[self := nb_with_notes
                                (dict.set (nb_notes nb) (n_id n0)
                                   (length (note_store w))) nb]> h)
          (with_note_store (fun h => h ++ [n0]) w))).
Proof.
  intros Hself Howner (nb' & Hself' & Hall).
  assert (nb' = nb) as -> by congruence.
  eexists. split.
  - cbn. apply list_lookup_insert_eq. eapply lookup_lt_Some, Hself.
  - cbn. intros k r Hget.
    destruct (decide (n_id n0 = k)) as [<- | Hne].
    + rewrite dict_get_set_eq in Hget. injection Hget as <-.
      exists n0. split; [apply list_lookup_middle; reflexivity | auto].
    + rewrite dict_get_set_ne in Hget by assumption.
      destruct (Hall k r Hget) as (n & Hn & Hid & Hown).
      exists n. split; [|auto].
      apply lookup_app_l_Some. exact Hn.
Qed.

Lemma Note_set_tags_owned self note v :
  preserves (notes_owned self) (Note_set_tags note v).
Proof.
  intros w (nb & Hself & Hall). unfold Note_set_tags, bind, note_at.
  destruct (note_store w !! note) as [n|] eqn:Hn; cbn; [|now exists nb].
  exists nb. split; [exact Hself|]. intros k r Hget.
  destruct (Hall k r Hget) as (n' & Hn' & Hid & Hown).
  destruct (decide (note = r)) as [-> | Hne].
  - exists (n_with_tags v n). split.
    + apply list_lookup_insert_eq. eapply lookup_lt_Some, Hn.
    + assert (n' = n) as -> by congruence. auto.
  - exists n'. split; [|auto]. cbn. now rewrite list_lookup_insert_ne.
Qed.

Lemma logger_owned self lvl msg : preserves (notes_owned self) (logger lvl msg).
Proof. intros w Hw. exact Hw. Qed.

Lemma Note_add_tags_owned self note given :
  preserves (notes_owned self) (Note_add_tags note given).
Proof.
  unfold Note_add_tags. apply preserves_for_each. intros tag.
  apply preserves_bind; [auto with preserves | intros t].
  apply preserves_bind; [auto with preserves | intros n].
  apply preserves_bind; [apply logger_owned | intros _].
  apply Note_set_tags_owned.
Qed.

Section Owning.
Variable remote : list request -> request -> response.

Lemma api_request_owned self data m keyword args :
  preserves (notes_owned self) (api_request remote data m keyword args).
Proof.
  intros w Hw. unfold api_request.
  destruct (uri_path keyword args); exact Hw.
Qed.

(** One round of the loop of [Notebook.download]. *)
Lemma download_note_owned self tags_ json :
  preserves (notes_owned self)
    (note <- Note_from_json json self ;;
     Notebook_add_note self note ;;
     tag_jsons <- item_tags json ;;
     attached <- comprehension tag_jsons
                   (fun tag => lift KeyError (dict.get tags_ (tj_id tag))) ;;
     Note_add_tags note attached).
Proof.
  intros w Hw. destruct Hw as (nb & Hself & Hall).
  assert (notes_owned self w) as Hw by (exists nb; auto).
  destruct json as [|j|rn|j|items]; try exact Hw.
  rewrite (bind_Ok _ _ _ _ _ (Note_from_json_run w rn self nb Hself)).
  erewrite bind_Ok.
  2:{ apply (Notebook_add_note_run _ self _ (Note_of rn self) nb).
      - cbn. apply list_lookup_middle. reflexivity.
      - exact Hself. }
  match goal with
  | |- notes_owned self (snd (?m ?w2)) =>
      assert (preserves (notes_owned self) m) as Hrest
  end.
  { apply preserves_bind; [unfold item_tags; auto with preserves | intros tjs].
    apply preserves_bind; [|intros attached; apply Note_add_tags_owned].
    apply preserves_comprehension. intros tag. auto with preserves. }
  apply Hrest.
  apply (notes_owned_listed self w nb (Note_of rn self)); auto.
Qed.

(** X13.  [Notebook.download] keeps the [notes] dict of its notebook
    sound, however it ends and whatever the host sends: if, before, every
    entry names a stored note that has the key for id and this notebook for
    owner, then so does every entry afterwards.  A notebook fresh from
    [Notebook.from_json] has no entries, so after its download every note it
    lists is its own. *)
Theorem download_keeps_notes_owned (self : ref) (tags_ : dict.t ref) (w : World) :
  notes_owned self w ->
  notes_owned self (snd (Notebook_download remote self tags_ w)).
Proof.
  revert w. change (preserves (notes_owned self) (Notebook_download remote self tags_)).
  unfold Notebook_download.
  apply preserves_bind; [auto with preserves | intros nb].
  apply preserves_bind; [apply api_request_owned | intros notes_json].
  apply preserves_bind; [apply logger_owned | intros _].
  apply preserves_bind; [auto with preserves | intros items].
  apply preserves_for_each. intros json. apply download_note_owned.
Qed.

End Owning.

Lemma download_keeps_notes_owned_witness :
  notes_owned 1%nat
    (snd (Notebook_download
            (host [(rq None GET "notes" ["2"], RList [RNote (plan_remote "100")])])
            1%nat [(3, 0%nat)] desk)).
Proof.
  apply download_keeps_notes_owned.
  exists home. split; [reflexivity|]. intros k r H. discriminate H.
Defined.

(** ** Tags that the workspace does not know *)

Lemma attached_run (tags_ : dict.t ref) (tjs : list tag_json) w :
  comprehension tjs (fun tag => lift KeyError (dict.get tags_ (tj_id tag))) w =
  (match mapM (fun tag => dict.get tags_ (tj_id tag)) tjs with
   | Some l => Ok l
   | None => Raise KeyError
   end, w).
Proof.
  induction tjs as [|tag tjs IH]; [reflexivity|].
  cbn [comprehension mapM]. unfold bind at 1.
  destruct (dict.get tags_ (tj_id tag)) as [r|]; [|reflexivity].
  cbn. unfold bind at 1. rewrite IH.
  destruct (mapM _ tjs); reflexivity.
Qed.

Lemma Note_add_tags_run w self n given :
  note_store w !! self = Some n ->
  Forall (fun r => is_Some (tag_store w !! r)) given ->
  exists w',
    Note_add_tags self given w = (Ok tt, w')
    /\ note_store w'
       = <[self := n_with_tags (foldl pyset.add (n_tags n) given) n]> (note_store w)
    /\ notebook_store w' = notebook_store w
    /\ tag_store w' = tag_store w
    /\ paperwork w' = paperwork w
    /\ sent w' = sent w.
Proof.
  intros Hself Hgiven. revert w n Hself Hgiven.
  induction given as [|tag given IH]; intros w n Hself Hgiven.
  - exists w. split; [reflexivity|]. split; [|repeat split].
    cbn [foldl]. symmetry. apply list_insert_id.
    transitivity (Some n); [exact Hself | now destruct n].
  - apply Forall_cons in Hgiven as [[t Ht] Hgiven].
    set (n1 := n_with_tags (pyset.add (n_tags n) tag) n).
    set (w1 := with_note_store (fun h => <[self := n1]> h)
                 (with_logged
                    (fun l => l ++ [(INFO, "Adding tag " +:+ Model_str t
                                           +:+ " to note " +:+ Model_str n)]) w)).
    assert (note_store w1 !! self = Some n1) as Hself1.
    { cbn. apply list_lookup_insert_eq. eapply lookup_lt_Some, Hself. }
    destruct (IH w1 n1 Hself1 Hgiven)
      as (w' & Hrun & Hnotes & Hnbs & Htags & Hpw & Hsent).
    exists w'. split; [|split].
    + cbn [Note_add_tags for_each].
      rewrite bind_assoc, (bind_Ok _ _ _ _ _ (tag_at_run _ _ _ Ht)).
      rewrite bind_assoc, (bind_Ok _ _ _ _ _ (note_at_run _ _ _ Hself)).
      rewrite bind_assoc, (bind_Ok _ _ _ _ _ (logger_run _ _ _)).
      unfold Note_set_tags at 1.
      rewrite bind_assoc. erewrite bind_Ok; [|apply note_at_run; exact Hself].
      unfold bind at 1. cbn [note_put]. exact Hrun.
    + rewrite Hnotes. cbn. apply list_insert_insert_eq.
    + repeat split; assumption.
Qed.

Lemma known_tags_attached tags_ w (tjs : list tag_json) :
  Forall (known_tag tags_ w) tjs ->
  exists attached,
    mapM (fun tag => dict.get tags_ (tj_id tag)) tjs = Some attached
    /\ Forall (fun r => is_Some (tag_store w !! r)) attached.
Proof.
  induction 1 as [|tag tjs (r & Hr & Hstored) _ (attached & Hall & Hattached)].
  - exists []. split; [reflexivity | constructor].
  - exists (r :: attached). split; [|now constructor].
    cbn [mapM]. rewrite Hr, Hall. reflexivity.
Qed.

Lemma unknown_tag_none (tags_ : dict.t ref) (tjs : list tag_json) tag :
  tag ∈ tjs -> dict.get tags_ (tj_id tag) = None ->
  mapM (fun tag => dict.get tags_ (tj_id tag)) tjs = None.
Proof.
  intros Htag Hunknown.
  destruct (mapM _ tjs) as [l|] eqn:E; [|reflexivity].
  assert (is_Some (mapM (fun tag => dict.get tags_ (tj_id tag)) tjs))
    as Hsome by eauto.
  apply mapM_is_Some in Hsome. rewrite Forall_forall in Hsome.
  destruct (Hsome tag Htag) as [r Hr]. cbn in Hr. congruence.
Qed.

Lemma listed_from_last d pos (l : list note_remote) rn :
  dict.get (listed_from d pos (l ++ [rn])) (nr_id rn) = Some (pos + length l)%nat.
Proof.
  revert d pos. induction l as [|b l IH]; intros d pos.
  - cbn. rewrite Nat.add_0_r. apply dict_get_set_eq.
  - cbn [app listed_from length]. rewrite IH. f_equal. lia.
Qed.

Section UnknownTags.
Variables (self : ref) (tags_ : dict.t ref).

(** One round of the loop of [Notebook.download], for a wire note whose
    tags are all known. *)
Lemma download_note_run w nb rn attached :
  notebook_store w !! self = Some nb ->
  mapM (fun tag => dict.get tags_ (tj_id tag)) (nr_tags rn) = Some attached ->
  Forall (fun r => is_Some (tag_store w !! r)) attached ->
  exists w',
    (note <- Note_from_json (RNote rn) self ;;
     Notebook_add_note self note ;;
     tag_jsons <- item_tags (RNote rn) ;;
     attached <- comprehension tag_jsons
                   (fun tag => lift KeyError (dict.get tags_ (tj_id tag))) ;;
     Note_add_tags note attached) w = (Ok tt, w')
    /\ note_store w'
       = note_store w
         ++ [n_with_tags (foldl pyset.add pyset.empty attached) (Note_of rn self)]
    /\ notebook_store w'
       = <[self := nb_with_notes
                     (dict.set (nb_notes nb) (nr_id rn) (length (note_store w)))
                     nb]> (notebook_store w)
    /\ tag_store w' = tag_store w
    /\ paperwork w' = paperwork w
    /\ sent w' = sent w.
Proof.
  intros Hself Hall Hattached.
  set (w2 := with_logged
               (fun l => l ++ [(INFO, "Added note " +:+ Model_str (Note_of rn self)
                                      +:+ " to " +:+ Model_str nb)])
               (with_notebook_store
                  (fun h => <[self := nb_with_notes
                                        (dict.set (nb_notes nb) (nr_id rn)
                                           (length (note_store w))) nb]> h)
                  (with_note_store (fun h => h ++ [Note_of rn self]) w))).
  assert (note_store w2 !! length (note_store w) = Some (Note_of rn self))
    as Hnote by (cbn; apply list_lookup_middle; reflexivity).
  destruct (Note_add_tags_run w2 (length (note_store w)) (Note_of rn self)
              attached Hnote Hattached)
    as (w' & Hrun & Hnotes & Hnbs & Htags & Hpw & Hsent).
  exists w'. split.
  - rewrite (bind_Ok _ _ _ _ _ (Note_from_json_run w rn self nb Hself)).
    erewrite bind_Ok.
    2:{ apply (Notebook_add_note_run _ self _ (Note_of rn self) nb).
        - cbn. apply list_lookup_middle. reflexivity.
        - exact Hself. }
    cbn [item_tags item lift fmap option_fmap option_map].
    unfold bind at 1. cbn [ret].
    erewrite bind_Ok; [exact Hrun|].
    rewrite attached_run, Hall. reflexivity.
  - rewrite Hnotes, Hnbs, Htags, Hpw, Hsent. cbn. split; [|repeat split].
    rewrite insert_app_r_alt by lia. now rewrite Nat.sub_diag.
Qed.

(** The loop of [Notebook.download] on wire notes of which the first ones
    have known tags only and the next one has an unknown tag. *)
Lemma download_notes_stop (before : list note_remote) (rn : note_remote)
    (others : list response) w nb :
  notebook_store w !! self = Some nb ->
  Forall (fun b => Forall (known_tag tags_ w) (nr_tags b)) before ->
  mapM (fun tag => dict.get tags_ (tj_id tag)) (nr_tags rn) = None ->
  exists w' taken,
    for_each (map RNote before ++ RNote rn :: others)
      (fun note_json =>
         note <- Note_from_json note_json self ;;
         Notebook_add_note self note ;;
         tag_jsons <- item_tags note_json ;;
         attached <- comprehension tag_jsons
                       (fun tag => lift KeyError (dict.get tags_ (tj_id tag))) ;;
         Note_add_tags note attached) w = (Raise KeyError, w')
    /\ note_store w' = note_store w ++ taken ++ [Note_of rn self]
    /\ Forall2 (downloaded tags_ self) before taken
    /\ notebook_store w'
       = <[self := nb_with_notes
                     (listed_from (nb_notes nb) (length (note_store w))
                        (before ++ [rn])) nb]> (notebook_store w)
    /\ tag_store w' = tag_store w
    /\ paperwork w' = paperwork w
    /\ sent w' = sent w.
Proof.
  revert w nb. induction before as [|b before IH]; intros w nb Hself Hknown Hnone.
  - exists (with_logged
              (fun l => l ++ [(INFO, "Added note " +:+ Model_str (Note_of rn self)
                                     +:+ " to " +:+ Model_str nb)])
              (with_notebook_store
                 (fun h => <[self := nb_with_notes
                                       (dict.set (nb_notes nb) (nr_id rn)
                                          (length (note_store w))) nb]> h)
                 (with_note_store (fun h => h ++ [Note_of rn self]) w))), [].
    split; [|cbn; repeat split; constructor].
    cbn [map app for_each].
    erewrite bind_Raise; [reflexivity|].
    rewrite (bind_Ok _ _ _ _ _ (Note_from_json_run w rn self nb Hself)).
    erewrite bind_Ok.
    2:{ apply (Notebook_add_note_run _ self _ (Note_of rn self) nb).
        - cbn. apply list_lookup_middle. reflexivity.
        - exact Hself. }
    cbn [item_tags item lift fmap option_fmap option_map].
    unfold bind at 1. cbn [ret].
    erewrite bind_Raise; [reflexivity|].
    rewrite attached_run, Hnone. reflexivity.
  - apply Forall_cons in Hknown as [Hb Hknown].
    destruct (known_tags_attached tags_ w (nr_tags b) Hb)
      as (attached & Hall & Hattached).
    destruct (download_note_run w nb b attached Hself Hall Hattached)
      as (w1 & Hrun1 & Hnotes1 & Hnbs1 & Htags1 & Hpw1 & Hsent1).
    assert (notebook_store w1 !! self
            = Some (nb_with_notes
                      (dict.set (nb_notes nb) (nr_id b) (length (note_store w)))
                      nb)) as Hself1.
    { rewrite Hnbs1. apply list_lookup_insert_eq. eapply lookup_lt_Some, Hself. }
    assert (Forall (fun b => Forall (known_tag tags_ w1) (nr_tags b)) before)
      as Hknown1.
    { eapply Forall_impl; [exact Hknown|]. intros b' Hb'.
      eapply Forall_impl; [exact Hb'|]. intros t (r & Hr & Hstored).
      exists r. split; [exact Hr|]. now rewrite Htags1. }
    destruct (IH w1 _ Hself1 Hknown1 Hnone)
      as (w' & taken & Hrun & Hnotes & Htaken & Hnbs & Htags & Hpw & Hsent).
    exists w',
      (n_with_tags (foldl pyset.add pyset.empty attached) (Note_of b self) :: taken).
    split; [|split; [|split; [|split]]].
    + cbn [map app for_each]. rewrite (bind_Ok _ _ _ _ _ Hrun1). exact Hrun.
    + rewrite Hnotes, Hnotes1, <- app_assoc. reflexivity.
    + constructor; [|exact Htaken]. exists attached. split; [exact Hall | reflexivity].
    + rewrite Hnbs, Hnbs1, Hnotes1, list_insert_insert_eq, length_app.
      cbn [length app listed_from nb_with_notes nb_notes].
      rewrite Nat.add_1_r. reflexivity.
    + rewrite Htags, Hpw, Hsent. repeat split; assumption.
Qed.

End UnknownTags.

(** X14.  A note on the wire that lists a tag whose id is not a key of the
    workspace's tags stops [Notebook.download] with a [KeyError], wherever
    the note stands in the listing; the tag is not skipped.  The notes
    before it, whose tags are all known, are stored with their tags and
    listed.  The note itself is by then stored, without tags, and listed in
    the notebook under its id; the notes after it on the wire are not taken.
    The notebook is otherwise what it was, as are the other notebooks, the
    notes stored before, the tags and the workspace, and the one request
    sent is the listing of the notes. *)
Theorem download_unknown_tag_raises
    (remote : list request -> request -> response) (w : World)
    (self : ref) (nb : Notebook) (tags_ : dict.t ref)
    (before : list note_remote) (rn : note_remote) (others : list response)
    (tag : tag_json) :
  notebook_store w !! self = Some nb ->
  remote (sent w) (notes_rq (nb_id nb))
  = RList (map RNote before ++ RNote rn :: others) ->
  Forall (fun b => Forall (known_tag tags_ w) (nr_tags b)) before ->
  tag ∈ nr_tags rn ->
  dict.get tags_ (tj_id tag) = None ->
  exists w' taken,
    Notebook_download remote self tags_ w = (Raise KeyError, w')
    /\ note_store w' = note_store w ++ taken ++ [Note_of rn self]
    /\ Forall2 (downloaded tags_ self) before taken
    /\ note_store w' !! (length (note_store w) + length before)%nat
       = Some (Note_of rn self)
    /\ notebook_store w'
       = <[self := nb_with_notes
                     (listed_from (nb_notes nb) (length (note_store w))
                        (before ++ [rn])) nb]> (notebook_store w)
    /\ dict.get (listed_from (nb_notes nb) (length (note_store w)) (before ++ [rn]))
         (nr_id rn)
       = Some (length (note_store w) + length before)%nat
    /\ tag_store w' = tag_store w
    /\ paperwork w' = paperwork w
    /\ sent w' = sent w ++ [notes_rq (nb_id nb)].
Proof.
  intros Hself Hnotes Hknown Htag Hunknown.
  pose proof (unknown_tag_none tags_ (nr_tags rn) tag Htag Hunknown) as Hnone.
  destruct (download_notes_stop self tags_ before rn others
              (with_logged
                 (fun l => l ++ [(INFO, "Downloading notes of notebook "
                                        +:+ Model_str nb)])
                 (with_sent (fun l => l ++ [notes_rq (nb_id nb)]) w))
              nb Hself Hknown Hnone)
    as (w' & taken & Hrun & Hstore & Htaken & Hnbs & Htags & Hpw & Hsent).
  exists w', taken. split.
  - unfold Notebook_download.
    rewrite (bind_Ok _ _ _ _ _ (notebook_at_run _ _ _ Hself)).
    rewrite (bind_Ok _ _ _ _ _ (api_list_notebook_notes_run remote _ _)).
    rewrite (bind_Ok _ _ _ _ _ (logger_run _ _ _)).
    rewrite Hnotes. cbn [iterate]. unfold bind at 1. cbn [ret].
    exact Hrun.
  - cbn in Hstore, Hnbs, Htags, Hpw, Hsent.
    split; [exact Hstore|]. split; [exact Htaken|]. split.
    { rewrite Hstore, app_assoc.
      apply Forall2_length in Htaken.
      apply list_lookup_middle. rewrite length_app. lia. }
    split; [exact Hnbs|]. split; [apply listed_from_last|].
    repeat split; assumption.
Qed.

Lemma download_unknown_tag_raises_witness :
  exists w',
    Notebook_download
      (host [(rq None GET "notes" ["2"],
              RList [RNote {| nr_id := 8; nr_title := "todo"; nr_content := "";
                              nr_updated_at := "100";
                              nr_tags := [Tag_to_json urgent];
                              nr_notebook_id := 2 |};
                     RNote {| nr_id := 9; nr_title := "list"; nr_content := "";
                              nr_updated_at := "100";
                              nr_tags := [{| tj_id := 4; tj_title := "later";
                                             tj_visibility := 0 |}];
                              nr_notebook_id := 2 |}])])
      1%nat [(3, 0%nat)] desk = (Raise KeyError, w')
    /\ length (note_store w') = 4%nat.
Proof.
  destruct (download_unknown_tag_raises
              (host [(rq None GET "notes" ["2"],
                      RList [RNote {| nr_id := 8; nr_title := "todo";
                                      nr_content := ""; nr_updated_at := "100";
                                      nr_tags := [Tag_to_json urgent];
                                      nr_notebook_id := 2 |};
                             RNote {| nr_id := 9; nr_title := "list";
                                      nr_content := ""; nr_updated_at := "100";
                                      nr_tags := [{| tj_id := 4; tj_title := "later";
                                                     tj_visibility := 0 |}];
                                      nr_notebook_id := 2 |}])])
              desk 1%nat home [(3, 0%nat)]
              [{| nr_id := 8; nr_title := "todo"; nr_content := "";
                  nr_updated_at := "100"; nr_tags := [Tag_to_json urgent];
                  nr_notebook_id := 2 |}]
              {| nr_id := 9; nr_title := "list"; nr_content := "";
                 nr_updated_at := "100";
                 nr_tags := [{| tj_id := 4; tj_title := "later";
                                tj_visibility := 0 |}];
                 nr_notebook_id := 2 |} []
              {| tj_id := 4; tj_title := "later"; tj_visibility := 0 |})
    as (w' & taken & Hrun & Hstore & Htaken & _); try reflexivity.
  - constructor; [|constructor]. constructor; [|constructor].
    exists 0%nat. split; [reflexivity|]. exists urgent. reflexivity.
  - apply list_elem_of_singleton. reflexivity.
  - exists w'. split; [exact Hrun|].
    apply Forall2_length in Htaken. rewrite Hstore, !length_app, <- Htaken.
    reflexivity.
Defined.

(** ** What an update leaves alone *)

Lemma reconciled_refl w : reconciled w w.
Proof.
  repeat split.
  - apply Forall_Forall2_diag, Forall_forall. intros ? _. repeat split.
  - apply Forall_Forall2_diag, Forall_forall. intros ? _. repeat split.
  - exists []. split; [now rewrite app_nil_r | constructor].
Qed.

Lemma Forall2_write {A} (P : A -> A -> Prop) (l0 l : list A) i x y :
  Forall2 P l0 l ->
  l !! i = Some x ->
  (forall x0, P x0 x -> P x0 y) ->
  Forall2 P l0 (<[i := y]> l).
Proof.
  intros Hall Hx Hy.
  destruct (Forall2_lookup_r _ _ _ _ _ Hall Hx) as (x0 & Hx0 & HP).
  rewrite <- (list_insert_id l0 i x0 Hx0).
  apply Forall2_insert; auto.
Qed.

Section Reconciled.
Variable w0 : World.

Lemma logger_reconciled lvl msg : preserves (reconciled w0) (logger lvl msg).
Proof. intros w Hw. exact Hw. Qed.

Lemma note_write_reconciled (self : ref) (f : Note -> Note) :
  (forall n, same_note n (f n)) ->
  preserves (reconciled w0) (n <- note_at self ;; note_put self (f n)).
Proof.
  intros Hf w (Htags & Hpw & Hnbs & Hnotes & Hsent).
  unfold bind, note_at.
  destruct (note_store w !! self) as [n|] eqn:Hn; cbn; [|repeat split; auto].
  repeat split; auto.
  apply (Forall2_write _ _ _ _ n); auto.
  intros x0 (Hid & Hown & Htg). destruct (Hf n) as (Hid' & Hown' & Htg').
  repeat split; congruence.
Qed.

Lemma notebook_write_reconciled (self : ref) (f : Notebook -> Notebook) :
  (forall nb, same_notebook nb (f nb)) ->
  preserves (reconciled w0) (nb <- notebook_at self ;; notebook_put self (f nb)).
Proof.
  intros Hf w (Htags & Hpw & Hnbs & Hnotes & Hsent).
  unfold bind, notebook_at.
  destruct (notebook_store w !! self) as [nb|] eqn:Hnb; cbn; [|repeat split; auto].
  repeat split; auto.
  apply (Forall2_write _ _ _ _ nb); auto.
  intros x0 (Hid & Hty & Hns). destruct (Hf nb) as (Hid' & Hty' & Hns').
  repeat split; congruence.
Qed.

Variable remote : list request -> request -> response.

Lemma api_request_reconciled data m keyword args :
  m = GET \/ m = PUT ->
  preserves (reconciled w0) (api_request remote data m keyword args).
Proof.
  intros Hm w (Htags & Hpw & Hnbs & Hnotes & later & Hsent & Hlater).
  unfold api_request.
  destruct (uri_path keyword args); cbn; [|repeat split; eauto].
  repeat split; auto.
  exists (later ++ [rq data m keyword args]). split.
  - cbn. rewrite Hsent. now rewrite <- app_assoc.
  - apply Forall_app. split; [assumption|].
    constructor; [exact Hm | constructor].
Qed.

Lemma Note_to_json_reconciled self : preserves (reconciled w0) (Note_to_json self).
Proof. unfold Note_to_json. preserves_steps. Qed.

Lemma Note_update_reconciled self force :
  preserves (reconciled w0) (Note_update remote self force).
Proof.
  unfold Note_update, api_get_note, api_get_notes, api_get, api_update_note,
    api_put, item_updated_at, item_title, item_content.
  repeat first
    [ solve [auto with preserves]
    | apply logger_reconciled
    | apply Note_to_json_reconciled
    | apply api_request_reconciled; tauto
    | apply note_write_reconciled; intros ?; repeat split
    | apply preserves_bind; [|intros ?]
    | match goal with
      | |- preserves _ (if ?b then _ else _) => destruct b
      end ].
Qed.

Lemma Notebook_update_reconciled self force :
  preserves (reconciled w0) (Notebook_update remote self force).
Proof.
  unfold Notebook_update, api_get_notebook, api_get, api_update_notebook,
    api_put, item_updated_at, item_title.
  repeat first
    [ solve [auto with preserves]
    | apply logger_reconciled
    | apply api_request_reconciled; tauto
    | apply notebook_write_reconciled; intros ?; repeat split
    | apply preserves_bind; [|intros ?]
    | match goal with
      | |- preserves _ (if ?b then _ else _) => destruct b
      end ].
Qed.

Lemma Notebook_get_notes_reconciled self :
  preserves (reconciled w0) (Notebook_get_notes self).
Proof. unfold Notebook_get_notes. preserves_steps. Qed.

Lemma Paperwork_update_reconciled : preserves (reconciled w0) (Paperwork_update remote).
Proof.
  unfold Paperwork_update.
  apply preserves_bind; [apply logger_reconciled | intros _].
  apply preserves_bind; [auto with preserves | intros self].
  apply preserves_for_each. intros nb. unfold Paperwork_update_notebook.
  apply preserves_bind; [apply Notebook_update_reconciled | intros _].
  apply preserves_bind; [apply Notebook_get_notes_reconciled | intros notes].
  apply preserves_for_each. intros note. apply Note_update_reconciled.
Qed.

End Reconciled.

(** X15.  An update, of one note, of one notebook or of the whole
    workspace, with or without [force] and however it ends, only reconciles.
    The requests it sends are GETs and PUTs: nothing is created, moved or
    deleted on the host.  Locally the workspace with its two dicts and the
    tags are untouched, no object is added or dropped, and of a stored
    notebook or note only the title, the content and the time stamp can
    differ afterwards: ids, owners, tag sets and [notes] dicts are the
    same. *)
Theorem update_only_reconciles
    (remote : list request -> request -> response) (w : World) :
  (forall self force, reconciled w (snd (Note_update remote self force w)))
  /\ (forall self force, reconciled w (snd (Notebook_update remote self force w)))
  /\ reconciled w (snd (Paperwork_update remote w)).
Proof.
  split; [|split].
  - intros self force. apply Note_update_reconciled, reconciled_refl.
  - intros self force. apply Notebook_update_reconciled, reconciled_refl.
  - apply Paperwork_update_reconciled, reconciled_refl.
Qed.

(** ** After a move *)

Lemma dict_mem_remove {V} (d : dict.t V) k : dict.mem (dict.remove d k) k = false.
Proof. unfold dict.mem. now rewrite dict_get_remove_eq. Qed.

Section Moving.
Variable remote : list request -> request -> response.

Variables (w : World) (self target : ref) (n : Note) (A B : Notebook)
          (tjs : list tag_json).
Hypothesis Hself : note_store w !! self = Some n.
Hypothesis Hfrom : notebook_store w !! n_notebook n = Some A.
Hypothesis Hto : notebook_store w !! target = Some B.
Hypothesis Hother : target <> n_notebook n.
Hypothesis Htags : tags_to_json (tag_store w) (n_tags n) = Some tjs.
Hypothesis Hlisted : dict.mem (nb_notes A) (n_id n) = true.

Local Abbreviation json := (note_json_of n A tjs).
Local Abbreviation left_behind := (nb_with_notes (dict.remove (nb_notes A) (n_id n)) A).
Local Abbreviation taken_in := (nb_with_notes (dict.set (nb_notes B) (n_id n) self) B).

Local Abbreviation moved := (moved_world w self target n A B tjs).

Lemma Note_move_to_run first others :
  remote (sent w) (move_note_rq json (nb_id B)) = RList (first :: others) ->
  Note_move_to remote self target w = (Ok tt, moved).
Proof.
  intros Hmove. unfold Note_move_to.
  erewrite bind_Ok; [|apply Note_to_json_run; eassumption].
  rewrite (bind_Ok _ _ _ _ _ (notebook_at_run _ _ _ Hto)).
  erewrite bind_Ok; [|rewrite api_move_note_run, Hmove; reflexivity].
  erewrite bind_Ok.
  2:{ apply (Note_leave_notebook_run _ self n A); assumption. }
  erewrite Notebook_add_note_run with (n := n) (nb := B).
  - reflexivity.
  - exact Hself.
  - cbn. rewrite list_lookup_insert_ne by congruence. exact Hto.
Qed.

Lemma moved_note : note_store moved !! self = Some n.
Proof. exact Hself. Qed.

Lemma moved_from : notebook_store moved !! n_notebook n = Some left_behind.
Proof.
  cbn. rewrite list_lookup_insert_ne by assumption.
  apply list_lookup_insert_eq. eapply lookup_lt_Some, Hfrom.
Qed.

Lemma moved_to : notebook_store moved !! target = Some taken_in.
Proof.
  cbn. apply list_lookup_insert_eq. rewrite length_insert.
  eapply lookup_lt_Some, Hto.
Qed.

Lemma Note_delete_moved first others :
  remote (sent moved) (delete_note_rq json) = RList (first :: others) ->
  Note_delete remote self moved =
  (Raise KeyError,
   with_sent (fun l => l ++ [delete_note_rq json])
     (with_logged
        (fun l => l ++ [(INFO, "Deleting note " +:+ Model_str n
                               +:+ " in notebook " +:+ Model_str left_behind)])
        moved)).
Proof.
  intros Hanswer. unfold Note_delete.
  rewrite (bind_Ok _ _ _ _ _ (note_at_run _ _ _ moved_note)).
  rewrite (bind_Ok _ _ _ _ _ (notebook_at_run _ _ _ moved_from)).
  rewrite (bind_Ok _ _ _ _ _ (logger_run _ _ _)).
  erewrite bind_Ok.
  2:{ apply (Note_to_json_run _ self n left_behind tjs).
      - exact moved_note.
      - exact moved_from.
      - exact Htags. }
  erewrite bind_Ok.
  2:{ rewrite api_delete_note_run. cbn [sent with_logged].
      change (note_json_of n left_behind tjs) with json.
      rewrite Hanswer. reflexivity. }
  unfold Note_leave_notebook.
  erewrite bind_Ok; [|apply note_at_run; exact moved_note].
  erewrite bind_Ok; [|apply notebook_at_run; exact moved_from].
  unfold dict.del. cbn [nb_notes nb_with_notes]. rewrite dict_mem_remove.
  reflexivity.
Qed.

End Moving.

(** X16.  A note that was moved to another notebook cannot be deleted
    afterwards.  The move, once the host has answered it, takes the note out
    of the [notes] of the old notebook and lists it in the new one, but the
    note still names the old notebook.  [Note.delete] then sends its DELETE
    under the id of the old notebook and, the host having answered, raises
    [KeyError] on the old notebook's [notes]: the new notebook still lists
    the note. *)
Theorem moved_note_cannot_be_deleted
    (remote : list request -> request -> response) (w : World)
    (self target : ref) (n : Note) (A B : Notebook) (tjs : list tag_json)
    (first : response) (others : list response) :
  note_store w !! self = Some n ->
  notebook_store w !! n_notebook n = Some A ->
  notebook_store w !! target = Some B ->
  target <> n_notebook n ->
  tags_to_json (tag_store w) (n_tags n) = Some tjs ->
  dict.mem (nb_notes A) (n_id n) = true ->
  remote (sent w) (move_note_rq (note_json_of n A tjs) (nb_id B))
  = RList (first :: others) ->
  exists w1,
    Note_move_to remote self target w = (Ok tt, w1)
    /\ (n_notebook <$> note_store w1 !! self) = Some (n_notebook n)
    /\ forall first' others',
         remote (sent w1) (delete_note_rq (note_json_of n A tjs))
         = RList (first' :: others') ->
         exists w2 B',
           Note_delete remote self w1 = (Raise KeyError, w2)
           /\ sent w2 = sent w1 ++ [delete_note_rq (note_json_of n A tjs)]
           /\ notebook_store w2 !! target = Some B'
           /\ dict.get (nb_notes B') (n_id n) = Some self.
Proof.
  intros Hself Hfrom Hto Hother Htags Hlisted Hmove.
  exists (moved_world w self target n A B tjs). split; [|split].
  - eapply Note_move_to_run; eassumption.
  - cbn. now rewrite Hself.
  - intros first' others' Hanswer. do 2 eexists. split; [|split; [|split]].
    + eapply Note_delete_moved; eassumption.
    + reflexivity.
    + eapply moved_to; eassumption.
    + apply dict_get_set_eq.
Qed.

Lemma moved_note_cannot_be_deleted_witness :
  exists w1,
    Note_move_to obliging 0%nat 1%nat desk = (Ok tt, w1)
    /\ exists w2, Note_delete obliging 0%nat w1 = (Raise KeyError, w2).
Proof.
  destruct (moved_note_cannot_be_deleted obliging desk 0%nat 1%nat plan work home
              [Tag_to_json urgent] (RNote (plan_remote "101")) [])
    as (w1 & Hmove & _ & Hdelete); try reflexivity; [discriminate|].
  exists w1. split; [exact Hmove|].
  destruct (Hdelete (RNote (plan_remote "100")) []) as (w2 & B' & Hrun & _).
  - assert (w1 = snd (Note_move_to obliging 0%nat 1%nat desk)) as ->
      by now rewrite Hmove.
    reflexivity.
  - exists w2. exact Hrun.
Defined.

(** ** Fuzzy lookups on the workspace *)

Section FuzzyOnStore.
Variable ratio : string -> string -> Z.
Variable query : string.

Lemma named_in_elem {A} (store : list A) refs listed r x :
  named_in store refs = Some listed ->
  forall part, part ⊆ listed ->
  r ∈ map fst part -> store !! r = Some x ->
  exists p, p ∈ part /\ fst p = r /\ snd p = x.
Proof.
  intros Hnamed part Hpart Hr Hx.
  destruct (named_in_spec _ _ _ Hnamed) as [_ Hall].
  apply list_elem_of_fmap in Hr as (p & -> & Hp).
  exists p. repeat split; [assumption|].
  rewrite Forall_forall in Hall. specialize (Hall p (Hpart p Hp)). congruence.
Qed.

Lemma fuzzy_find_named {A} `{Model A} (store : list A) refs listed :
  named_in store refs = Some listed ->
  best_of ratio query store refs (fst <$> fuzzy_find ratio query listed).
Proof.
  intros Hnamed. destruct (named_in_spec _ _ _ Hnamed) as [Hfst Hall].
  unfold fuzzy_find.
  destruct (fuzzy_loop ratio query (0, None) listed)
    as [[Heq Hle] | (best & pre & post & Hsplit & Heq & Hpos & Hpre & Hpost)];
    rewrite Heq; cbn [snd fmap option_fmap option_map best_of].
  - intros r' x' Hr' Hx'. rewrite <- Hfst in Hr'.
    destruct (named_in_elem store refs listed r' x' Hnamed listed) as (p & Hp & _ & Hsnd);
      auto.
    specialize (Hle p Hp). cbn in Hle. now rewrite Hsnd in Hle.
  - destruct best as [r x]. cbn [fst].
    exists (map fst pre), (map fst post), x.
    assert ((r, x) ∈ listed) as Hbest.
    { rewrite Hsplit. apply elem_of_app. right. now left. }
    split; [|split; [|split; [|split]]].
    + now rewrite <- Hfst, Hsplit, fmap_app.
    + rewrite Forall_forall in Hall. apply (Hall (r, x) Hbest).
    + exact Hpos.
    + intros r' x' Hr' Hx'. rewrite <- Hfst in Hr'.
      destruct (named_in_elem store refs listed r' x' Hnamed listed)
        as (p & Hp & _ & Hsnd); auto.
      rewrite Hsplit in Hp. apply elem_of_app in Hp as [Hp | Hp].
      * specialize (Hpre p Hp). cbn in Hpre. rewrite Hsnd in Hpre.
        cbn. lia.
      * apply elem_of_cons in Hp as [-> | Hp]; [cbn in Hsnd; subst; cbn; lia|].
        specialize (Hpost p Hp). cbn in Hpost. now rewrite Hsnd in Hpost.
    + intros r' x' Hr' Hx'.
      destruct (named_in_elem store refs listed r' x' Hnamed pre)
        as (p & Hp & _ & Hsnd); auto.
      { intros p Hp. rewrite Hsplit. apply elem_of_app. now left. }
      specialize (Hpre p Hp). cbn in Hpre. now rewrite Hsnd in Hpre.
Qed.

(** X17.  [Paperwork.fuzzy_find_notebook] and [Paperwork.fuzzy_find_tag],
    when the notebooks, respectively the tags, of the workspace are stored,
    return without raising and without touching the world.  The result is
    an object of the workspace whose title scores above 0 against the query
    and that no other outscores; among equals it is the first in the order
    of the dict.  The result is nothing exactly when no title scores above
    0, so always on an empty workspace. *)
Theorem fuzzy_find_on_dicts (w : World) :
  (Forall (fun r => is_Some (notebook_store w !! r)) (listed_notebooks w) ->
   exists found,
     Paperwork_fuzzy_find_notebook ratio query w = (Ok found, w)
     /\ best_of ratio query (notebook_store w) (listed_notebooks w) found)
  /\ (Forall (fun r => is_Some (tag_store w !! r))
        (dict.values (tags (paperwork w))) ->
      exists found,
        Paperwork_fuzzy_find_tag ratio query w = (Ok found, w)
        /\ best_of ratio query (tag_store w)
             (dict.values (tags (paperwork w))) found).
Proof.
  split; intros Hstored.
  - destruct (named_in_stored _ _ Hstored) as [listed Hnamed].
    exists (fst <$> fuzzy_find ratio query listed). split.
    + unfold Paperwork_fuzzy_find_notebook. unfold bind at 1. cbn [the_paperwork].
      fold (listed_notebooks w).
      erewrite bind_Ok; [reflexivity|].
      now rewrite named_notebooks_run, Hnamed.
    + now apply fuzzy_find_named.
  - destruct (named_in_stored _ _ Hstored) as [listed Hnamed].
    exists (fst <$> fuzzy_find ratio query listed). split.
    + unfold Paperwork_fuzzy_find_tag. unfold bind at 1. cbn [the_paperwork].
      erewrite bind_Ok; [reflexivity|].
      now rewrite named_tags_run, Hnamed.
    + now apply fuzzy_find_named.
Qed.

(** X18.  [Paperwork.fuzzy_find_note], when every notebook and note the
    workspace reaches is stored, returns without raising and without
    touching the world.  It looks through the listing of [get_notes], so
    among the notes with the highest score, which must be above 0, it
    returns the first by title. *)
Theorem fuzzy_find_note_first_by_title (w : World) :
  reachable_stored w ->
  exists found sorted_refs,
    Paperwork_fuzzy_find_note ratio query w = (Ok found, w)
    /\ Paperwork_get_notes w = (Ok sorted_refs, w)
    /\ sorted_refs ≡ₚ listed_notes w
    /\ Sorted (note_title_le w) sorted_refs
    /\ best_of ratio query (note_store w) sorted_refs found.
Proof.
  intros Hw.
  destruct (Paperwork_get_notes_listing w Hw) as (refs & Hrun & Hperm & Hsorted & _).
  assert (Forall (fun r => is_Some (note_store w !! r)) refs) as Hstored.
  { rewrite Hperm. apply Hw. }
  destruct (named_in_stored _ _ Hstored) as [listed Hnamed].
  exists (fst <$> fuzzy_find ratio query listed), refs.
  split; [|split; [|split; [|split]]]; auto.
  - unfold Paperwork_fuzzy_find_note.
    rewrite (bind_Ok _ _ _ _ _ Hrun).
    erewrite bind_Ok; [reflexivity|].
    now rewrite named_notes_run, Hnamed.
  - now apply fuzzy_find_named.
Qed.

End FuzzyOnStore.

Lemma fuzzy_find_on_dicts_witness :
  exists found,
    Paperwork_fuzzy_find_notebook exact_ratio "Home" desk = (Ok found, desk).
Proof.
  destruct (proj1 (fuzzy_find_on_dicts exact_ratio "Home" desk))
    as (found & Hrun & _).
  - repeat constructor; eexists; reflexivity.
  - exists found. exact Hrun.
Defined.

Lemma fuzzy_find_note_first_by_title_witness :
  exists found,
    Paperwork_fuzzy_find_note exact_ratio "plan" desk = (Ok found, desk).
Proof.
  destruct (fuzzy_find_note_first_by_title exact_ratio "plan" desk
              desk_reachable_stored) as (found & refs & Hrun & _).
  exists found. exact Hrun.
Defined.

(** ** Listings of notebooks and tags *)

Lemma sorted_by_ref {A} `{Model A} (store : list A) (listed : list (ref * A)) :
  Forall (fun p => store !! fst p = Some (snd p)) listed ->
  listing_of store (map fst listed) (map fst (sorted title listed)).
Proof.
  intros Hall.
  assert (forall l : list (ref * A),
             Forall (fun p => store !! fst p = Some (snd p)) l ->
             forall t, titled_in store t (map fst l)
                       = map fst (filter (fun p => title p = t) l)) as Hfilter.
  { intros l Hl t. unfold titled_in.
    induction Hl as [|[r x] l Hp _ IH]; [reflexivity|].
    cbn [map fst]. rewrite !filter_cons, IH. cbn in Hp. rewrite Hp. cbn.
    destruct (decide (Some (title x) = Some t)) as [Ht|Ht],
             (decide (title x = t)) as [Ht'|Ht']; try reflexivity; congruence. }
  assert (Forall (fun p => store !! fst p = Some (snd p)) (sorted title listed))
    as Hall' by now rewrite sorted_perm.
  split; [|split].
  - apply fmap_Permutation, sorted_perm.
  - pose proof (sorted_ordered title listed) as Hs.
    induction Hs as [|[r x] l Hs IH Hhd]; [constructor|].
    apply Forall_cons in Hall' as [Hp Hl]. cbn [map fst].
    constructor; [now apply IH|].
    destruct Hhd as [|[r' x'] l' Hle]; constructor.
    apply Forall_cons in Hl as [Hp' _]. cbn in *.
    unfold title_le_in. now rewrite Hp, Hp'.
  - intros t. rewrite !Hfilter by assumption. now rewrite sorted_stable.
Qed.

(** X19.  [Paperwork.get_notebooks] and [Paperwork.get_tags], when the
    notebooks, respectively the tags, of the workspace are stored, return
    without touching the world a rearrangement of the values of the dict,
    ordered by title; objects with the same title come in the order of the
    dict. *)
Theorem get_notebooks_and_tags_sorted (w : World) :
  (Forall (fun r => is_Some (notebook_store w !! r)) (listed_notebooks w) ->
   exists listing,
     Paperwork_get_notebooks w = (Ok listing, w)
     /\ listing_of (notebook_store w) (listed_notebooks w) listing)
  /\ (Forall (fun r => is_Some (tag_store w !! r))
        (dict.values (tags (paperwork w))) ->
      exists listing,
        Paperwork_get_tags w = (Ok listing, w)
        /\ listing_of (tag_store w) (dict.values (tags (paperwork w))) listing).
Proof.
  split; intros Hstored.
  - destruct (named_in_stored _ _ Hstored) as [listed Hnamed].
    destruct (named_in_spec _ _ _ Hnamed) as [Hfst Hall].
    exists (map fst (sorted title listed)). split.
    + unfold Paperwork_get_notebooks. unfold bind at 1. cbn [the_paperwork].
      fold (listed_notebooks w).
      erewrite bind_Ok; [reflexivity|].
      now rewrite named_notebooks_run, Hnamed.
    + rewrite <- Hfst. now apply sorted_by_ref.
  - destruct (named_in_stored _ _ Hstored) as [listed Hnamed].
    destruct (named_in_spec _ _ _ Hnamed) as [Hfst Hall].
    exists (map fst (sorted title listed)). split.
    + unfold Paperwork_get_tags. unfold bind at 1. cbn [the_paperwork].
      erewrite bind_Ok; [reflexivity|].
      now rewrite named_tags_run, Hnamed.
    + rewrite <- Hfst. now apply sorted_by_ref.
Qed.

Lemma get_notebooks_and_tags_sorted_witness :
  exists listing, Paperwork_get_notebooks desk = (Ok listing, desk)
                  /\ listing ≡ₚ [0%nat; 1%nat].
Proof.
  destruct (proj1 (get_notebooks_and_tags_sorted desk))
    as (listing & Hrun & Hperm & _).
  - repeat constructor; eexists; reflexivity.
  - exists listing. split; assumption.
Defined.

(** ** The tags that a download attaches *)

Lemma dict_get_values {V} (d : dict.t V) k v :
  dict.get d k = Some v -> v ∈ dict.values d.
Proof.
  unfold dict.values. induction d as [|[k' v'] d IH]; cbn; [discriminate|].
  destruct (Z.eqb k' k).
  - intros [= ->]. now left.
  - intros Hget. right. now apply IH.
Qed.

Lemma tags_known_same tags_ w w' :
  note_store w' = note_store w -> tags_known tags_ w -> tags_known tags_ w'.
Proof. unfold tags_known. now intros ->. Qed.

Lemma Note_add_tags_known tags_ note given :
  Forall (fun r => r ∈ dict.values tags_) given ->
  preserves (tags_known tags_) (Note_add_tags note given).
Proof.
  intros Hgiven. unfold Note_add_tags.
  induction Hgiven as [|tag given Htag _ IH]; cbn [for_each].
  - apply preserves_ret.
  - apply preserves_bind; [|intros _; exact IH].
    intros w Hw.
    destruct (tag_store w !! tag) as [t|] eqn:Ht.
    2:{ unfold bind at 1. unfold tag_at. rewrite Ht. exact Hw. }
    rewrite (bind_Ok _ _ _ _ _ (tag_at_run _ _ _ Ht)).
    destruct (note_store w !! note) as [n|] eqn:Hn.
    2:{ unfold bind at 1. unfold note_at. rewrite Hn. exact Hw. }
    rewrite (bind_Ok _ _ _ _ _ (note_at_run _ _ _ Hn)).
    rewrite (bind_Ok _ _ _ _ _ (logger_run _ _ _)).
    unfold Note_set_tags.
    erewrite bind_Ok; [|apply note_at_run; exact Hn].
    unfold tags_known in *. cbn.
    apply Forall_insert; [exact Hw|].
    intros r Hr. cbn in Hr. apply pyset_add_elem in Hr as [Hr | ->]; [|exact Htag].
    rewrite Forall_forall in Hw. apply (Hw n); [|exact Hr].
    eapply list_elem_of_lookup_2, Hn.
Qed.

Section KnownTags.
Variable remote : list request -> request -> response.

Lemma download_note_known self tags_ json :
  preserves (tags_known tags_)
    (note <- Note_from_json json self ;;
     Notebook_add_note self note ;;
     tag_jsons <- item_tags json ;;
     attached <- comprehension tag_jsons
                   (fun tag => lift KeyError (dict.get tags_ (tj_id tag))) ;;
     Note_add_tags note attached).
Proof.
  intros w Hw. destruct json as [|j|rn|j|items]; try exact Hw.
  destruct (notebook_store w !! self) as [nb|] eqn:Hself.
  - rewrite (bind_Ok _ _ _ _ _ (Note_from_json_run w rn self nb Hself)).
    erewrite bind_Ok.
    2:{ apply (Notebook_add_note_run _ self _ (Note_of rn self) nb).
        - cbn. apply list_lookup_middle. reflexivity.
        - exact Hself. }
    cbn [item_tags item lift fmap option_fmap option_map].
    unfold bind at 1. cbn [ret]. unfold bind at 1. rewrite attached_run.
    destruct (mapM _ (nr_tags rn)) as [attached|] eqn:Hattached; cbn [snd].
    + apply Note_add_tags_known.
      * apply mapM_Some in Hattached.
        induction Hattached as [|tag r tjs rs Hget _ IH]; constructor; auto.
        eapply dict_get_values, Hget.
      * unfold tags_known in *. cbn. apply Forall_app. split; [exact Hw|].
        constructor; [|constructor]. intros r Hr. inversion Hr.
    + unfold tags_known in *. cbn. apply Forall_app. split; [exact Hw|].
      constructor; [|constructor]. intros r Hr. inversion Hr.
  - unfold Note_from_json.
    cbn [item_title item_id item_content item_updated_at item lift fmap
         option_fmap option_map].
    unfold bind, notebook_at. cbn. rewrite Hself. exact Hw.
Qed.

(** X20.  [Notebook.download] only attaches tags of the dict it is given:
    if, before, every tag that a stored note carries is a value of that
    dict, then so it is afterwards, however the download ends and whatever
    the host sends.  Downloaded notes start without tags, so each of their
    tags is one the workspace knows. *)
Theorem download_attaches_known_tags (self : ref) (tags_ : dict.t ref) (w : World) :
  tags_known tags_ w ->
  tags_known tags_ (snd (Notebook_download remote self tags_ w)).
Proof.
  revert w. change (preserves (tags_known tags_) (Notebook_download remote self tags_)).
  unfold Notebook_download.
  apply preserves_bind; [auto with preserves | intros nb].
  apply preserves_bind; [|intros notes_json].
  { intros w Hw. unfold api_list_notebook_notes, api_get, api_request.
    destruct (uri_path _ _); exact Hw. }
  apply preserves_bind; [intros w Hw; exact Hw | intros _].
  apply preserves_bind; [auto with preserves | intros items].
  apply preserves_for_each. intros json. apply download_note_known.
Qed.

End KnownTags.

Lemma download_attaches_known_tags_witness :
  tags_known [(3, 0%nat)]
    (snd (Notebook_download shelf 0%nat [(3, 0%nat)] desk)).
Proof.
  apply download_attaches_known_tags.
  apply Forall_cons. split.
  - intros r Hr. apply list_elem_of_singleton in Hr. subst r. now left.
  - apply Forall_cons. split; [|apply Forall_nil_2].
    intros r Hr. inversion Hr.
Defined.
